(** * Tilck: signal delivery, signal syscalls, task switch and fault bridge

    A shallow embedding of [kernel/signal.c], of [switch_to_task] and the
    fault entry points of the RISC-V task-switch file, and of the bit-scan
    helpers of [include/tilck/common/utils.h], followed by the properties of
    the specification that are stated about them. The other helpers of
    [utils.h] and the terminal helpers of the debug panel
    ([modules/debugpanel/termutil.c]) are embedded as well, and the last
    part of the file states what the code does beyond the specification.

    Conventions of the embedding:
    - C integers are [Z] with the wrap-around of their type written out
      ([int] and [u32] are 32 bits wide, [ulong] is [NBITS] bits wide);
    - a [struct task *] is the thread id under which the task is stored in
      the task table, a [struct process *] is an index in the process store;
    - kernel code runs in the monad [M]: it threads the kernel state and
      stops at a failed [ASSERT], at a call that does not return, or at an
      operation that C leaves undefined. *)

From Stdlib Require Import ZArith Lia List Bool String.
From stdpp Require Import base option list gmap strings.

Local Open Scope Z_scope.

(** ** Build configuration

    [NBITS], [K_SIGACTION_MASK_WORDS] and [_NSIG] come from headers that are
    not part of the verified sources; the code is generic in them, and so is
    the embedding. *)

Class BuildConfig := {
  NBITS : Z;                      (* width of [ulong], in bits *)
  K_SIGACTION_MASK_WORDS : nat;   (* words of a signal bitmask *)
  _NSIG : Z;                      (* one more than the largest signal number *)
}.

(** The two word sizes the kernel is built for; [_NSIG] is the size of the
    table of default actions, whose initialisers go up to index 31, and a
    bitmask has at least one word. *)
Definition config_wf `{BuildConfig} : Prop :=
  (NBITS = 32 \/ NBITS = 64) /\ 32 <= _NSIG /\
  (1 <= K_SIGACTION_MASK_WORDS)%nat.

(** A 32-bit build (two mask words) and a 64-bit build (one mask word):
    in both the mask has 64 bits, one per signal number below [_NSIG]. *)
Definition config32 : BuildConfig :=
  {| NBITS := 32; K_SIGACTION_MASK_WORDS := 2; _NSIG := 65 |}.
Definition config64 : BuildConfig :=
  {| NBITS := 64; K_SIGACTION_MASK_WORDS := 1; _NSIG := 65 |}.

(** ** C integer types *)

Module CInt.

(** Conversion to [int]: two's complement on 32 bits. *)
Definition to_int (z : Z) : Z := (z + 2 ^ 31) mod 2 ^ 32 - 2 ^ 31.

(** Conversion to [u32]. *)
Definition to_u32 (z : Z) : Z := z mod 2 ^ 32.

(** Conversion to [u64] ([1ull << i] lives there). *)
Definition to_u64 (z : Z) : Z := z mod 2 ^ 64.

(** Conversion to [ulong]; on a negative [int] this is the sign extension
    that C's usual arithmetic conversions perform. *)
Definition to_ulong `{BuildConfig} (z : Z) : Z := z mod 2 ^ NBITS.

(** [IN_RANGE(x, a, b)]: [a <= x < b]. *)
Definition IN_RANGE (x a b : Z) : bool := (a <=? x) && (x <? b).

End CInt.
Import CInt.

(** ** Kernel data model *)

Module Kernel.

(** [enum task_state], as far as the verified code uses it. *)
Inductive task_state :=
| TASK_STATE_RUNNABLE
| TASK_STATE_RUNNING
| TASK_STATE_SLEEPING
| TASK_STATE_ZOMBIE.

#[global] Instance task_state_eq_dec : EqDecision task_state.
Proof. solve_decision. Defined.

(** Modelled from the spec: [enum wo_type], what a sleeping task waits on
    (its header is not among the sources; signal.c names [WOBJ_KMUTEX] and
    [WOBJ_SEM]): "a wait object — mutex, semaphore, or generic condition". *)
Inductive wo_type :=
| WOBJ_NONE
| WOBJ_KMUTEX
| WOBJ_KCOND
| WOBJ_TASK
| WOBJ_SEM
| WOBJ_MWO_WAITER
| WOBJ_MWO_ELEM.

#[global] Instance wo_type_eq_dec : EqDecision wo_type.
Proof. solve_decision. Defined.

(** The part of [regs_t] that the task-switch file reads or writes. *)
Record regs_t := mk_regs {
  kernel_resume_pc : Z;
  sepc : Z;
  sstatus : Z;
  sp : Z;
  usersp : Z;
  ra : Z;
  a0 : Z;
}.

(** [struct task]. The thread id is the key of the task in the task table:
    [ti->tid] is the pointer itself. *)
Record task := mk_task {
  pi : nat;                     (* struct process *pi *)
  state : task_state;
  stopped : bool;
  vfork_stopped : bool;
  wstatus : Z;
  wobj_type : wo_type;          (* ti->wobj.type *)
  pending_signums : list Z;     (* ulong pending_signums[K_SIGACTION_MASK_WORDS] *)
  running_in_kernel : bool;
  timer_ready : bool;
  timeslice : Z;                (* ti->ticks.timeslice *)
  state_regs : regs_t;          (* *ti->state_regs *)
  fpu_regs : bool;              (* get_task_arch_fields(ti)->fpu_regs != NULL *)
}.

(** [struct process]. *)
Record process := mk_process {
  pid : Z;
  sa_handlers : list Z;         (* __sighandler_t sa_handlers[] *)
  sa_mask : list Z;             (* ulong sa_mask[K_SIGACTION_MASK_WORDS] *)
  after_sa_mask : nat -> Z;     (* the bytes that follow sa_mask in memory *)
  pdir : Z;
}.

(** The events of [wake_up_tasks_waiting_on] that signal.c raises. *)
Inductive wait_event := task_stopped | task_continued.

(** What the kernel does that is visible outside the task and process
    structures. *)
Inductive printk_arg := ArgInt (z : Z) | ArgStr (s : string) | ArgSignalName (signum : Z).

Inductive event :=
| Printk (fmt : string) (args : list printk_arg)
| TraceSignalDelivered (tid signum : Z)
| SaveCurrentFpuRegs
| RestoreFpuRegs (tid : Z)
| ResetKernelStack (tid : Z)
| PopNestedInterrupts
| AdjustNestedInterrupts (tid : Z).

(** User memory: a byte per mapped address. *)
Definition umem := Z -> option Z.

Record kstate := mk_kstate {
  tasks : gmap Z task;                (* get_task(tid) *)
  procs : nat -> process;             (* the process store *)
  curr : option Z;                    (* get_curr_task() *)
  disable_preempt : nat;              (* the preemption gate's counter *)
  interrupts_enabled : bool;
  curr_pdir : Z;                      (* get_curr_pdir() *)
  user : umem;
  after_zero_page : nat -> Z;         (* the bytes that follow zero_page in memory *)
  log : list event;                   (* newest first *)
}.

(** Calls after which control does not come back to the caller. *)
Inductive noreturn_call :=
| terminate_process (exit_code term_sig : Z)
| context_switch (r : regs_t)
| in_collaborator (name : string).   (* a collaborator keeps control *)

Inductive stop_reason :=
| AssertFailed (expr : string)
| PanicCalled (fmt : string) (args : list printk_arg)
| NullDeref                      (* a task pointer that is not in the table *)
| OutOfBounds (array : string) (index : Z)
| UndefinedShift (count : Z).    (* shift of an int by a count outside 0..31 *)

Inductive outcome (A : Type) :=
| Ret (a : A) (s : kstate)                  (* the call returns *)
| NoReturn (c : noreturn_call) (s : kstate) (* control is transferred away *)
| Stop (r : stop_reason).                   (* the kernel halts, or C gives no meaning *)

Arguments Ret {A} a s.
Arguments NoReturn {A} c s.
Arguments Stop {A} r.

Definition M (A : Type) := kstate -> outcome A.

Definition ret {A} (a : A) : M A := fun s => Ret a s.

Definition bind {A B} (m : M A) (k : A -> M B) : M B :=
  fun s => match m s with
           | Ret a s' => k a s'
           | NoReturn c s' => NoReturn c s'
           | Stop r => Stop r
           end.

Definition stop {A} (r : stop_reason) : M A := fun _ => Stop r.
Definition noreturn {A} (c : noreturn_call) : M A := fun s => NoReturn c s.
Definition get : M kstate := fun s => Ret s s.
Definition put (s : kstate) : M unit := fun _ => Ret tt s.

(** [ASSERT(cond)] of a debug build: a failed assertion halts the kernel. *)
Definition ASSERT (cond : bool) (expr : string) : M unit :=
  if cond then ret tt else stop (AssertFailed expr).

Definition when (c : bool) (m : M unit) : M unit := if c then m else ret tt.

End Kernel.
Import Kernel.

(** [M] is a monad in stdpp's sense: [x ← m; k] and [m;; k] sequence calls. *)
#[global] Instance M_ret : MRet M := @ret.
#[global] Instance M_bind : MBind M := fun A B k m => bind m k.


(** ** Field updates and kernel primitives *)

Module Prim.

Definition set_state (v : task_state) (t : task) : task :=
  mk_task (pi t) v (stopped t) (vfork_stopped t) (wstatus t) (wobj_type t)
          (pending_signums t) (running_in_kernel t) (timer_ready t)
          (timeslice t) (state_regs t) (fpu_regs t).

Definition set_stopped (v : bool) (t : task) : task :=
  mk_task (pi t) (state t) v (vfork_stopped t) (wstatus t) (wobj_type t)
          (pending_signums t) (running_in_kernel t) (timer_ready t)
          (timeslice t) (state_regs t) (fpu_regs t).

Definition set_wstatus (v : Z) (t : task) : task :=
  mk_task (pi t) (state t) (stopped t) (vfork_stopped t) v (wobj_type t)
          (pending_signums t) (running_in_kernel t) (timer_ready t)
          (timeslice t) (state_regs t) (fpu_regs t).

Definition set_pending_signums (v : list Z) (t : task) : task :=
  mk_task (pi t) (state t) (stopped t) (vfork_stopped t) (wstatus t)
          (wobj_type t) v (running_in_kernel t) (timer_ready t)
          (timeslice t) (state_regs t) (fpu_regs t).

Definition set_timer_ready (v : bool) (t : task) : task :=
  mk_task (pi t) (state t) (stopped t) (vfork_stopped t) (wstatus t)
          (wobj_type t) (pending_signums t) (running_in_kernel t) v
          (timeslice t) (state_regs t) (fpu_regs t).

Definition set_timeslice (v : Z) (t : task) : task :=
  mk_task (pi t) (state t) (stopped t) (vfork_stopped t) (wstatus t)
          (wobj_type t) (pending_signums t) (running_in_kernel t)
          (timer_ready t) v (state_regs t) (fpu_regs t).

Definition set_sa_handlers (v : list Z) (p : process) : process :=
  mk_process (pid p) v (sa_mask p) (after_sa_mask p) (pdir p).

Definition set_sa_mask (v : list Z) (p : process) : process :=
  mk_process (pid p) (sa_handlers p) v (after_sa_mask p) (pdir p).

Definition set_tasks (v : gmap Z task) (s : kstate) : kstate :=
  mk_kstate v (procs s) (curr s) (disable_preempt s) (interrupts_enabled s)
            (curr_pdir s) (user s) (after_zero_page s) (log s).

Definition set_procs (v : nat -> process) (s : kstate) : kstate :=
  mk_kstate (tasks s) v (curr s) (disable_preempt s) (interrupts_enabled s)
            (curr_pdir s) (user s) (after_zero_page s) (log s).

Definition set_curr (v : option Z) (s : kstate) : kstate :=
  mk_kstate (tasks s) (procs s) v (disable_preempt s) (interrupts_enabled s)
            (curr_pdir s) (user s) (after_zero_page s) (log s).

Definition set_disable_preempt (v : nat) (s : kstate) : kstate :=
  mk_kstate (tasks s) (procs s) (curr s) v (interrupts_enabled s)
            (curr_pdir s) (user s) (after_zero_page s) (log s).

Definition set_interrupts_enabled (v : bool) (s : kstate) : kstate :=
  mk_kstate (tasks s) (procs s) (curr s) (disable_preempt s) v
            (curr_pdir s) (user s) (after_zero_page s) (log s).

Definition set_curr_pdir_field (v : Z) (s : kstate) : kstate :=
  mk_kstate (tasks s) (procs s) (curr s) (disable_preempt s) (interrupts_enabled s)
            v (user s) (after_zero_page s) (log s).

Definition set_user (v : umem) (s : kstate) : kstate :=
  mk_kstate (tasks s) (procs s) (curr s) (disable_preempt s) (interrupts_enabled s)
            (curr_pdir s) v (after_zero_page s) (log s).

Definition set_log (v : list event) (s : kstate) : kstate :=
  mk_kstate (tasks s) (procs s) (curr s) (disable_preempt s) (interrupts_enabled s)
            (curr_pdir s) (user s) (after_zero_page s) v.

Definition modify (f : kstate -> kstate) : M unit := fun s => Ret tt (f s).

(** An effect that is recorded, not interpreted. *)
Definition emit (e : event) : M unit := modify (fun s => set_log (e :: log s) s).

(** [*ti]: reading through a task pointer. *)
Definition load_task (ti : Z) : M task :=
  fun s => match tasks s !! ti with
           | Some t => Ret t s
           | None => Stop NullDeref
           end.

(** [ti->field = v] *)
Definition update_task (ti : Z) (f : task -> task) : M unit :=
  t ← load_task ti;
  modify (fun s => set_tasks (<[ti := f t]> (tasks s)) s).

(** [*pi] and [pi->field = v] *)
Definition load_proc (p : nat) : M process := fun s => Ret (procs s p) s.

Definition update_proc (p : nat) (f : process -> process) : M unit :=
  modify (fun s =>
    set_procs (fun q => if decide (q = p) then f (procs s q) else procs s q) s).

(** [arr[i]] and [arr[i] = v] on a C array, kept as a list: an index
    outside the array is reported instead of being given a meaning. *)
Definition array_get (name : string) (arr : list Z) (i : Z) : M Z :=
  if (0 <=? i) && (i <? Z.of_nat (length arr))
  then mret (nth (Z.to_nat i) arr 0)
  else stop (OutOfBounds name i).

Definition array_set (name : string) (arr : list Z) (i : Z) (v : Z) : M (list Z) :=
  if (0 <=? i) && (i <? Z.of_nat (length arr))
  then mret (<[Z.to_nat i := v]> arr)
  else stop (OutOfBounds name i).

(** [get_curr_task()], [get_task(tid)]: [None] is the NULL pointer. *)
Definition get_curr_task : M (option Z) := fun s => Ret (curr s) s.

Definition get_task (tid : Z) : M (option Z) :=
  fun s => Ret (match tasks s !! tid with Some _ => Some tid | None => None end) s.

(** Modelled from the spec: [kernel_process_pi] and [is_kernel_thread]
    (tilck/kernel/process.h and sched.h are not among the sources). A
    kernel-only thread is a thread with no owning user process: its [pi]
    is the kernel's own process. *)
Definition kernel_process_pi : nat := 0%nat.

Definition is_kernel_thread (ti : Z) : M bool :=
  t ← load_task ti; mret (bool_decide (pi t = kernel_process_pi)).

(** Modelled from the spec: the preemption gate (tilck/kernel/sched.h is not
    among the sources), "a counted disable/enable gate". *)
Definition disable_preemption : M unit :=
  modify (fun s => set_disable_preempt (S (disable_preempt s)) s).

Definition is_preemption_enabled : M bool :=
  fun s => Ret (bool_decide (disable_preempt s = 0%nat)) s.

Definition enable_preemption : M unit :=
  s ← get;
  ASSERT (bool_decide (disable_preempt s ≠ 0%nat)) "oldval > 0";;
  put (set_disable_preempt (Nat.pred (disable_preempt s)) s).

(** Modelled from the spec: [task_change_state] (tilck/kernel/sched.h is not
    among the sources) writes the state field, and
    [task_change_state_idempotent] does so only when the state differs. *)
Definition task_change_state (ti : Z) (new_state : task_state) : M unit :=
  update_task ti (set_state new_state).

Definition task_change_state_idempotent (ti : Z) (new_state : task_state) : M unit :=
  t ← load_task ti;
  if decide (state t = new_state) then mret tt
  else task_change_state ti new_state.

(** [1 << index] on [int]: C gives it a value for counts 0..31 only (the
    result for 31 wraps to [INT_MIN], as GCC defines it). *)
Definition int_shl (a n : Z) : M Z :=
  if (0 <=? n) && (n <? 32) then mret (to_int (Z.shiftl a n))
  else stop (UndefinedShift n).

End Prim.
Import Prim.

(** ** include/tilck/common/utils.h *)

Module Utils.

(** The [for] loop of [get_first_set_bit_index] and of
    [get_first_set_bit_index64], which differ in the type of the shifted 1
    ([1U] of 32 bits, [1ull] of 64 bits): [n] iterations are left, [i] is the
    loop variable. *)
Fixpoint first_set_bit_loop (bits : Z) (n : nat) (i : Z) (num : Z) : Z :=
  match n with
  | O => i
  | S n' =>
      if decide (Z.land num (Z.shiftl 1 i mod 2 ^ bits) ≠ 0) then i
      else first_set_bit_loop bits n' (i + 1) num
  end.

Definition get_first_set_bit_index (num : Z) : M Z :=
  ASSERT (bool_decide (num ≠ 0)) "num != 0";;
  mret (first_set_bit_loop 32 32 0 num).

Definition get_first_set_bit_index64 (num : Z) : M Z :=
  ASSERT (bool_decide (num ≠ 0)) "num != 0";;
  mret (first_set_bit_loop 64 64 0 num).

(** Modelled from the spec: [get_first_set_bit_index_l], the [ulong] variant
    that [get_first_pending_sig] calls, is not in this utils.h; it is the
    32-bit or the 64-bit scan, by the width of [ulong]. *)
Definition get_first_set_bit_index_l `{BuildConfig} (num : Z) : M Z :=
  if decide (NBITS = 32) then get_first_set_bit_index num
  else get_first_set_bit_index64 num.

End Utils.
Import Utils.


(** ** User memory *)

Module User.

(** Little-endian bytes of a word, and back. *)
Fixpoint le_split (n : nat) (w : Z) : list Z :=
  match n with
  | O => []
  | S n' => Z.land w 255 :: le_split n' (Z.shiftr w 8)
  end.

Fixpoint le_combine (bs : list Z) : Z :=
  match bs with
  | [] => 0
  | b :: bs' => Z.lor (Z.land b 255) (Z.shiftl (le_combine bs') 8)
  end.

(** [sizeof(ulong)] *)
Definition sizeof_ulong `{BuildConfig} : nat := Z.to_nat (NBITS / 8).

Definition bytes_of_words `{BuildConfig} (ws : list Z) : list Z :=
  concat (map (le_split sizeof_ulong) ws).

(** Reading [n] bytes from [src], in ascending order; [None] at the first
    unmapped address. *)
Fixpoint read_bytes (m : umem) (src : Z) (n : nat) : option (list Z) :=
  match n with
  | O => Some []
  | S n' =>
      match m src with
      | None => None
      | Some b =>
          match read_bytes m (src + 1) n' with
          | None => None
          | Some bs => Some (b :: bs)
          end
      end
  end.

(** Writing bytes from [dst] on, in ascending order; the copy stops at the
    first unmapped address, with the bytes before it written. *)
Fixpoint write_bytes (m : umem) (dst : Z) (bs : list Z) : bool * umem :=
  match bs with
  | [] => (true, m)
  | b :: bs' =>
      match m dst with
      | None => (false, m)
      | Some _ =>
          write_bytes (fun a => if decide (a = dst) then Some b else m a)
                      (dst + 1) bs'
      end
  end.

(** Modelled from the spec: [copy_from_user] and [copy_to_user]
    (tilck/kernel/user.h is not among the sources), "user/kernel memory copy
    primitives that fail with a fault indication on invalid user pointers".
    [copy_from_user] yields the bytes read, or [None] for a non-zero return
    code; [copy_to_user] yields [true] for the return code 0. *)
Definition copy_from_user (src : Z) (n : nat) : M (option (list Z)) :=
  fun s => Ret (read_bytes (user s) src n) s.

Definition copy_to_user (dst : Z) (bs : list Z) : M bool :=
  fun s => let '(ok, m) := write_bytes (user s) dst bs in Ret ok (set_user m s).

End User.
Import User.


(** ** kernel/signal.c *)

Module Signal.

(** Error codes, signal numbers, handler values and flags: the Linux values
    of the headers this file includes. *)
Definition ESRCH : Z := 3.
Definition EFAULT : Z := 14.
Definition EINVAL : Z := 22.

Definition SIGHUP : Z := 1.
Definition SIGINT : Z := 2.
Definition SIGQUIT : Z := 3.
Definition SIGILL : Z := 4.
Definition SIGTRAP : Z := 5.
Definition SIGABRT : Z := 6.
Definition SIGBUS : Z := 7.
Definition SIGFPE : Z := 8.
Definition SIGKILL : Z := 9.
Definition SIGUSR1 : Z := 10.
Definition SIGSEGV : Z := 11.
Definition SIGUSR2 : Z := 12.
Definition SIGPIPE : Z := 13.
Definition SIGALRM : Z := 14.
Definition SIGTERM : Z := 15.
Definition SIGCHLD : Z := 17.
Definition SIGCONT : Z := 18.
Definition SIGSTOP : Z := 19.
Definition SIGTSTP : Z := 20.
Definition SIGTTIN : Z := 21.
Definition SIGTTOU : Z := 22.
Definition SIGURG : Z := 23.
Definition SIGXCPU : Z := 24.
Definition SIGXFSZ : Z := 25.
Definition SIGVTALRM : Z := 26.
Definition SIGPROF : Z := 27.
Definition SIGPOLL : Z := 29.
Definition SIGSYS : Z := 31.

Definition SIG_DFL : Z := 0.
Definition SIG_IGN : Z := 1.

Definition SIG_BLOCK : Z := 0.
Definition SIG_UNBLOCK : Z := 1.
Definition SIG_SETMASK : Z := 2.

Definition SA_NOCLDSTOP : Z := 1.
Definition SA_NOCLDWAIT : Z := 2.
Definition SA_SIGINFO : Z := 4.
Definition SA_ONSTACK : Z := 0x08000000.
Definition SA_RESTART : Z := 0x10000000.
Definition SA_NODEFER : Z := 0x40000000.
Definition SA_RESETHAND : Z := 0x80000000.

(** [STOPCODE(signum)] and [CONTINUED], the wait-status encodings. *)
Definition STOPCODE (signum : Z) : Z := Z.lor (Z.shiftl signum 8) 0x7f.
Definition CONTINUED : Z := 0xffff.

(** The scheduler entry points that the stop and continue actions call.
    They belong to collaborators of this file, and the embedding is generic
    in them. *)
Class Collaborators := {
  wake_up_tasks_waiting_on : Z -> wait_event -> M unit;
  kernel_yield_preempt_disabled : M unit;
}.

(** [action_type]: a pointer to a function of a task and a signal number. *)
Definition action_type := Z -> Z -> M unit.

(** [struct k_sigaction] *)
Record k_sigaction := mk_k_sigaction {
  handler : Z;
  sa_flags : Z;
  restorer : Z;
  ksa_mask : list Z;
}.

Section WithConfig.
Context `{BuildConfig} `{Collaborators}.

Definition add_pending_sig (ti : Z) (signum : Z) : M unit :=
  ASSERT (bool_decide (signum > 0)) "signum > 0";;
  let signum := signum - 1 in
  let slot := Z.quot signum NBITS in
  let index := Z.rem signum NBITS in
  if decide (slot >= Z.of_nat K_SIGACTION_MASK_WORDS) then mret tt
  else
    t ← load_task ti;
    w ← array_get "pending_signums" (pending_signums t) slot;
    bit ← int_shl 1 index;
    ws ← array_set "pending_signums" (pending_signums t) slot
                   (Z.lor w (to_ulong bit));
    update_task ti (set_pending_signums ws).

Definition del_pending_sig (ti : Z) (signum : Z) : M unit :=
  ASSERT (bool_decide (signum > 0)) "signum > 0";;
  let signum := signum - 1 in
  let slot := Z.quot signum NBITS in
  let index := Z.rem signum NBITS in
  if decide (slot >= Z.of_nat K_SIGACTION_MASK_WORDS) then mret tt
  else
    t ← load_task ti;
    w ← array_get "pending_signums" (pending_signums t) slot;
    bit ← int_shl 1 index;
    ws ← array_set "pending_signums" (pending_signums t) slot
                   (Z.land w (to_ulong (Z.lnot bit)));
    update_task ti (set_pending_signums ws).

Definition is_pending_sig (ti : Z) (signum : Z) : M bool :=
  ASSERT (bool_decide (signum > 0)) "signum > 0";;
  let signum := signum - 1 in
  let slot := Z.quot signum NBITS in
  let index := Z.rem signum NBITS in
  if decide (slot >= Z.of_nat K_SIGACTION_MASK_WORDS) then mret false
  else
    t ← load_task ti;
    w ← array_get "pending_signums" (pending_signums t) slot;
    bit ← int_shl 1 index;
    mret (bool_decide (Z.land w (to_ulong bit) ≠ 0)).

(** The loop of [get_first_pending_sig]: [n] iterations are left, [i] is
    the loop variable. *)
Fixpoint get_first_pending_sig_loop (n : nat) (i : Z) (ti : Z) : M Z :=
  match n with
  | O => mret (-1)
  | S n' =>
      t ← load_task ti;
      val ← array_get "pending_signums" (pending_signums t) i;
      if decide (val ≠ 0) then
        idx ← get_first_set_bit_index_l val;
        let signum := to_u32 (i * NBITS + idx + 1) in
        mret (to_int signum)
      else get_first_pending_sig_loop n' (i + 1) ti
  end.

Definition get_first_pending_sig (ti : Z) : M Z :=
  get_first_pending_sig_loop K_SIGACTION_MASK_WORDS 0 ti.

Definition process_signals : M bool :=
  pe ← is_preemption_enabled;
  ASSERT (negb pe) "!is_preemption_enabled()";;
  c ← get_curr_task;
  match c with
  | None => stop NullDeref
  | Some curr =>
      sig ← get_first_pending_sig curr;
      if decide (sig > 0) then
        emit (TraceSignalDelivered curr sig);;
        enable_preemption;;
        noreturn (terminate_process 0 sig)
      else mret false
  end.

Definition action_terminate : action_type := fun ti signum =>
  pe ← is_preemption_enabled;
  ASSERT (negb pe) "!is_preemption_enabled()";;
  kt ← is_kernel_thread ti;
  ASSERT (negb kt) "!is_kernel_thread(ti)";;
  c ← get_curr_task;
  if decide (Some ti = c) then
    enable_preemption;;
    pe' ← is_preemption_enabled;
    ASSERT pe' "is_preemption_enabled()";;
    noreturn (terminate_process 0 signum)
  else
    add_pending_sig ti signum;;
    t ← load_task ti;
    if negb (vfork_stopped t) then
      (if decide (state t = TASK_STATE_SLEEPING) then
         if decide (wobj_type t ≠ WOBJ_KMUTEX ∧ wobj_type t ≠ WOBJ_SEM)
         then task_change_state ti TASK_STATE_RUNNABLE
         else mret tt
       else mret tt);;
      update_task ti (set_stopped false)
    else
      mret tt.

Definition action_ignore : action_type := fun ti signum =>
  _ ← load_task ti;
  if decide (ti = 1) then
    emit (Printk "WARNING: ignoring signal %s[%d] sent to init (pid 1)\n"
                 [ArgSignalName signum; ArgInt signum])
  else mret tt.

Definition action_stop : action_type := fun ti signum =>
  kt ← is_kernel_thread ti;
  ASSERT (negb kt) "!is_kernel_thread(ti)";;
  emit (TraceSignalDelivered ti signum);;
  update_task ti (set_stopped true);;
  update_task ti (set_wstatus (STOPCODE signum));;
  wake_up_tasks_waiting_on ti task_stopped;;
  c ← get_curr_task;
  if decide (Some ti = c) then kernel_yield_preempt_disabled else mret tt.

Definition action_continue : action_type := fun ti signum =>
  kt ← is_kernel_thread ti;
  ASSERT (negb kt) "!is_kernel_thread(ti)";;
  t ← load_task ti;
  if vfork_stopped t then mret tt
  else
    emit (TraceSignalDelivered ti signum);;
    update_task ti (set_stopped false);;
    update_task ti (set_wstatus CONTINUED);;
    wake_up_tasks_waiting_on ti task_continued.

(** The designated initialisers of [signal_default_actions], in the order
    of the source; an index that is not listed holds NULL. *)
Definition signal_default_actions_init : list (Z * action_type) :=
  [ (SIGHUP, action_terminate);
    (SIGINT, action_terminate);
    (SIGQUIT, action_terminate);
    (SIGILL, action_terminate);
    (SIGABRT, action_terminate);
    (SIGFPE, action_terminate);
    (SIGKILL, action_terminate);
    (SIGSEGV, action_terminate);
    (SIGPIPE, action_terminate);
    (SIGALRM, action_terminate);
    (SIGTERM, action_terminate);
    (SIGUSR1, action_terminate);
    (SIGUSR2, action_terminate);
    (SIGCHLD, action_ignore);
    (SIGCONT, action_continue);
    (SIGSTOP, action_stop);
    (SIGTSTP, action_stop);
    (SIGTTIN, action_stop);
    (SIGTTOU, action_stop);
    (SIGBUS, action_terminate);
    (SIGPOLL, action_terminate);
    (SIGPROF, action_terminate);
    (SIGSYS, action_terminate);
    (SIGTRAP, action_terminate);
    (SIGURG, action_ignore);
    (SIGVTALRM, action_terminate);
    (SIGXCPU, action_terminate);
    (SIGXFSZ, action_terminate) ].

Fixpoint table_lookup (tbl : list (Z * action_type)) (i : Z) : option action_type :=
  match tbl with
  | [] => None
  | (k, f) :: tbl' => if decide (k = i) then Some f else table_lookup tbl' i
  end.

(** [signal_default_actions[signum]]; [None] is NULL. *)
Definition signal_default_actions (signum : Z) : option action_type :=
  table_lookup signal_default_actions_init signum.

Definition do_send_signal (ti : Z) (signum : Z) : M unit :=
  ASSERT (IN_RANGE signum 0 _NSIG) "IN_RANGE(signum, 0, _NSIG)";;
  if decide (signum = 0) then mret tt
  else
    t ← load_task ti;
    p ← load_proc (pi t);
    h ← array_get "sa_handlers" (sa_handlers p) (signum - 1);
    if decide (h = SIG_IGN) then action_ignore ti signum
    else if decide (h ≠ SIG_DFL) then
      (* DIRTY HACK: treat custom signal handlers as SIG_IGN *)
      mret tt
    else
      ASSERT (bool_decide (h = SIG_DFL)) "h == SIG_DFL";;
      let action_func :=
        match signal_default_actions signum with
        | Some f => Some f
        | None => Some action_terminate
        end in
      match action_func with
      | None => mret tt
      | Some f => f ti signum
      end.

(** The body of [send_signal2] between [disable_preemption()] and the
    labels [end] and [err_end]: it yields the value of [rc] there. *)
Definition send_signal2_body (pid tid signum : Z) (whole_process : bool) : M Z :=
  o ← get_task tid;
  match o with
  | None => mret (- ESRCH)
  | Some ti =>
      kt ← is_kernel_thread ti;
      if (kt : bool) then mret (- ESRCH)
      else
        t ← load_task ti;
        p ← load_proc (pi t);
        if whole_process && bool_decide (Kernel.pid p ≠ tid)
        then mret (- ESRCH)
        else if decide (Kernel.pid p ≠ pid) then mret (- ESRCH)
        else if decide (signum = 0) then mret 0
        else if decide (state t = TASK_STATE_ZOMBIE) then mret 0
        else do_send_signal ti signum;; mret 0
  end.

Definition send_signal2 (pid tid signum : Z) (whole_process : bool) : M Z :=
  disable_preemption;;
  rc ← send_signal2_body pid tid signum whole_process;
  enable_preemption;;
  mret rc.

(** *** Syscalls *)

(** Modelled from the spec: the layout of [struct k_sigaction]
    (tilck/kernel/signal.h is not among the sources): the handler, the
    flags, the restorer and the mask, a word each and [K_SIGACTION_MASK_WORDS]
    words for the mask. *)
Fixpoint words_of_bytes (n : nat) (bs : list Z) : list Z :=
  match n with
  | O => []
  | S n' => le_combine (take sizeof_ulong bs)
            :: words_of_bytes n' (drop sizeof_ulong bs)
  end.

Definition sizeof_sa_mask : nat := (K_SIGACTION_MASK_WORDS * sizeof_ulong)%nat.

Definition sizeof_k_sigaction : nat := (3 * sizeof_ulong + sizeof_sa_mask)%nat.

Definition k_sigaction_of_bytes (bs : list Z) : k_sigaction :=
  let ws := words_of_bytes (3 + K_SIGACTION_MASK_WORDS) bs in
  mk_k_sigaction (nth 0 ws 0) (nth 1 ws 0) (nth 2 ws 0) (drop 3 ws).

Definition bytes_of_k_sigaction (a : k_sigaction) : list Z :=
  bytes_of_words (handler a :: sa_flags a :: restorer a :: ksa_mask a).

(** [get_curr_proc()]: the process of the current task. *)
Definition get_curr_proc : M nat :=
  c ← get_curr_task;
  match c with
  | None => stop NullDeref
  | Some curr => t ← load_task curr; mret (pi t)
  end.

Definition sigaction_int (signum : Z) (user_act : Z) : M Z :=
  r ← copy_from_user user_act sizeof_k_sigaction;
  match r with
  | None => mret (- EFAULT)
  | Some bs =>
      let act := k_sigaction_of_bytes bs in
      if decide (Z.land (sa_flags act) SA_NOCLDSTOP ≠ 0) then mret (- EINVAL)
      else if decide (Z.land (sa_flags act) SA_NOCLDWAIT ≠ 0) then mret (- EINVAL)
      else if decide (Z.land (sa_flags act) SA_SIGINFO ≠ 0) then mret (- EINVAL)
      else if decide (Z.land (sa_flags act) SA_ONSTACK ≠ 0) then mret (- EINVAL)
      else
        (* SA_RESETHAND, SA_NODEFER, SA_RESTART: empty branches *)
        pi ← get_curr_proc;
        p ← load_proc pi;
        hs ← array_set "sa_handlers" (sa_handlers p) (signum - 1) (handler act);
        update_proc pi (set_sa_handlers hs);;
        mret 0
  end.

Definition sys_rt_sigaction
    (signum : Z) (user_act : Z) (user_oldact : Z) (sigsetsize : Z) : M Z :=
  if negb (IN_RANGE signum 1 _NSIG) then mret (- EINVAL)
  else if decide (signum = SIGKILL ∨ signum = SIGSTOP) then mret (- EINVAL)
  else if decide (sigsetsize ≠ Z.of_nat sizeof_sa_mask) then mret (- EINVAL)
  else
    disable_preemption;;
    oldact ← (if decide (user_oldact ≠ 0) then
                pi ← get_curr_proc;
                p ← load_proc pi;
                h ← array_get "sa_handlers" (sa_handlers p) (signum - 1);
                mret (mk_k_sigaction h 0 0 (take K_SIGACTION_MASK_WORDS (sa_mask p)))
              else
                (* oldact stays uninitialised: it is not read below *)
                mret (mk_k_sigaction 0 0 0 []));
    rc ← (if decide (user_act ≠ 0) then sigaction_int signum user_act
          else mret 0);
    enable_preemption;;
    if decide (rc = 0 ∧ user_oldact ≠ 0) then
      ok ← copy_to_user user_oldact (bytes_of_k_sigaction oldact);
      if (ok : bool) then mret rc else mret (- EFAULT)
    else mret rc.

(** [PAGE_SIZE] bytes of zeroes, and what follows them when more are read. *)
Definition PAGE_SIZE : nat := 4096%nat.

Definition zero_page (s : kstate) (n : nat) : list Z :=
  take n (repeat 0 PAGE_SIZE ++ map (after_zero_page s) (seq 0 (n - PAGE_SIZE))).

(** The [sigsetsize] bytes that start at [pi->sa_mask]. *)
Definition sa_mask_bytes (p : process) (n : nat) : list Z :=
  take n (bytes_of_words (sa_mask p)
          ++ map (after_sa_mask p) (seq 0 (n - sizeof_sa_mask))).

(** The [for] loop of [sys_rt_sigprocmask]: [n] iterations are left, [i] is
    the loop variable. It yields the return code of the syscall. *)
Fixpoint sigprocmask_loop (n : nat) (i : Z) (pi : nat) (how user_set : Z) : M Z :=
  match n with
  | O => mret 0
  | S n' =>
      r ← copy_from_user (user_set + i * Z.of_nat sizeof_ulong) sizeof_ulong;
      match r with
      | None => mret (- EFAULT)
      | Some bs =>
          let w := le_combine bs in
          p ← load_proc pi;
          if decide (how = SIG_BLOCK) then
            old ← array_get "sa_mask" (sa_mask p) i;
            ws ← array_set "sa_mask" (sa_mask p) i (Z.lor old w);
            update_proc pi (set_sa_mask ws);;
            sigprocmask_loop n' (i + 1) pi how user_set
          else if decide (how = SIG_UNBLOCK) then
            old ← array_get "sa_mask" (sa_mask p) i;
            ws ← array_set "sa_mask" (sa_mask p) i
                           (Z.land old (to_ulong (Z.lnot w)));
            update_proc pi (set_sa_mask ws);;
            sigprocmask_loop n' (i + 1) pi how user_set
          else if decide (how = SIG_SETMASK) then
            ws ← array_set "sa_mask" (sa_mask p) i w;
            update_proc pi (set_sa_mask ws);;
            sigprocmask_loop n' (i + 1) pi how user_set
          else mret (- EINVAL)
      end
  end.

(** The [if (user_oldset)] block: [Some rc] when it returns [rc] from the
    syscall, [None] when control goes on after it. *)
Definition sigprocmask_copy_out (pi : nat) (user_oldset sigsetsize : Z) : M (option Z) :=
  p ← load_proc pi;
  ok ← copy_to_user user_oldset (sa_mask_bytes p (Z.to_nat sigsetsize));
  if negb ok then mret (Some (- EFAULT))
  else if decide (sigsetsize > Z.of_nat sizeof_sa_mask) then
    let diff := Z.to_nat (sigsetsize - Z.of_nat sizeof_sa_mask) in
    s ← get;
    ok' ← copy_to_user (user_oldset + Z.of_nat sizeof_sa_mask) (zero_page s diff);
    if negb ok' then mret (Some (- EFAULT)) else mret None
  else mret None.

Definition sys_rt_sigprocmask
    (how : Z) (user_set : Z) (user_oldset : Z) (sigsetsize : Z) : M Z :=
  pi ← get_curr_proc;
  early ← (if decide (user_oldset ≠ 0)
           then sigprocmask_copy_out pi user_oldset sigsetsize
           else mret None);
  match early with
  | Some rc => mret rc
  | None =>
      if decide (user_set ≠ 0)
      then sigprocmask_loop K_SIGACTION_MASK_WORDS 0 pi how user_set
      else mret 0
  end.

(** The deprecated entry points: [NOT_IMPLEMENTED()] halts the kernel. *)
Definition sys_sigprocmask (a1 a2 a3 : Z) : M Z :=
  stop (PanicCalled "NOT_IMPLEMENTED" []).

Definition sys_sigaction (a1 a2 a3 : Z) : M Z :=
  stop (PanicCalled "NOT_IMPLEMENTED" []).

Definition sys_signal (signum handler : Z) : M Z :=
  stop (PanicCalled "NOT_IMPLEMENTED" []).

End WithConfig.
End Signal.


(** ** The RISC-V task-switch file: [switch_to_task] and the fault bridge *)

Module Switch.

(** Bits of [sstatus]. *)
Definition SR_SIE : Z := 0x2.
Definition SR_SPP : Z := 0x100.
Definition SR_FS : Z := 0x6000.

(** [enum sig_state], as far as this file names it. *)
Inductive sig_state := sig_pre_syscall | sig_in_usermode.

(** What this file calls in its collaborators, and the two flags of
    [send_signal] it passes on. [switch_to_task_safety_checks] is a group of
    assertions: it holds or the kernel halts. [process_signals] returns with
    a new kernel state or does not return. *)
Class Collaborators := {
  switch_to_task_safety_checks : Z -> Z -> kstate -> bool;
  process_signals : Z -> sig_state -> kstate -> option kstate;
  send_signal : Z -> Z -> Z -> M Z;
  SIG_FL_PROCESS : Z;
  SIG_FL_FAULT : Z;
}.

Section WithCollaborators.
Context `{Collaborators}.

Definition is_fpu_enabled_for_task (ti : Z) : M bool :=
  t ← load_task ti;
  mret (fpu_regs t && bool_decide (Z.land (sstatus (state_regs t)) SR_FS ≠ 0)).

Definition save_curr_fpu_ctx_if_enabled : M unit :=
  c ← get_curr_task;
  match c with
  | None => stop NullDeref
  | Some curr =>
      en ← is_fpu_enabled_for_task curr;
      if (en : bool) then emit SaveCurrentFpuRegs else mret tt
  end.

(** The calls of [switch_to_task] into the scheduler and the HAL. *)
Definition get_curr_pdir : M Z := fun s => Ret (curr_pdir s) s.
Definition set_curr_pdir (pd : Z) : M unit := modify (set_curr_pdir_field pd).
Definition restore_fpu_regs (ti : Z) : M unit := emit (RestoreFpuRegs ti).
Definition disable_interrupts_forced : M unit := modify (set_interrupts_enabled false).
Definition switch_to_task_pop_nested_interrupts : M unit := emit PopNestedInterrupts.
Definition enable_preemption_nosched : M unit := enable_preemption.
Definition task_info_reset_kernel_stack (ti : Z) : M unit := emit (ResetKernelStack ti).
Definition adjust_nested_interrupts_for_task_in_kernel (ti : Z) : M unit :=
  emit (AdjustNestedInterrupts ti).
Definition set_curr_task (ti : Z) : M unit := modify (set_curr (Some ti)).

Definition call_process_signals (ti : Z) (st : sig_state) : M unit :=
  fun s => match process_signals ti st s with
           | Some s' => Ret tt s'
           | None => NoReturn (in_collaborator "process_signals") s
           end.

(** [switch_to_task] does not return: its result type is empty. The saved
    registers that [state] points to are the [state_regs] of the task; they
    are read when control is transferred. *)
Definition switch_to_task (ti : Z) : M Empty_set :=
  _ ← load_task ti;
  c ← get_curr_task;
  ASSERT (bool_decide (c ≠ None)) "curr != NULL";;
  match c with
  | None => stop NullDeref
  | Some curr =>
      (if decide (ti ≠ curr) then
         tc ← load_task curr;
         ASSERT (bool_decide (state tc ≠ TASK_STATE_RUNNING))
                "curr->state != TASK_STATE_RUNNING";;
         t ← load_task ti;
         ASSERT (bool_decide (state t = TASK_STATE_RUNNABLE))
                "ti->state == TASK_STATE_RUNNABLE"
       else mret tt);;
      pe ← is_preemption_enabled;
      ASSERT (negb pe) "!is_preemption_enabled()";;
      s ← get;
      ASSERT (switch_to_task_safety_checks curr ti s)
             "switch_to_task_safety_checks(curr, ti)";;
      (* Do as much as possible work before disabling the interrupts *)
      task_change_state_idempotent ti TASK_STATE_RUNNING;;
      update_task ti (set_timeslice 0);;
      kc ← is_kernel_thread curr;
      tc ← load_task curr;
      (if negb kc && bool_decide (state tc ≠ TASK_STATE_ZOMBIE)
       then save_curr_fpu_ctx_if_enabled else mret tt);;
      kt ← is_kernel_thread ti;
      (if negb kt then
         t ← load_task ti;
         p ← load_proc (pi t);
         pd ← get_curr_pdir;
         (if decide (pd ≠ pdir p) then set_curr_pdir (pdir p) else mret tt);;
         (if negb (running_in_kernel t)
             && bool_decide (Z.land (sstatus (state_regs t)) SR_SPP = 0)
          then call_process_signals ti sig_in_usermode else mret tt);;
         en ← is_fpu_enabled_for_task ti;
         (if (en : bool) then restore_fpu_regs ti else mret tt)
       else mret tt);;
      (* From here until the end, we have to be as fast as possible *)
      disable_interrupts_forced;;
      switch_to_task_pop_nested_interrupts;;
      enable_preemption_nosched;;
      pe' ← is_preemption_enabled;
      ASSERT pe' "is_preemption_enabled()";;
      t ← load_task ti;
      (if negb (running_in_kernel t) then task_info_reset_kernel_stack ti
       else adjust_nested_interrupts_for_task_in_kernel ti);;
      set_curr_task ti;;
      update_task ti (set_timer_ready false);;
      t' ← load_task ti;
      noreturn (context_switch (state_regs t'))
  end.

(** [get_curr_tid()]: the thread id of the current task. *)
Definition get_curr_tid : M Z :=
  c ← get_curr_task;
  match c with
  | None => stop NullDeref
  | Some curr => _ ← load_task curr; mret curr
  end.

Definition handle_fatal_error (r : regs_t) (signum : Z) : M unit :=
  tid ← get_curr_tid;
  _ ← send_signal tid signum (Z.lor SIG_FL_PROCESS SIG_FL_FAULT);
  mret tt.

(** [!get_curr_task() || is_kernel_thread(get_curr_task())] *)
Definition no_user_task : M bool :=
  c ← get_curr_task;
  match c with
  | None => mret true
  | Some curr => is_kernel_thread curr
  end.

Definition panic (fmt : string) (args : list printk_arg) : M unit :=
  stop (PanicCalled fmt args).

(** Access fault handler *)
Definition handle_generic_fault_int (r : regs_t) (fault_name : string) : M unit :=
  b ← no_user_task;
  (if (b : bool) then panic "FAULT. Error: %s\n" [ArgStr fault_name] else mret tt);;
  handle_fatal_error r Signal.SIGSEGV.

(** Instruction illegal fault handler *)
Definition handle_inst_illegal_fault_int (r : regs_t) (fault_name : string) : M unit :=
  b ← no_user_task;
  (if (b : bool) then panic "FAULT. Error: %s\n" [ArgStr fault_name] else mret tt);;
  handle_fatal_error r Signal.SIGILL.

(** Misaligned fault handler *)
Definition handle_bus_fault_int (r : regs_t) (fault_name : string) : M unit :=
  b ← no_user_task;
  (if (b : bool) then panic "FAULT. Error: %s\n" [ArgStr fault_name] else mret tt);;
  handle_fatal_error r Signal.SIGBUS.

End WithCollaborators.
End Switch.


(** ** Vocabulary of the properties *)

Module Props.

Section WithConfig.
Context `{BuildConfig}.

(** The values of a [ulong]. *)
Definition ulong_range (w : Z) : Prop := 0 <= w < 2 ^ NBITS.

(** Signal [signum] (1-indexed) is pending in the bitmask [ws]: bit
    [(signum - 1) mod NBITS] of word [(signum - 1) / NBITS] is set. *)
Definition sig_pending (ws : list Z) (signum : Z) : bool :=
  Z.testbit (nth (Z.to_nat ((signum - 1) / NBITS)) ws 0) ((signum - 1) mod NBITS).

(** [r] is the lowest-numbered pending signal of [ws]. *)
Definition lowest_pending (ws : list Z) (r : Z) : Prop :=
  1 <= r /\ sig_pending ws r = true /\
  forall r', 1 <= r' -> sig_pending ws r' = true -> r <= r'.

End WithConfig.

(** [send_signal2] finds no task to signal: no task has thread id [tid], or
    that task is a kernel-only thread, or [whole_process] is set and [tid] is
    not the pid of the task's process, or that pid is not [pid]. *)
Definition no_such_task (s : kstate) (pid tid : Z) (whole_process : bool) : Prop :=
  match tasks s !! tid with
  | None => True
  | Some t =>
      pi t = kernel_process_pi \/
      (whole_process = true /\ Kernel.pid (procs s (pi t)) ≠ tid) \/
      Kernel.pid (procs s (pi t)) ≠ pid
  end.

#[global] Instance no_such_task_dec s pid tid wp : Decision (no_such_task s pid tid wp).
Proof. unfold no_such_task. destruct (tasks s !! tid); apply _. Defined.

Definition target_zombie (s : kstate) (tid : Z) : Prop :=
  exists t, tasks s !! tid = Some t /\ state t = TASK_STATE_ZOMBIE.

(** The disposition of [signum] in the process of task [t]. *)
Definition disposition (s : kstate) (t : task) (signum : Z) : Z :=
  nth (Z.to_nat (signum - 1)) (sa_handlers (procs s (pi t))) 0.

(** The state in which process [p] has handler [h] for [signum]. *)
Definition install_handler (p : nat) (signum h : Z) (s : kstate) : kstate :=
  set_procs (fun q => if decide (q = p)
                      then set_sa_handlers
                             (<[Z.to_nat (signum - 1) := h]>
                                (sa_handlers (procs s q)))
                             (procs s q)
                      else procs s q) s.

(** The state that the terminate action leaves in a task that is not the
    current one, is not vfork-stopped and was [t]: a sleeper is made
    runnable unless it waits on a mutex or on a semaphore. *)
Definition terminated_state (t : task) : task_state :=
  if decide (state t = TASK_STATE_SLEEPING) then
    if decide (wobj_type t ≠ WOBJ_KMUTEX ∧ wobj_type t ≠ WOBJ_SEM)
    then TASK_STATE_RUNNABLE else state t
  else state t.

Section WithCollaborators.
Context `{BuildConfig} `{Signal.Collaborators}.

(** Dispatching [signum] to task [ti] in [s] behaves as it does with the
    explicit-ignore disposition in its place: both calls return, neither
    changes the tasks, and both leave the same log. *)
Definition dispatch_like_ignore (s : kstate) (ti signum : Z) : Prop :=
  forall t, tasks s !! ti = Some t ->
  exists s1 s2,
    Signal.do_send_signal ti signum s = Ret tt s1 /\
    Signal.do_send_signal ti signum
      (install_handler (pi t) signum Signal.SIG_IGN s) = Ret tt s2 /\
    tasks s1 = tasks s /\ tasks s2 = tasks s /\ log s1 = log s2.

End WithCollaborators.

(** The three modes of [sys_rt_sigprocmask]. *)
Definition valid_how (how : Z) : Prop :=
  how = Signal.SIG_BLOCK \/ how = Signal.SIG_UNBLOCK \/ how = Signal.SIG_SETMASK.

(** The flags that [sigaction_int] rejects. *)
Definition unsupported_flags (flags : Z) : Prop :=
  Z.land flags Signal.SA_NOCLDSTOP ≠ 0 \/ Z.land flags Signal.SA_NOCLDWAIT ≠ 0 \/
  Z.land flags Signal.SA_SIGINFO ≠ 0 \/ Z.land flags Signal.SA_ONSTACK ≠ 0.

Section BlockedMask.
Context `{BuildConfig}.

(** What one word [w] of the new set does to the word [old] of the mask. *)
Definition apply_how (how old w : Z) : Z :=
  if decide (how = Signal.SIG_BLOCK) then Z.lor old w
  else if decide (how = Signal.SIG_UNBLOCK) then Z.land old (to_ulong (Z.lnot w))
  else w.

(** The words of user memory from [addr] on that can be read, [n] at most:
    the list stops before the first word whose copy faults. *)
Fixpoint user_words (m : umem) (addr : Z) (n : nat) : list Z :=
  match n with
  | O => []
  | S n' =>
      match read_bytes m addr sizeof_ulong with
      | None => []
      | Some bs => le_combine bs :: user_words m (addr + Z.of_nat sizeof_ulong) n'
      end
  end.

(** The mask after the words [ws] have been applied to its first words; the
    words of the mask beyond [ws] are as they were. *)
Fixpoint apply_words (how : Z) (mask ws : list Z) : list Z :=
  match mask, ws with
  | m :: mask', w :: ws' => apply_how how m w :: apply_words how mask' ws'
  | _, _ => mask
  end.

(** [s'] is [s] but for the blocked mask of process [p]. *)
Definition same_but_mask (p : nat) (s s' : kstate) : Prop :=
  tasks s' = tasks s /\ curr s' = curr s /\
  disable_preempt s' = disable_preempt s /\ user s' = user s /\
  log s' = log s /\
  (forall q, q ≠ p -> procs s' q = procs s q) /\
  procs s' p = set_sa_mask (sa_mask (procs s' p)) (procs s p).

(** A call of [sys_rt_sigprocmask] with a valid mode, a new set and no old
    set, in which the copy of some word of the new set faults, returns
    [-EFAULT] and leaves the blocked mask of the process as it was. *)
Definition sigprocmask_fault_atomic (s : kstate) (how user_set sigsetsize : Z) : Prop :=
  forall p, Signal.get_curr_proc s = Ret p s ->
  valid_how how -> user_set ≠ 0 ->
  (length (user_words (user s) user_set K_SIGACTION_MASK_WORDS)
   < K_SIGACTION_MASK_WORDS)%nat ->
  exists s',
    Signal.sys_rt_sigprocmask how user_set 0 sigsetsize s
      = Ret (- Signal.EFAULT) s' /\
    sa_mask (procs s' p) = sa_mask (procs s p).

End BlockedMask.

(** There is no current task, or the current task is a kernel-only thread. *)
Definition no_user_task_running (s : kstate) : Prop :=
  curr s = None \/
  exists c t, curr s = Some c /\ tasks s !! c = Some t /\ pi t = kernel_process_pi.

(** The state fields of the tasks of [s'] are those of [s]. *)
Definition same_task_states (s s' : kstate) : Prop :=
  forall k, state <$> (tasks s' !! k) = state <$> (tasks s !! k).

(** [always J P m]: from a state in [J], [m] ends in a state in [J], whether
    it returns or hands control away, or it stops for a reason in [P]. *)
Definition always {A} (J : kstate -> Prop) (P : stop_reason -> Prop) (m : M A) : Prop :=
  forall s, J s ->
    match m s with
    | Ret _ s' => J s'
    | NoReturn _ s' => J s'
    | Stop r => P r
    end.

End Props.
Import Props.

(** ** Concrete kernel states *)

Module Examples.

Definition regs0 : regs_t := mk_regs 0 0 0 0 0 0 0.

(** A task of process [p], with nothing pending unless said. *)
Definition a_task (p : nat) (st : task_state) (wo : wo_type) (pend : list Z) : task :=
  mk_task p st false false 0 wo pend false false 0 regs0 false.

Definition a_process (pid : Z) (handlers mask : list Z) : process :=
  mk_process pid handlers mask (fun _ => 0) 0.

Definition all_default : list Z := repeat 0 64.

(** Process 0 is the kernel's, process 1 is init (pid 1), process 2 has
    pid 7. *)
Definition procs_default (mask : list Z) : nat -> process :=
  fun p => match p with
           | O => a_process 0 all_default mask
           | S O => a_process 1 all_default mask
           | _ => a_process 7 all_default mask
           end.

Definition unmapped : umem := fun _ => None.

(** Tasks 1 (init, running) and 7 (sleeping on a condition) and the kernel
    thread 10001; task 1 is the current one and preemption is disabled once. *)
Definition tasks32 (pend7 : list Z) : gmap Z task :=
  <[1 := a_task 1 TASK_STATE_RUNNING WOBJ_NONE [0; 0]]>
  (<[7 := a_task 2 TASK_STATE_SLEEPING WOBJ_KCOND pend7]>
  (<[10001 := a_task 0 TASK_STATE_RUNNABLE WOBJ_NONE [0; 0]]> ∅)).

Definition state32 (pend7 : list Z) : kstate :=
  mk_kstate (tasks32 pend7) (procs_default [0; 0]) (Some 1) 1 true 0
            unmapped (fun _ => 0) [].

(** Init has installed a handler for SIGUSR1. *)
Definition state_init_handler : kstate :=
  install_handler 1 Signal.SIGUSR1 0x400000 (state32 [0; 0]).

(** User memory with one readable word at 0x1000 (value 0xff, the next word
    is unmapped) and, at 0x2000, a [struct k_sigaction] of a 32-bit build
    whose flags are [SA_SIGINFO]. *)
Definition user_memory : umem :=
  fun a => if decide (0x1000 <= a < 0x1004)
           then Some (if decide (a = 0x1000) then 255 else 0)
           else if decide (0x2000 <= a < 0x2014)
           then Some (if decide (a = 0x2004) then 4 else 0)
           else None.

Definition state_user : kstate := set_user user_memory (state32 [0; 0]).

(** Collaborators that do nothing and return. *)
Definition quiet : Signal.Collaborators :=
  {| Signal.wake_up_tasks_waiting_on := fun _ _ => mret tt;
     Signal.kernel_yield_preempt_disabled := mret tt |}.

(** Collaborators of the task switch: the safety checks hold,
    [process_signals] returns at once, and [send_signal] is [send_signal2]
    of a 32-bit build on the thread id, process-wide when the first flag is
    set. *)
Definition switch_quiet : Switch.Collaborators :=
  {| Switch.switch_to_task_safety_checks := fun _ _ _ => true;
     Switch.process_signals := fun _ _ s => Some s;
     Switch.send_signal := fun tid signum flags =>
       Signal.send_signal2 (H := config32) (H0 := quiet) tid tid signum
         (bool_decide (Z.land flags 1 ≠ 0));
     Switch.SIG_FL_PROCESS := 1;
     Switch.SIG_FL_FAULT := 2 |}.

(** The state with the preemption gate open, and the state in which the
    kernel thread is the current task. *)
Definition state_preemptible : kstate := set_disable_preempt 0 (state32 [0; 0]).
Definition state_kthread : kstate := set_curr (Some 10001) (state32 [0; 0]).

End Examples.

(** ** include/tilck/common/utils.h: the remaining helpers

    [uptr] is [ulong]; [BITS64] is defined on the 64-bit build. The helpers
    are pure; the two loops with an [ASSERT] run in [M]. *)

Module UtilsMore.

(** [(cond) != 0] as an integer. *)
Definition nonzero (x : Z) : Z := if decide (x ≠ 0) then 1 else 0.

(** The [for] loop of [get_first_zero_bit_index] and of
    [get_first_zero_bit_index64]: [n] iterations are left, [i] is the loop
    variable; [bits] is the width of the shifted 1. *)
Fixpoint first_zero_bit_loop (bits : Z) (n : nat) (i : Z) (num : Z) : Z :=
  match n with
  | O => i
  | S n' =>
      if decide (Z.land num (Z.shiftl 1 i mod 2 ^ bits) = 0) then i
      else first_zero_bit_loop bits n' (i + 1) num
  end.

Definition get_first_zero_bit_index (num : Z) : M Z :=
  ASSERT (bool_decide (num ≠ to_u32 (Z.lnot 0))) "num != ~0U";;
  mret (first_zero_bit_loop 32 32 0 num).

(** The assertion compares the [u64] with [~0U], an [unsigned int]. *)
Definition get_first_zero_bit_index64 (num : Z) : M Z :=
  ASSERT (bool_decide (num ≠ to_u32 (Z.lnot 0))) "num != ~0U";;
  mret (first_zero_bit_loop 64 64 0 num).

Section WithConfig.
Context `{BuildConfig}.

Definition BITS64 : bool := bool_decide (NBITS = 64).

Definition log2_for_power_of_2 (v : Z) : Z :=
  let r := nonzero (Z.land v 0xAAAAAAAA) in
  let r := if BITS64
           then Z.lor r (to_ulong (Z.shiftl (nonzero (Z.land v 0xFFFFFFFF00000000)) 5))
           else r in
  let r := Z.lor r (to_ulong (Z.shiftl (nonzero (Z.land v 0xFFFF0000)) 4)) in
  let r := Z.lor r (to_ulong (Z.shiftl (nonzero (Z.land v 0xFF00FF00)) 3)) in
  let r := Z.lor r (to_ulong (Z.shiftl (nonzero (Z.land v 0xF0F0F0F0)) 2)) in
  let r := Z.lor r (to_ulong (Z.shiftl (nonzero (Z.land v 0xCCCCCCCC)) 1)) in
  r.

Definition roundup_next_power_of_2 (v : Z) : Z :=
  let v := to_ulong (v - 1) in
  let v := Z.lor v (Z.shiftr v 1) in
  let v := Z.lor v (Z.shiftr v 2) in
  let v := Z.lor v (Z.shiftr v 4) in
  let v := Z.lor v (Z.shiftr v 8) in
  let v := Z.lor v (Z.shiftr v 16) in
  let v := if BITS64 then Z.lor v (Z.shiftr v 32) else v in
  to_ulong (v + 1).

Definition pow2_round_up_at (n pow2unit : Z) : Z :=
  Z.land (to_ulong (n + pow2unit - 1)) (to_ulong (- pow2unit)).

Definition pow2_round_up_at64 (n pow2unit : Z) : Z :=
  Z.land (to_u64 (n + pow2unit - 1)) (to_u64 (- pow2unit)).

(** A division by zero has no value in C. *)
Definition round_up_at (n unit : Z) : option Z :=
  if decide (unit = 0) then None
  else Some (to_ulong (to_ulong (n + unit - 1) / unit * unit)).

Definition round_up_at64 (n unit : Z) : option Z :=
  if decide (unit = 0) then None
  else Some (to_u64 (to_u64 (n + unit - 1) / unit * unit)).

End WithConfig.
End UtilsMore.

(** ** The saved registers of a new user task *)

Module SwitchMore.


End SwitchMore.


(** ** More properties to state *)

Module MoreProps.

(** Bit [i] of [y] is set exactly when one of the [n] bits of [x] from [i]
    on is set. *)
Definition spread (x y n : Z) : Prop :=
  forall i, 0 <= i ->
    (Z.testbit y i = true <-> exists j, i <= j < i + n /\ Z.testbit x j = true).

(** [r] is the least multiple of [u] that is at least [n]. *)
Definition rounded_up (n u r : Z) : Prop :=
  r mod u = 0 /\ n <= r < n + u.

(** The [n] bytes from [a] on are mapped. *)
Definition mapped (m : umem) (a : Z) (n : nat) : Prop :=
  forall i, 0 <= i < Z.of_nat n -> m (a + i) ≠ None.

(** [s'] is [s] but for the handler of [signum] in process [p], which is
    [h]. *)
Definition handler_installed (p : nat) (signum h : Z) (s s' : kstate) : Prop :=
  s' = set_procs (procs s') s /\
  (forall q, q ≠ p -> procs s' q = procs s q) /\
  procs s' p = set_sa_handlers
                 (<[Z.to_nat (signum - 1) := h]> (sa_handlers (procs s p)))
                 (procs s p).

(** What a mode of [sys_rt_sigprocmask] does to one signal: [old] tells
    whether it was blocked, [new] whether the new set has it. *)
Definition mode_bit (how : Z) (old new : bool) : bool :=
  if decide (how = Signal.SIG_BLOCK) then old || new
  else if decide (how = Signal.SIG_UNBLOCK) then old && negb new
  else new.

(** The target of a switch on which [switch_to_task] does not call
    [process_signals]: a kernel thread, a task that runs in the kernel, or
    one whose saved status has [SR_SPP]. *)
Definition resumes_without_signals (t : task) : Prop :=
  pi t = kernel_process_pi \/ running_in_kernel t = true \/
  Z.land (sstatus (state_regs t)) Switch.SR_SPP ≠ 0.

Section WithConfig.
Context `{BuildConfig}.

(** The bit index of [signum] is one at which [1 << index], computed on
    [int] and converted to [ulong], is the single bit [index]: any index
    below 31, and 31 as well when [ulong] has 32 bits. *)
Definition exact_bit (signum : Z) : Prop :=
  (signum - 1) mod NBITS < 31 \/ NBITS = 32.

(** The old action that [sys_rt_sigaction] reports: the handler of the
    signal, no flags, and the blocked mask of the process. *)
Definition old_action (s : kstate) (t : task) (signum : Z) : Signal.k_sigaction :=
  Signal.mk_k_sigaction (disposition s t signum) 0 0
    (take K_SIGACTION_MASK_WORDS (sa_mask (procs s (pi t)))).

(** The arguments that [sys_rt_sigaction] accepts. *)
Definition valid_sigaction_args (signum sigsetsize : Z) : Prop :=
  IN_RANGE signum 1 _NSIG = true /\
  signum ≠ Signal.SIGKILL /\ signum ≠ Signal.SIGSTOP /\
  sigsetsize = Z.of_nat Signal.sizeof_sa_mask.

(** What [sys_rt_sigaction] returns once the new action, if any, is in
    place and the state is [s1]: the old action of [s] is copied out when
    asked for. *)
Definition sigaction_report (s : kstate) (t : task) (signum user_oldact : Z)
    (s1 : kstate) : outcome Z :=
  if decide (user_oldact ≠ 0) then
    let '(ok, m) := write_bytes (user s) user_oldact
                      (Signal.bytes_of_k_sigaction (old_action s t signum)) in
    Ret (if ok then 0 else - Signal.EFAULT) (set_user m s1)
  else Ret 0 s1.

End WithConfig.

End MoreProps.
Import MoreProps.


(** ** More states to run the code on *)

Module MoreExamples.

(** The state of [state32] on a 64-bit build: one word per bitmask. *)
Definition procs64 : nat -> process := Examples.procs_default [0].

Definition tasks64 (pend7 : list Z) : gmap Z task :=
  <[1 := Examples.a_task 1 TASK_STATE_RUNNING WOBJ_NONE [0]]>
  (<[7 := Examples.a_task 2 TASK_STATE_SLEEPING WOBJ_KCOND pend7]>
  (<[10001 := Examples.a_task 0 TASK_STATE_RUNNABLE WOBJ_NONE [0]]> ∅)).

Definition state64 (pend7 : list Z) : kstate :=
  mk_kstate (tasks64 pend7) procs64 (Some 1) 1 true 0
            Examples.unmapped (fun _ => 0) [].

(** Task 7 of [state32], vfork-stopped. *)
Definition vforked : task :=
  mk_task 2 TASK_STATE_SLEEPING false true 0 WOBJ_KCOND [0; 0] false false 0
          Examples.regs0 false.

Definition state_vfork : kstate :=
  set_tasks (<[7 := vforked]> (tasks (Examples.state32 [0; 0])))
            (Examples.state32 [0; 0]).

(** User memory with, at 0x3000, a [struct k_sigaction] of a 32-bit build
    with the handler 0x400000 and no flags, and 32 writable bytes at
    0x4000. *)
Definition user_memory2 : umem :=
  fun a => if decide (0x3000 <= a < 0x3014)
           then Some (if decide (a = 0x3002) then 0x40 else 0)
           else if decide (0x4000 <= a < 0x4020) then Some 0xaa
           else None.

Definition state_user2 : kstate := set_user user_memory2 (Examples.state32 [0; 0]).

(** The kernel thread 10001 runs and is about to switch to task 7, which is
    runnable and was in the kernel. *)
Definition task7_in_kernel : task :=
  mk_task 2 TASK_STATE_RUNNABLE false false 0 WOBJ_NONE [0; 0] true false 5
          Examples.regs0 false.

Definition state_switch : kstate :=
  set_curr (Some 10001)
    (set_tasks (<[7 := task7_in_kernel]> (tasks (Examples.state32 [0; 0])))
               (Examples.state32 [0; 0])).

End MoreExamples.


(** ** The debug panel's terminal helpers ([modules/debugpanel/termutil.c])

    The helpers format a text with [vsnprintk] and hand it to the terminal
    of the current process. The formatting and the terminal are not part of
    the verified sources: a text is kept as its format and arguments, and
    the terminal as the list of the writes it was given. The colours, the
    escape sequences and the geometry of the panel come from headers that
    are not among the sources either; the embedding is generic in them. *)

Module DebugPanel.

Inductive fmt_arg := FmtInt (z : Z) | FmtStr (s : string).

(** The arguments of a [vsnprintk] call. *)
Record text := mk_text {
  text_fmt : string;
  text_args : list fmt_arg;
}.

(** A write to the terminal: [term_write(buf, len, color)] or
    [t->tintf->write(t->tstate, buf, len, color)]. *)
Inductive tty_write :=
| term_write (buf : text) (color : Z)
| tintf_write (buf : text) (color : Z).

(** The macros of the headers. *)
Class Env := {
  DP_COLOR : Z;
  DP_REV_COLOR : Z;
  REVERSE_VIDEO : string;
  RESET_ATTRS : string;
  ERASE_DISPLAY : string;
  SHOW_CURSOR : string;
  HIDE_CURSOR : string;
  USE_ALT_BUF : string;
  USE_DEF_BUF : string;
}.

(** The variables that the helpers read and write: whether the terminal of
    the current process is a video terminal, the static [rev_colors], the
    globals [dp_screen_start_row], [dp_end_row] and [dp_start_col], the
    fields [row_off] and [row_max] of [dp_ctx], and the writes made so far,
    the latest first. *)
Record panel := mk_panel {
  video : bool;
  rev_colors : bool;
  dp_screen_start_row : Z;
  dp_end_row : Z;
  dp_start_col : Z;
  row_off : Z;
  row_max : Z;
  written : list tty_write;
}.

Definition set_rev_colors (v : bool) (p : panel) : panel :=
  mk_panel (video p) v (dp_screen_start_row p) (dp_end_row p) (dp_start_col p)
           (row_off p) (row_max p) (written p).

Definition set_row_max (v : Z) (p : panel) : panel :=
  mk_panel (video p) (rev_colors p) (dp_screen_start_row p) (dp_end_row p)
           (dp_start_col p) (row_off p) v (written p).

Definition set_written (v : list tty_write) (p : panel) : panel :=
  mk_panel (video p) (rev_colors p) (dp_screen_start_row p) (dp_end_row p)
           (dp_start_col p) (row_off p) (row_max p) v.

(** The escape character, [\033]. *)
Definition ESC : string := String (Ascii.ascii_of_nat 27) EmptyString.

Section WithEnv.
Context `{Env}.

Definition dp_write_internal (buf : text) (p : panel) : panel :=
  if video p
  then set_written
         (term_write buf (if negb (rev_colors p) then DP_COLOR else DP_REV_COLOR)
          :: written p) p
  else set_written (tintf_write buf 0 :: written p) p.

Definition dp_write_raw (fmt : string) (args : list fmt_arg) (p : panel) : panel :=
  dp_write_internal (mk_text fmt args) p.

Definition dp_reverse_colors (p : panel) : panel :=
  if video p then set_rev_colors true p
  else dp_write_raw "%s" [FmtStr REVERSE_VIDEO] p.

Definition dp_reset_attrs (p : panel) : panel :=
  if video p then set_rev_colors false p
  else dp_write_raw "%s" [FmtStr RESET_ATTRS] p.

Definition dp_move_right (n : Z) : panel -> panel :=
  dp_write_raw (ESC ++ "[%dC") [FmtInt n].

Definition dp_move_left (n : Z) : panel -> panel :=
  dp_write_raw (ESC ++ "[%dD") [FmtInt n].

Definition dp_move_to_col (n : Z) : panel -> panel :=
  dp_write_raw (ESC ++ "[%dG") [FmtInt n].

Definition dp_clear : panel -> panel :=
  dp_write_raw ERASE_DISPLAY [].

Definition dp_move_cursor (row col : Z) : panel -> panel :=
  dp_write_raw (ESC ++ "[%d;%dH") [FmtInt row; FmtInt col].

Definition dp_set_cursor_enabled (enabled : bool) : panel -> panel :=
  dp_write_raw "%s" [FmtStr (if enabled then SHOW_CURSOR else HIDE_CURSOR)].

Definition dp_switch_to_alt_buffer : panel -> panel :=
  dp_write_raw "%s" [FmtStr USE_ALT_BUF].

Definition dp_switch_to_default_buffer : panel -> panel :=
  dp_write_raw "%s" [FmtStr USE_DEF_BUF].

(** [dp_write]: the arithmetic is on [int]. *)
Definition dp_write (row col : Z) (fmt : string) (args : list fmt_arg)
    (p : panel) : panel :=
  let relrow := to_int (row - dp_screen_start_row p) in
  let p := if decide (relrow > row_max p) then set_row_max relrow p else p in
  if decide (relrow < row_off p) then p
  else
    let row := to_int (row - row_off p) in
    if decide (row > to_int (dp_end_row p - 2)) then p
    else
      let col := if decide (col = 0) then to_int (dp_start_col p + 2) else col in
      dp_write_internal (mk_text fmt args) (dp_move_cursor row col p).

(** A call of one of the helpers, and a sequence of calls. *)
Inductive dp_call :=
| call_write_raw (fmt : string) (args : list fmt_arg)
| call_reverse_colors
| call_reset_attrs
| call_move_right (n : Z)
| call_move_left (n : Z)
| call_move_to_col (n : Z)
| call_clear
| call_move_cursor (row col : Z)
| call_set_cursor_enabled (enabled : bool)
| call_switch_to_alt_buffer
| call_switch_to_default_buffer
| call_write (row col : Z) (fmt : string) (args : list fmt_arg).

Definition exec (c : dp_call) : panel -> panel :=
  match c with
  | call_write_raw fmt args => dp_write_raw fmt args
  | call_reverse_colors => dp_reverse_colors
  | call_reset_attrs => dp_reset_attrs
  | call_move_right n => dp_move_right n
  | call_move_left n => dp_move_left n
  | call_move_to_col n => dp_move_to_col n
  | call_clear => dp_clear
  | call_move_cursor row col => dp_move_cursor row col
  | call_set_cursor_enabled enabled => dp_set_cursor_enabled enabled
  | call_switch_to_alt_buffer => dp_switch_to_alt_buffer
  | call_switch_to_default_buffer => dp_switch_to_default_buffer
  | call_write row col fmt args => dp_write row col fmt args
  end.

Fixpoint run (cs : list dp_call) (p : panel) : panel :=
  match cs with
  | [] => p
  | c :: cs' => run cs' (exec c p)
  end.

(** The colour that a write to a video terminal is to have in [p]. *)
Definition panel_color (p : panel) : Z :=
  if rev_colors p then DP_REV_COLOR else DP_COLOR.

(** A write of [p'] that [p] does not have is right for the kind of
    terminal: on a video terminal a [term_write] in one of the two colours
    of the panel, on any other a write through the terminal interface with
    the colour 0. *)
Definition right_write (vid : bool) (w : tty_write) : Prop :=
  match w with
  | term_write _ c => vid = true /\ (c = DP_COLOR \/ c = DP_REV_COLOR)
  | tintf_write _ c => vid = false /\ c = 0
  end.

(** [p'] comes after [p] in a run of the helpers: the writes of [p] are
    still there, the writes made since are right for the terminal, the kind
    of terminal, the scroll offset and the geometry are the same, the
    highest row seen has not decreased, and on a terminal that is not a
    video terminal [rev_colors] is as it was. *)
Definition panel_extends (p p' : panel) : Prop :=
  exists new,
    written p' = new ++ written p /\
    Forall (right_write (video p)) new /\
    video p' = video p /\
    row_off p' = row_off p /\
    dp_screen_start_row p' = dp_screen_start_row p /\
    dp_end_row p' = dp_end_row p /\
    dp_start_col p' = dp_start_col p /\
    row_max p <= row_max p' /\
    (video p = false -> rev_colors p' = rev_colors p).

End WithEnv.

(** A value of [int]. *)
Definition int_range (x : Z) : Prop := - 2 ^ 31 <= x < 2 ^ 31.

End DebugPanel.


(** ** A debug panel to run the helpers on *)

Module PanelExamples.

(** Values for the macros: the actual ones are in headers that are not
    among the sources. *)
Definition panel_env : DebugPanel.Env :=
  {| DebugPanel.DP_COLOR := 7;
     DebugPanel.DP_REV_COLOR := 112;
     DebugPanel.REVERSE_VIDEO := "[7m";
     DebugPanel.RESET_ATTRS := "[0m";
     DebugPanel.ERASE_DISPLAY := "[2J";
     DebugPanel.SHOW_CURSOR := "[?25h";
     DebugPanel.HIDE_CURSOR := "[?25l";
     DebugPanel.USE_ALT_BUF := "[?1049h";
     DebugPanel.USE_DEF_BUF := "[?1049l" |}.

(** A video terminal; the screen starts at row 1, the panel ends at row 25
    and starts at column 2, and it is scrolled by 3 rows. *)
Definition a_panel : DebugPanel.panel :=
  DebugPanel.mk_panel true false 1 25 2 3 0 [].

End PanelExamples.


(** ** The monad [M] *)

Lemma bind_unfold {A B} (m : M A) (k : A -> M B) (s : kstate) :
  (m ≫= k) s = match m s with
               | Ret a s' => k a s'
               | NoReturn c s' => NoReturn c s'
               | Stop r => Stop r
               end.
Proof. reflexivity. Qed.

Lemma bind_Ret {A B} (m : M A) (k : A -> M B) (s s' : kstate) (a : A) :
  m s = Ret a s' -> (m ≫= k) s = k a s'.
Proof. intros E. rewrite bind_unfold, E. reflexivity. Qed.

(** Unfolding the primitives down to functions on the kernel state. *)
Ltac munfold :=
  unfold is_kernel_thread, update_task, update_proc, emit, ASSERT, load_task,
    load_proc, get_curr_task, get_task, is_preemption_enabled, modify, get,
    put, stop, noreturn, mbind, M_bind, bind, mret, M_ret, ret in *;
  cbn beta iota.

Lemma ASSERT_true (c : bool) (e : string) (s : kstate) :
  c = true -> ASSERT c e s = Ret tt s.
Proof. intros ->. reflexivity. Qed.

Lemma ASSERT_false (c : bool) (e : string) (s : kstate) :
  c = false -> ASSERT c e s = Stop (AssertFailed e).
Proof. intros ->. reflexivity. Qed.

Lemma load_task_Some (ti : Z) (t : task) (s : kstate) :
  tasks s !! ti = Some t -> load_task ti s = Ret t s.
Proof. intros E. unfold load_task. rewrite E. reflexivity. Qed.

Lemma array_get_in (name : string) (arr : list Z) (i : Z) (s : kstate) :
  0 <= i < Z.of_nat (length arr) ->
  array_get name arr i s = Ret (nth (Z.to_nat i) arr 0) s.
Proof.
  intros Hi. unfold array_get.
  replace ((0 <=? i) && (i <? Z.of_nat (length arr))) with true; [done|].
  symmetry. apply andb_true_iff. split; [apply Z.leb_le|apply Z.ltb_lt]; lia.
Qed.

Lemma array_set_in (name : string) (arr : list Z) (i v : Z) (s : kstate) :
  0 <= i < Z.of_nat (length arr) ->
  array_set name arr i v s = Ret (<[Z.to_nat i := v]> arr) s.
Proof.
  intros Hi. unfold array_set.
  replace ((0 <=? i) && (i <? Z.of_nat (length arr))) with true; [done|].
  symmetry. apply andb_true_iff. split; [apply Z.leb_le|apply Z.ltb_lt]; lia.
Qed.

(** ** Bits *)

Lemma land_pow2_testbit (num i : Z) :
  0 <= i -> Z.land num (2 ^ i) = if Z.testbit num i then 2 ^ i else 0.
Proof.
  intros Hi. apply Z.bits_inj'. intros n Hn.
  rewrite Z.land_spec, Z.pow2_bits_eqb by lia.
  destruct (Z.eqb_spec i n) as [->|Hne].
  - rewrite andb_true_r. destruct (Z.testbit num n) eqn:E.
    + rewrite Z.pow2_bits_eqb by lia. symmetry. apply Z.eqb_refl.
    + symmetry. apply Z.bits_0.
  - rewrite andb_false_r. destruct (Z.testbit num i).
    + rewrite Z.pow2_bits_eqb by lia. symmetry. apply Z.eqb_neq. lia.
    + symmetry. apply Z.bits_0.
Qed.

Lemma land_pow2_nonzero (num i : Z) :
  0 <= i -> Z.land num (2 ^ i) ≠ 0 <-> Z.testbit num i = true.
Proof.
  intros Hi. rewrite land_pow2_testbit by lia.
  destruct (Z.testbit num i); split; intros; try done.
  assert (0 < 2 ^ i) by (apply Z.pow_pos_nonneg; lia). lia.
Qed.

Lemma nonzero_has_bit (bits num : Z) :
  0 <= num < 2 ^ bits -> num ≠ 0 ->
  exists j, 0 <= j < bits /\ Z.testbit num j = true.
Proof.
  intros Hr Hnz. exists (Z.log2 num). split.
  - split; [apply Z.log2_nonneg|]. apply Z.log2_lt_pow2; lia.
  - apply Z.bit_log2. lia.
Qed.

Lemma to_int_u32_small (x : Z) : 0 <= x < 2 ^ 31 -> to_int (to_u32 x) = x.
Proof.
  intros Hx. unfold to_int, to_u32.
  rewrite (Z.mod_small x) by lia. rewrite Z.mod_small by lia. lia.
Qed.

(** ** The bit scans of utils.h *)

(** The loop stops at the first set bit at or after [i], or at [bits]. *)
Lemma first_set_bit_loop_spec (bits : Z) (n : nat) : forall i num,
  0 <= i -> i + Z.of_nat n = bits ->
  let r := first_set_bit_loop bits n i num in
  i <= r <= bits /\
  (forall j, i <= j < r -> Z.testbit num j = false) /\
  (r < bits -> Z.testbit num r = true).
Proof.
  induction n as [|n IH]; intros i num Hi Hb; cbn zeta.
  - simpl. split; [lia|]. split; [intros; lia|lia].
  - simpl.
    assert (Hsh : Z.shiftl 1 i mod 2 ^ bits = 2 ^ i).
    { rewrite Z.shiftl_1_l. apply Z.mod_small. split.
      - apply Z.pow_nonneg; lia.
      - apply Z.pow_lt_mono_r; lia. }
    rewrite Hsh. destruct (decide (Z.land num (2 ^ i) ≠ 0)) as [Hnz|Hz].
    + apply land_pow2_nonzero in Hnz; [|lia].
      split; [lia|]. split; [intros; lia|auto].
    + assert (Z.testbit num i = false).
      { destruct (Z.testbit num i) eqn:E; [|done].
        exfalso. apply Hz. apply land_pow2_nonzero; auto. }
      specialize (IH (i + 1) num ltac:(lia) ltac:(lia)). cbn zeta in IH.
      destruct IH as (Hr & Hlow & Hset).
      split; [lia|]. split; [|auto].
      intros j Hj. destruct (decide (j = i)) as [->|]; [done|]. apply Hlow. lia.
Qed.

Lemma first_set_bit_loop_found (bits num : Z) :
  0 <= bits -> 0 <= num < 2 ^ bits -> num ≠ 0 ->
  let r := first_set_bit_loop bits (Z.to_nat bits) 0 num in
  0 <= r < bits /\ Z.testbit num r = true /\
  (forall j, 0 <= j < r -> Z.testbit num j = false).
Proof.
  intros Hb Hr Hnz. cbn zeta.
  destruct (first_set_bit_loop_spec bits (Z.to_nat bits) 0 num
              ltac:(lia) ltac:(lia)) as (Hrange & Hlow & Hset).
  destruct (nonzero_has_bit bits num Hr Hnz) as (j & Hj & Hbit).
  assert (first_set_bit_loop bits (Z.to_nat bits) 0 num < bits).
  { destruct (Z.lt_ge_cases (first_set_bit_loop bits (Z.to_nat bits) 0 num) bits);
      [done|].
    rewrite Hlow in Hbit by lia. done. }
  split; [lia|]. split; auto.
Qed.

Section PendingSet.
Context `{BuildConfig}.

Lemma get_first_set_bit_index_l_spec (val : Z) (s : kstate) :
  config_wf -> ulong_range val -> val ≠ 0 ->
  exists idx, get_first_set_bit_index_l val s = Ret idx s /\
    0 <= idx < NBITS /\ Z.testbit val idx = true /\
    (forall j, 0 <= j < idx -> Z.testbit val j = false).
Proof.
  intros [Hcfg _] Hr Hnz. unfold ulong_range in Hr.
  unfold get_first_set_bit_index_l, get_first_set_bit_index,
    get_first_set_bit_index64.
  destruct (decide (NBITS = 32)) as [E|E].
  - rewrite E in *. exists (first_set_bit_loop 32 32 0 val). split.
    + rewrite bind_unfold, ASSERT_true by (by apply bool_decide_eq_true_2).
      reflexivity.
    + apply (first_set_bit_loop_found 32 val); [lia|done|done].
  - assert (E' : NBITS = 64) by lia. rewrite E' in *.
    exists (first_set_bit_loop 64 64 0 val). split.
    + rewrite bind_unfold, ASSERT_true by (by apply bool_decide_eq_true_2).
      reflexivity.
    + apply (first_set_bit_loop_found 64 val); [lia|done|done].
Qed.

(** The scan over the words: with the words before [i] empty, the loop ends
    at -1 on an empty bitmask and at the lowest pending signal otherwise. *)
Lemma get_first_pending_sig_loop_spec (n : nat) : forall i ti s t len,
  config_wf ->
  tasks s !! ti = Some t ->
  len = Z.of_nat (length (pending_signums t)) ->
  0 <= i -> i + Z.of_nat n = len ->
  len * NBITS < 2 ^ 31 ->
  Forall ulong_range (pending_signums t) ->
  (forall j, 0 <= j < i -> nth (Z.to_nat j) (pending_signums t) 0 = 0) ->
  exists r, Signal.get_first_pending_sig_loop n i ti s = Ret r s /\
    ((r = -1 /\ forall j, 0 <= j -> nth (Z.to_nat j) (pending_signums t) 0 = 0)
     \/ lowest_pending (pending_signums t) r).
Proof.
  induction n as [|n IH]; intros i ti s t len Hcfg Ht Hl Hi Hlen Hsmall Hws Hzero.
  - exists (-1). split; [done|]. left. split; [done|].
    intros j Hj. destruct (Z.lt_ge_cases j i); [by apply Hzero; lia|].
    apply nth_overflow. lia.
  - simpl. rewrite (bind_Ret _ _ _ _ _ (load_task_Some _ _ _ Ht)).
    rewrite bind_unfold, array_get_in by lia.
    set (val := nth (Z.to_nat i) (pending_signums t) 0).
    destruct (decide (val ≠ 0)) as [Hnz|Hz].
    + assert (Hval : ulong_range val).
      { rewrite Forall_forall in Hws. apply Hws.
        apply list_elem_of_In, nth_In. lia. }
      destruct (get_first_set_bit_index_l_spec val s Hcfg Hval Hnz)
        as (idx & Hrun & Hidx & Hbit & Hlow).
      rewrite bind_unfold, Hrun.
      assert (HN : 0 < NBITS) by (destruct Hcfg as [[?|?] _]; lia).
      assert (Hle : (i + 1) * NBITS <= len * NBITS).
      { apply Z.mul_le_mono_nonneg_r; lia. }
      assert (Hnn : 0 <= i * NBITS) by (apply Z.mul_nonneg_nonneg; lia).
      assert (Hnowrap : 0 <= i * NBITS + idx + 1 < 2 ^ 31).
      { clear - Hi HN Hidx Hle Hsmall Hnn. lia. }
      exists (i * NBITS + idx + 1). split.
      { unfold mret, M_ret, ret. by rewrite to_int_u32_small. }
      right. split; [lia|]. split.
      { unfold sig_pending.
        replace ((i * NBITS + idx + 1 - 1) / NBITS) with i
          by (apply (Z.div_unique _ _ i idx); lia).
        replace ((i * NBITS + idx + 1 - 1) mod NBITS) with idx
          by (apply (Z.mod_unique _ _ i idx); lia).
        done. }
      intros r' Hr' Hp. unfold sig_pending in Hp.
      assert (HN0 : NBITS ≠ 0) by (clear - HN; lia).
      assert (Hq0 : 0 <= (r' - 1) / NBITS)
        by (apply Z.div_pos; clear - HN Hr'; lia).
      pose proof (Z.mod_pos_bound (r' - 1) NBITS HN) as Hmb.
      pose proof (Z.div_mod (r' - 1) NBITS HN0) as Hdm.
      revert Hp Hdm Hmb Hq0.
      generalize ((r' - 1) / NBITS) as q, ((r' - 1) mod NBITS) as b.
      intros q b Hp Hdm Hmb Hq0.
      destruct (Z.lt_trichotomy q i) as [Hlt|[Heq|Hgt]].
      * rewrite Hzero in Hp by lia. by rewrite Z.bits_0 in Hp.
      * subst q. fold val in Hp.
        destruct (Z.lt_ge_cases b idx) as [Hb|Hb].
        -- rewrite Hlow in Hp by lia. done.
        -- clear - Hdm Hb. lia.
      * assert (NBITS * (i + 1) <= NBITS * q)
          by (apply Z.mul_le_mono_nonneg_l; lia).
        clear - Hdm Hmb Hidx H0. lia.
    + assert (Hz' : val = 0)
        by (destruct (decide (val = 0)); [done|by exfalso; apply Hz]).
      destruct (IH (i + 1) ti s t len Hcfg Ht Hl ltac:(lia) ltac:(lia) Hsmall Hws)
        as (r & Hrun & Hres).
      { intros j Hj. destruct (decide (j = i)) as [->|]; [done|].
        apply Hzero. lia. }
      exists r. split; [done|done].
Qed.

End PendingSet.

(** ** The pending-signal set *)

Section PendingSetClaims.
Context `{BuildConfig}.

(** C5. For a signal number whose slot lies beyond the bitmask
    ([slot >= K_SIGACTION_MASK_WORDS]), [add_pending_sig] and
    [del_pending_sig] return with the kernel state, and so the bitmask, as it
    was, and [is_pending_sig] returns false; none of them reaches an array
    access, so none stops at an index out of bounds. *)
Theorem pending_sig_out_of_range (ti signum : Z) (s : kstate) :
  0 < signum ->
  Z.quot (signum - 1) NBITS >= Z.of_nat K_SIGACTION_MASK_WORDS ->
  Signal.add_pending_sig ti signum s = Ret tt s /\
  Signal.del_pending_sig ti signum s = Ret tt s /\
  Signal.is_pending_sig ti signum s = Ret false s.
Proof.
  intros Hpos Hslot.
  unfold Signal.add_pending_sig, Signal.del_pending_sig, Signal.is_pending_sig.
  rewrite !bind_unfold.
  rewrite !ASSERT_true by (apply bool_decide_eq_true_2; lia).
  rewrite !decide_True by done. done.
Qed.

(** C6. On a bitmask of [K_SIGACTION_MASK_WORDS] words,
    [get_first_pending_sig] returns the lowest-numbered pending signal when
    some signal is pending, and -1 when none is. *)
Theorem get_first_pending_sig_lowest (ti : Z) (s : kstate) (t : task) :
  config_wf ->
  Z.of_nat K_SIGACTION_MASK_WORDS * NBITS < 2 ^ 31 ->
  tasks s !! ti = Some t ->
  length (pending_signums t) = K_SIGACTION_MASK_WORDS ->
  Forall ulong_range (pending_signums t) ->
  exists r, Signal.get_first_pending_sig ti s = Ret r s /\
    ((exists sig, 1 <= sig /\ sig_pending (pending_signums t) sig = true) ->
       lowest_pending (pending_signums t) r) /\
    ((forall sig, 1 <= sig -> sig_pending (pending_signums t) sig = false) ->
       r = -1).
Proof.
  intros Hcfg Hsmall Ht Hlen Hws.
  destruct (get_first_pending_sig_loop_spec K_SIGACTION_MASK_WORDS 0 ti s t
              (Z.of_nat K_SIGACTION_MASK_WORDS) Hcfg Ht)
    as (r & Hrun & Hres); try done; try lia.
  exists r. split; [exact Hrun|].
  destruct Hres as [[-> Hempty]|Hlow].
  - split; [|done]. intros (sig & Hsig & Hp). exfalso.
    unfold sig_pending in Hp. rewrite Hempty in Hp.
    + by rewrite Z.bits_0 in Hp.
    + apply Z.div_pos; [lia|]. destruct Hcfg as [[?|?] _]; lia.
  - split; [done|]. intros Hnone. exfalso.
    destruct Hlow as (Hr & Hp & _). by rewrite Hnone in Hp.
Qed.

End PendingSetClaims.

(** With signals 33 and 35 pending on a 32-bit build, the scan returns 33. *)
Lemma get_first_pending_sig_lowest_witness :
  exists r,
    Signal.get_first_pending_sig (H := config32) 7 (Examples.state32 [0; 5])
      = Ret r (Examples.state32 [0; 5]) /\
    ((exists sig, 1 <= sig /\ sig_pending (H := config32) [0; 5] sig = true) ->
       lowest_pending (H := config32) [0; 5] r) /\
    ((forall sig, 1 <= sig -> sig_pending (H := config32) [0; 5] sig = false) ->
       r = -1).
Proof.
  apply (get_first_pending_sig_lowest (H := config32) 7 (Examples.state32 [0; 5])
           (Examples.a_task 2 TASK_STATE_SLEEPING WOBJ_KCOND [0; 5])).
  - split; [left; reflexivity|split; simpl; lia].
  - simpl. lia.
  - reflexivity.
  - reflexivity.
  - repeat constructor; unfold ulong_range; simpl; lia.
Defined.

Lemma pending_sig_out_of_range_witness :
  Signal.add_pending_sig (H := config32) 7 65 (Examples.state32 [0; 0])
    = Ret tt (Examples.state32 [0; 0]) /\
  Signal.del_pending_sig (H := config32) 7 65 (Examples.state32 [0; 0])
    = Ret tt (Examples.state32 [0; 0]) /\
  Signal.is_pending_sig (H := config32) 7 65 (Examples.state32 [0; 0])
    = Ret false (Examples.state32 [0; 0]).
Proof.
  apply (pending_sig_out_of_range (H := config32) 7 65 (Examples.state32 [0; 0])).
  - lia.
  - vm_compute. discriminate.
Defined.

(** ** Sending a signal *)

Section Send.
Context `{BuildConfig} `{Signal.Collaborators}.

Lemma send_signal2_body_spec (pid tid signum : Z) (wp : bool) (s : kstate) :
  (no_such_task s pid tid wp ->
     Signal.send_signal2_body pid tid signum wp s = Ret (- Signal.ESRCH) s) /\
  (~ no_such_task s pid tid wp ->
     (forall rc s',
        Signal.send_signal2_body pid tid signum wp s = Ret rc s' -> rc = 0) /\
     (signum = 0 \/ target_zombie s tid ->
        Signal.send_signal2_body pid tid signum wp s = Ret 0 s)).
Proof.
  unfold no_such_task, target_zombie, Signal.send_signal2_body. munfold.
  destruct (tasks s !! tid) as [t|] eqn:Ht; cbn beta iota.
  2:{ split; [done|]. intros Hn. by exfalso. }
  repeat (progress (cbn beta iota; rewrite ?Ht)).
  case_bool_decide as Hk; repeat (progress (cbn beta iota; rewrite ?Ht)).
  { split; [done|]. intros Hn. exfalso. auto. }
  destruct wp; cbn [andb]; repeat (case_bool_decide || case_decide);
    cbn beta iota;
    try (split; [done|intros Hn; exfalso; intuition (auto; congruence)]).
  all: (split; [intros Hn; exfalso; intuition (auto; congruence)|intros _]).
  all: try (split; [intros rc s' [= <- _]; done|done]).
  all: split; [intros rc s'; destruct (Signal.do_send_signal tid signum s);
                 [intros [= <- _]; done|done|done]|].
  all: intros [?|(t' & [= <-] & ?)]; done.
Qed.

(** [disable_preemption(); ...; enable_preemption()] leaves the gate as it
    was. *)
Lemma preemption_bracket (s : kstate) :
  enable_preemption (set_disable_preempt (S (disable_preempt s)) s) = Ret tt s.
Proof. destruct s. reflexivity. Qed.

(** C3. [send_signal2] returns [-ESRCH] when it finds no task to signal,
    and then it does return, with the kernel state as it was; whenever it
    returns, it returns [-ESRCH] exactly in that case and 0 otherwise; and
    for signal 0 or a ZOMBIE target it returns 0 with the kernel state as it
    was: nothing is delivered. *)
Theorem send_signal2_result (pid tid signum : Z) (wp : bool) (s : kstate) :
  (no_such_task s pid tid wp ->
     Signal.send_signal2 pid tid signum wp s = Ret (- Signal.ESRCH) s) /\
  (forall rc s', Signal.send_signal2 pid tid signum wp s = Ret rc s' ->
     (rc = - Signal.ESRCH <-> no_such_task s pid tid wp) /\
     (rc = - Signal.ESRCH \/ rc = 0)) /\
  (~ no_such_task s pid tid wp -> signum = 0 \/ target_zombie s tid ->
     Signal.send_signal2 pid tid signum wp s = Ret 0 s).
Proof.
  set (s1 := set_disable_preempt (S (disable_preempt s)) s).
  assert (Hrun : Signal.send_signal2 pid tid signum wp s =
    match Signal.send_signal2_body pid tid signum wp s1 with
    | Ret rc s2 => match enable_preemption s2 with
                   | Ret _ s3 => Ret rc s3
                   | NoReturn c s3 => NoReturn c s3
                   | Stop r => Stop r
                   end
    | NoReturn c s2 => NoReturn c s2
    | Stop r => Stop r
    end).
  { unfold Signal.send_signal2. rewrite bind_unfold.
    unfold disable_preemption, modify. fold s1. rewrite bind_unfold.
    destruct (Signal.send_signal2_body pid tid signum wp s1); [|done|done].
    rewrite bind_unfold. destruct (enable_preemption s0); done. }
  assert (Hns : no_such_task s1 pid tid wp <-> no_such_task s pid tid wp) by done.
  assert (Hz : target_zombie s1 tid <-> target_zombie s tid) by done.
  destruct (send_signal2_body_spec pid tid signum wp s1) as [Herr Hok].
  rewrite Hrun. split; [|split].
  - intros Hn. rewrite Herr by (by apply Hns).
    unfold s1. by rewrite preemption_bracket.
  - intros rc s'. destruct (decide (no_such_task s pid tid wp)) as [Hn|Hn].
    + rewrite Herr by (by apply Hns). unfold s1. rewrite preemption_bracket.
      intros [= <- _]. split; [done|by left].
    + destruct Hok as [Hrc _]; [by rewrite Hns|].
      destruct (Signal.send_signal2_body pid tid signum wp s1) as [rc0 s2| |] eqn:E;
        [|done|done].
      destruct (enable_preemption s2); [|done|done].
      intros [= <- _]. rewrite (Hrc rc0 s2 eq_refl).
      split; [|by right]. split; [done|]. intros; by exfalso.
  - intros Hn Hprobe. destruct Hok as [_ Hprobe']; [by rewrite Hns|].
    rewrite Hprobe' by (by rewrite Hz).
    unfold s1. by rewrite preemption_bracket.
Qed.

End Send.

(** Task 8 does not exist; task 7 exists in the process of pid 7: the first
    call fails, the probe with signal 0 succeeds, and a delivered SIGTERM
    returns 0. *)
Lemma send_signal2_result_witness :
  Signal.send_signal2 (H := config32) (H0 := Examples.quiet) 7 8 15 true
    (Examples.state32 [0; 0]) = Ret (- Signal.ESRCH) (Examples.state32 [0; 0]) /\
  Signal.send_signal2 (H := config32) (H0 := Examples.quiet) 7 7 0 true
    (Examples.state32 [0; 0]) = Ret 0 (Examples.state32 [0; 0]) /\
  (forall rc s',
     Signal.send_signal2 (H := config32) (H0 := Examples.quiet) 7 7 15 true
       (Examples.state32 [0; 0]) = Ret rc s' -> rc = 0).
Proof.
  split; [|split].
  - apply (proj1 (send_signal2_result (H := config32) (H0 := Examples.quiet)
                    7 8 15 true (Examples.state32 [0; 0]))).
    exact I.
  - apply (proj2 (proj2 (send_signal2_result (H := config32)
                           (H0 := Examples.quiet) 7 7 0 true
                           (Examples.state32 [0; 0])))).
    + intros [Hk|[[_ Hne]|Hne]]; [discriminate Hk|by apply Hne|by apply Hne].
    + by left.
  - intros rc s' Hrun.
    destruct (proj1 (proj2 (send_signal2_result (H := config32)
                              (H0 := Examples.quiet) 7 7 15 true
                              (Examples.state32 [0; 0]))) rc s' Hrun)
      as [Hiff [Herr|Hok]]; [|exact Hok].
    exfalso. apply Hiff in Herr.
    destruct Herr as [Hk|[[_ Hne]|Hne]];
      [discriminate Hk|by apply Hne|by apply Hne].
Defined.

(** ** Dispatch and the default actions *)

Lemma to_int_mod (x : Z) : to_int x mod 2 ^ 32 = x mod 2 ^ 32.
Proof. unfold to_int. rewrite Zminus_mod_idemp_l. f_equal. lia. Qed.

Lemma to_int_testbit (x m : Z) :
  0 <= m < 32 -> Z.testbit (to_int x) m = Z.testbit x m.
Proof.
  intros Hm. rewrite <- (Z.mod_pow2_bits_low (to_int x) 32 m) by lia.
  rewrite to_int_mod. apply Z.mod_pow2_bits_low. lia.
Qed.

Lemma update_task_Some (ti : Z) (f : task -> task) (t : task) (s : kstate) :
  tasks s !! ti = Some t ->
  update_task ti f s = Ret tt (set_tasks (<[ti := f t]> (tasks s)) s).
Proof.
  intros Ht. unfold update_task.
  rewrite (bind_Ret _ _ _ _ _ (load_task_Some _ _ _ Ht)). reflexivity.
Qed.

Lemma is_kernel_thread_Some (ti : Z) (t : task) (s : kstate) :
  tasks s !! ti = Some t ->
  is_kernel_thread ti s = Ret (bool_decide (pi t = kernel_process_pi)) s.
Proof.
  intros Ht. unfold is_kernel_thread.
  rewrite (bind_Ret _ _ _ _ _ (load_task_Some _ _ _ Ht)). reflexivity.
Qed.

Lemma set_tasks_twice (m1 m2 : gmap Z task) (s : kstate) :
  set_tasks m2 (set_tasks m1 s) = set_tasks m2 s.
Proof. reflexivity. Qed.

Section Dispatch.
Context `{BuildConfig} `{Signal.Collaborators}.

(** The [int] value [1 << index], converted to [ulong], has bit [index]. *)
Lemma int_bit_as_ulong (index : Z) :
  0 <= index < 32 -> 32 <= NBITS ->
  Z.testbit (to_ulong (to_int (Z.shiftl 1 index))) index = true.
Proof.
  intros Hi HN. unfold to_ulong.
  rewrite Z.mod_pow2_bits_low by lia.
  rewrite to_int_testbit by lia.
  rewrite Z.shiftl_1_l. apply Z.pow2_bits_true. lia.
Qed.

(** [add_pending_sig] on a signal that the bitmask holds and whose bit index
    is a shift count of [int]. *)
Lemma add_pending_sig_in_range (ti signum : Z) (s : kstate) (t : task) :
  config_wf ->
  tasks s !! ti = Some t ->
  0 < signum ->
  (signum - 1) / NBITS < Z.of_nat (length (pending_signums t)) ->
  length (pending_signums t) = K_SIGACTION_MASK_WORDS ->
  (signum - 1) mod NBITS < 32 ->
  exists ws,
    Signal.add_pending_sig ti signum s
      = Ret tt (set_tasks (<[ti := set_pending_signums ws t]> (tasks s)) s) /\
    length ws = length (pending_signums t) /\
    sig_pending ws signum = true.
Proof.
  intros [Hcfg _] Ht Hpos Hslot Hlen Hidx.
  assert (HN : 0 < NBITS) by (destruct Hcfg; lia).
  assert (HN32 : 32 <= NBITS) by (destruct Hcfg; lia).
  pose proof (Z.mod_pos_bound (signum - 1) NBITS HN) as Hmb.
  assert (Hq0 : 0 <= (signum - 1) / NBITS) by (apply Z.div_pos; lia).
  unfold Signal.add_pending_sig, sig_pending.
  rewrite Z.quot_div_nonneg, Z.rem_mod_nonneg by lia.
  revert Hslot Hidx Hmb Hq0.
  generalize ((signum - 1) / NBITS) as slot, ((signum - 1) mod NBITS) as index.
  intros slot index Hslot Hidx Hmb Hq0.
  rewrite bind_unfold, ASSERT_true
    by (apply bool_decide_eq_true_2; clear - Hpos; lia).
  rewrite decide_False by (rewrite <- Hlen; clear - Hslot; lia).
  rewrite (bind_Ret _ _ _ _ _ (load_task_Some _ _ _ Ht)).
  rewrite (bind_Ret _ _ _ _ _ (array_get_in _ _ _ _ (conj Hq0 Hslot))).
  unfold int_shl.
  replace ((0 <=? index) && (index <? 32)) with true
    by (symmetry; apply andb_true_iff; split; [apply Z.leb_le|apply Z.ltb_lt];
        clear - Hmb Hidx; lia).
  rewrite bind_unfold. unfold mret at 1, M_ret at 1, ret at 1.
  rewrite (bind_Ret _ _ _ _ _ (array_set_in _ _ _ _ _ (conj Hq0 Hslot))).
  eexists. split.
  - unfold update_task. rewrite (bind_Ret _ _ _ _ _ (load_task_Some _ _ _ Ht)).
    reflexivity.
  - split; [by rewrite length_insert|].
    rewrite nth_lookup, list_lookup_insert_eq by (clear - Hslot Hq0; lia). simpl.
    rewrite Z.lor_spec, int_bit_as_ulong by (clear - Hidx Hmb HN32; lia).
    apply orb_true_r.
Qed.

(** The terminate action on a task that is not the current one and is not
    vfork-stopped. *)
Lemma action_terminate_other (ti signum : Z) (s : kstate) (t : task) :
  config_wf ->
  tasks s !! ti = Some t ->
  disable_preempt s ≠ 0%nat ->
  pi t ≠ kernel_process_pi ->
  curr s ≠ Some ti ->
  vfork_stopped t = false ->
  0 < signum ->
  (signum - 1) / NBITS < Z.of_nat (length (pending_signums t)) ->
  length (pending_signums t) = K_SIGACTION_MASK_WORDS ->
  (signum - 1) mod NBITS < 32 ->
  exists ws,
    Signal.action_terminate ti signum s
      = Ret tt (set_tasks
                  (<[ti := set_stopped false
                             (set_state (terminated_state t)
                                (set_pending_signums ws t))]> (tasks s)) s) /\
    sig_pending ws signum = true.
Proof.
  intros Hcfg Ht Hpre Hk Hcurr Hvf Hpos Hslot Hlen Hidx.
  destruct (add_pending_sig_in_range ti signum s t Hcfg Ht Hpos Hslot Hlen Hidx)
    as (ws & Hadd & Hwslen & Hbit).
  exists ws. split; [|exact Hbit].
  unfold Signal.action_terminate.
  rewrite bind_unfold. unfold is_preemption_enabled at 1.
  rewrite bool_decide_eq_false_2 by done. simpl negb.
  rewrite bind_unfold, ASSERT_true by done.
  rewrite (bind_Ret _ _ _ _ _ (is_kernel_thread_Some _ _ _ Ht)).
  rewrite bool_decide_eq_false_2 by done. simpl negb.
  rewrite bind_unfold, ASSERT_true by done.
  rewrite bind_unfold. unfold get_curr_task at 1.
  rewrite decide_False by (intros E; apply Hcurr; by rewrite E).
  rewrite (bind_Ret _ _ _ _ _ Hadd).
  set (t1 := set_pending_signums ws t).
  set (s1 := set_tasks (<[ti:=t1]> (tasks s)) s).
  assert (Ht1 : tasks s1 !! ti = Some t1) by apply lookup_insert_eq.
  rewrite (bind_Ret _ _ _ _ _ (load_task_Some _ _ _ Ht1)).
  change (vfork_stopped t1) with (vfork_stopped t).
  rewrite Hvf. change (negb false) with true. cbv iota.
  change (state t1) with (state t). change (wobj_type t1) with (wobj_type t).
  unfold terminated_state.
  destruct (decide (state t = TASK_STATE_SLEEPING)) as [Hs|Hs]; cbv iota.
  - destruct (decide (wobj_type t ≠ WOBJ_KMUTEX ∧ wobj_type t ≠ WOBJ_SEM))
      as [Hw|Hw]; cbv iota.
    + unfold task_change_state.
      rewrite (bind_Ret _ _ _ _ _ (update_task_Some _ _ _ _ Ht1)).
      erewrite update_task_Some by apply lookup_insert_eq.
      unfold s1. cbn [tasks set_tasks]. rewrite set_tasks_twice.
      rewrite !insert_insert_eq. reflexivity.
    + rewrite bind_unfold. unfold mret at 1, M_ret at 1, ret at 1.
      rewrite (update_task_Some _ _ _ _ Ht1).
      unfold s1. cbn [tasks set_tasks]. rewrite set_tasks_twice.
      rewrite !insert_insert_eq. destruct t; reflexivity.
  - rewrite bind_unfold. unfold mret at 1, M_ret at 1, ret at 1.
    rewrite (update_task_Some _ _ _ _ Ht1).
    unfold s1. cbn [tasks set_tasks]. rewrite set_tasks_twice.
    rewrite !insert_insert_eq. destruct t; reflexivity.
Qed.

(** Every index that the table of default actions initialises is a signal
    number between 1 and 31. *)
Lemma table_signal_range (signum : Z) (f : Signal.action_type) :
  Signal.signal_default_actions signum = Some f -> 1 <= signum <= 31.
Proof.
  unfold Signal.signal_default_actions, Signal.signal_default_actions_init.
  cbn [Signal.table_lookup].
  repeat (destruct (decide _) as [<-|_];
          [intros _; clear; compute; split; discriminate|]).
  done.
Qed.

(** [do_send_signal] on a signal number of the table of dispositions: the
    three ways it goes. *)
Lemma do_send_signal_dispatch (ti signum : Z) (s : kstate) (t : task) :
  IN_RANGE signum 1 _NSIG = true ->
  tasks s !! ti = Some t ->
  0 <= signum - 1 < Z.of_nat (length (sa_handlers (procs s (pi t)))) ->
  Signal.do_send_signal ti signum s =
    if decide (disposition s t signum = Signal.SIG_IGN)
    then Signal.action_ignore ti signum s
    else if decide (disposition s t signum ≠ Signal.SIG_DFL) then Ret tt s
    else match Signal.signal_default_actions signum with
         | Some f => f ti signum s
         | None => Signal.action_terminate ti signum s
         end.
Proof.
  intros Hr Ht Hidx. unfold Signal.do_send_signal, disposition.
  apply andb_true_iff in Hr as [Hr1 Hr2].
  apply Z.leb_le in Hr1. apply Z.ltb_lt in Hr2.
  rewrite bind_unfold, ASSERT_true.
  2:{ apply andb_true_iff.
      split; [apply Z.leb_le|apply Z.ltb_lt]; clear - Hr1 Hr2; lia. }
  rewrite decide_False by (clear - Hr1; lia).
  rewrite (bind_Ret _ _ _ _ _ (load_task_Some _ _ _ Ht)).
  rewrite bind_unfold. unfold load_proc at 1.
  rewrite (bind_Ret _ _ _ _ _ (array_get_in _ _ _ _ Hidx)).
  destruct (decide (_ = Signal.SIG_IGN)); [done|].
  destruct (decide (_ ≠ Signal.SIG_DFL)); [done|].
  rewrite bind_unfold, ASSERT_true.
  2:{ apply bool_decide_eq_true_2.
      by destruct (decide (nth (Z.to_nat (signum - 1))
                             (sa_handlers (procs s (pi t))) 0 = Signal.SIG_DFL)). }
  destruct (Signal.signal_default_actions signum); done.
Qed.

End Dispatch.

Section DispatchClaims.
Context `{BuildConfig} `{Signal.Collaborators}.

(** C4, wherever the bit index of the signal is a shift count of [int]. A
    signal of the terminate class (the table of default actions gives it to
    the terminate action, or has no entry for it), whose bit lies in the
    bitmask at an index below 32 of its word, dispatched with the default
    disposition to a task that is not the current one, is not a kernel
    thread and is not vfork-stopped: the call returns, the bit of the signal
    is set in the pending bitmask of the target, a target that sleeps on
    anything but a mutex or a semaphore becomes RUNNABLE, a target that
    sleeps on a mutex or on a semaphore stays SLEEPING, and no other task is
    touched. *)
Theorem terminate_signal_to_other_task (ti signum : Z) (s : kstate) (t : task) :
  config_wf ->
  IN_RANGE signum 1 _NSIG = true ->
  Signal.signal_default_actions signum = Some Signal.action_terminate \/
  Signal.signal_default_actions signum = None ->
  (signum - 1) / NBITS < Z.of_nat K_SIGACTION_MASK_WORDS ->
  (signum - 1) mod NBITS < 32 ->
  tasks s !! ti = Some t ->
  signum - 1 < Z.of_nat (length (sa_handlers (procs s (pi t)))) ->
  disposition s t signum = Signal.SIG_DFL ->
  disable_preempt s ≠ 0%nat ->
  pi t ≠ kernel_process_pi ->
  curr s ≠ Some ti ->
  vfork_stopped t = false ->
  length (pending_signums t) = K_SIGACTION_MASK_WORDS ->
  exists s' t',
    Signal.do_send_signal ti signum s = Ret tt s' /\
    tasks s' !! ti = Some t' /\
    sig_pending (pending_signums t') signum = true /\
    (state t = TASK_STATE_SLEEPING ->
     wobj_type t ≠ WOBJ_KMUTEX -> wobj_type t ≠ WOBJ_SEM ->
     state t' = TASK_STATE_RUNNABLE) /\
    (state t = TASK_STATE_SLEEPING ->
     wobj_type t = WOBJ_KMUTEX \/ wobj_type t = WOBJ_SEM ->
     state t' = TASK_STATE_SLEEPING) /\
    (forall tid, tid ≠ ti -> tasks s' !! tid = tasks s !! tid).
Proof.
  intros Hcfg Hr Hclass Hslot0 Hidx Ht Hhlen Hdfl Hpre Hk Hcurr Hvf Hlen.
  assert (Hrange : 1 <= signum).
  { apply andb_true_iff in Hr as [Hr1 _]. by apply Z.leb_le in Hr1. }
  assert (Hpos : 0 < signum) by (clear - Hrange; lia).
  assert (Hslot : (signum - 1) / NBITS < Z.of_nat (length (pending_signums t)))
    by (rewrite Hlen; exact Hslot0).
  destruct (action_terminate_other ti signum s t Hcfg Ht Hpre Hk Hcurr Hvf
              Hpos Hslot Hlen Hidx) as (ws & Hrun & Hbit).
  assert (Hh : 0 <= signum - 1
               < Z.of_nat (length (sa_handlers (procs s (pi t)))))
    by (clear - Hrange Hhlen; lia).
  eexists; eexists; split.
  { rewrite (do_send_signal_dispatch ti signum s t Hr Ht Hh).
    rewrite Hdfl, decide_False by done.
    rewrite decide_False by (intros Hne; by apply Hne).
    destruct Hclass as [-> | ->]; exact Hrun. }
  cbn [tasks set_tasks]; split; [apply lookup_insert_eq|].
  split; [exact Hbit|].
  unfold terminated_state; cbn [state set_stopped set_state]; split; [|split].
  - intros Hs Hw1 Hw2. rewrite decide_True by done.
    by rewrite decide_True by done.
  - intros Hs Hw. rewrite decide_True by done.
    rewrite decide_False by (intros [? ?]; destruct Hw; done). done.
  - intros tid Hne. by apply lookup_insert_ne.
Qed.

(** C2, as the code has it. With a handler that is neither [SIG_DFL] nor
    [SIG_IGN], [do_send_signal] returns with the kernel state as it was: no
    task or process changes and nothing is logged. With [SIG_IGN] in its
    place the call returns with the same tasks and processes, and logs the
    warning when the target is init (thread id 1): for init the two
    dispositions differ by that warning, for every other task they agree. *)
Theorem custom_handler_dispatch (ti signum : Z) (s : kstate) (t : task) :
  IN_RANGE signum 1 _NSIG = true ->
  tasks s !! ti = Some t ->
  signum - 1 < Z.of_nat (length (sa_handlers (procs s (pi t)))) ->
  disposition s t signum ≠ Signal.SIG_DFL ->
  disposition s t signum ≠ Signal.SIG_IGN ->
  Signal.do_send_signal ti signum s = Ret tt s /\
  Signal.do_send_signal ti signum (install_handler (pi t) signum Signal.SIG_IGN s)
    = Ret tt
        (let s_ign := install_handler (pi t) signum Signal.SIG_IGN s in
         if decide (ti = 1)
         then set_log
                (Printk "WARNING: ignoring signal %s[%d] sent to init (pid 1)\n"
                        [ArgSignalName signum; ArgInt signum] :: log s_ign) s_ign
         else s_ign).
Proof.
  intros Hr Ht Hhlen Hdfl Hign.
  assert (Hpos : 1 <= signum).
  { apply andb_true_iff in Hr as [Hr1 _]. by apply Z.leb_le in Hr1. }
  split.
  - rewrite (do_send_signal_dispatch ti signum s t Hr Ht) by (clear - Hpos Hhlen; lia).
    rewrite decide_False by done. by rewrite decide_True by done.
  - set (s_ign := install_handler (pi t) signum Signal.SIG_IGN s).
    assert (Ht' : tasks s_ign !! ti = Some t) by exact Ht.
    assert (Hd : disposition s_ign t signum = Signal.SIG_IGN).
    { unfold disposition, s_ign, install_handler. cbn [procs set_procs].
      rewrite decide_True by done. cbn [sa_handlers set_sa_handlers].
      rewrite nth_lookup, list_lookup_insert_eq by (clear - Hpos Hhlen; lia).
      done. }
    rewrite (do_send_signal_dispatch ti signum s_ign t Hr Ht').
    2:{ unfold s_ign, install_handler. cbn [procs set_procs].
        rewrite decide_True by done. cbn [sa_handlers set_sa_handlers].
        rewrite length_insert. clear - Hpos Hhlen. lia. }
    rewrite decide_True by done.
    unfold Signal.action_ignore.
    rewrite (bind_Ret _ _ _ _ _ (load_task_Some _ _ _ Ht')).
    cbv zeta. destruct (decide (ti = 1)); reflexivity.
Qed.

End DispatchClaims.

(** Signal 40, which has no entry in the table of default actions, sent on
    a 32-bit build to task 7, which sleeps on a condition: it is made
    runnable, with signal 40 pending. *)
Lemma terminate_signal_to_other_task_witness :
  Signal.signal_default_actions (H := config32) (H0 := Examples.quiet) 40
    = None /\
  exists s' t',
    Signal.do_send_signal (H := config32) (H0 := Examples.quiet) 7 40
      (Examples.state32 [0; 0]) = Ret tt s' /\
    tasks s' !! 7 = Some t' /\
    sig_pending (H := config32) (pending_signums t') 40 = true /\
    state t' = TASK_STATE_RUNNABLE.
Proof.
  split; [reflexivity|].
  destruct (terminate_signal_to_other_task (H := config32) (H0 := Examples.quiet)
              7 40 (Examples.state32 [0; 0])
              (Examples.a_task 2 TASK_STATE_SLEEPING WOBJ_KCOND [0; 0]))
    as (s' & t' & Hrun & Ht' & Hbit & Hwake & _).
  - split; [left; reflexivity|split; simpl; lia].
  - reflexivity.
  - right. reflexivity.
  - reflexivity.
  - reflexivity.
  - reflexivity.
  - vm_compute. reflexivity.
  - reflexivity.
  - vm_compute. discriminate.
  - vm_compute. discriminate.
  - vm_compute. discriminate.
  - reflexivity.
  - reflexivity.
  - exists s', t'. split; [exact Hrun|]. split; [exact Ht'|]. split; [exact Hbit|].
    apply Hwake; [reflexivity|simpl; discriminate|simpl; discriminate].
Defined.

(** C4 on a 64-bit build, for signal 40. The signal has no entry in the
    table of default actions, so [do_send_signal] gives it to the terminate
    action; task 7 is not the current task, is not vfork-stopped and sleeps
    on a condition, and its process has the default disposition. The bit of
    the signal is bit 39 of the one word of the bitmask, and
    [add_pending_sig] builds the mask as [1 << 39] on [int], where C gives
    the shift no value: the dispatch stops there, it does not return with
    bit 39 set and the task runnable. *)
Theorem terminate_signal_40_on_64_bit :
  Signal.signal_default_actions (H := config64) (H0 := Examples.quiet) 40
    = None /\
  tasks (MoreExamples.state64 [0]) !! 7
    = Some (Examples.a_task 2 TASK_STATE_SLEEPING WOBJ_KCOND [0]) /\
  curr (MoreExamples.state64 [0]) = Some 1 /\
  disposition (MoreExamples.state64 [0])
    (Examples.a_task 2 TASK_STATE_SLEEPING WOBJ_KCOND [0]) 40 = Signal.SIG_DFL /\
  Signal.do_send_signal (H := config64) (H0 := Examples.quiet) 7 40
    (MoreExamples.state64 [0]) = Stop (UndefinedShift 39).
Proof. repeat split; reflexivity. Qed.

(** C2, as stated, fails for init: with a handler installed for SIGUSR1 the
    dispatch to task 1 logs nothing, with [SIG_IGN] it logs the warning. *)
Lemma custom_handler_unlike_ignore_for_init :
  ~ dispatch_like_ignore (H := config32) (H0 := Examples.quiet)
      Examples.state_init_handler 1 Signal.SIGUSR1.
Proof.
  intros Hclaim.
  destruct (Hclaim (Examples.a_task 1 TASK_STATE_RUNNING WOBJ_NONE [0; 0]) eq_refl)
    as (s1 & s2 & H1 & H2 & _ & _ & Hlog).
  vm_compute in H1. vm_compute in H2.
  injection H1 as <-. injection H2 as <-.
  vm_compute in Hlog. discriminate Hlog.
Qed.

Lemma custom_handler_dispatch_witness :
  Signal.do_send_signal (H := config32) (H0 := Examples.quiet) 1 Signal.SIGUSR1
    Examples.state_init_handler = Ret tt Examples.state_init_handler /\
  exists s',
    Signal.do_send_signal (H := config32) (H0 := Examples.quiet) 1 Signal.SIGUSR1
      (install_handler 1 Signal.SIGUSR1 Signal.SIG_IGN Examples.state_init_handler)
      = Ret tt s' /\
    log s' = [Printk "WARNING: ignoring signal %s[%d] sent to init (pid 1)\n"
                     [ArgSignalName Signal.SIGUSR1; ArgInt Signal.SIGUSR1]].
Proof.
  destruct (custom_handler_dispatch (H := config32) (H0 := Examples.quiet)
              1 Signal.SIGUSR1 Examples.state_init_handler
              (Examples.a_task 1 TASK_STATE_RUNNING WOBJ_NONE [0; 0]))
    as [Hcustom Hign].
  - reflexivity.
  - reflexivity.
  - vm_compute. reflexivity.
  - vm_compute. discriminate.
  - vm_compute. discriminate.
  - split; [exact Hcustom|]. eexists. split; [exact Hign|]. reflexivity.
Defined.

(** ** The signal syscalls *)

Section Syscalls.
Context `{BuildConfig}.

Lemma same_but_mask_refl p s : same_but_mask p s s.
Proof.
  unfold same_but_mask. repeat split; try done.
  by destruct (procs s p).
Qed.

Lemma apply_words_nil how mask : apply_words how mask [] = mask.
Proof. by destruct mask. Qed.

Lemma sigprocmask_loop_spec (n : nat) : forall (i : nat) p how user_set s,
  valid_how how ->
  (i + n)%nat = length (sa_mask (procs s p)) ->
  let ws := user_words (user s) (user_set + Z.of_nat i * Z.of_nat sizeof_ulong) n in
  exists s',
    Signal.sigprocmask_loop n (Z.of_nat i) p how user_set s
      = Ret (if decide (length ws = n) then 0 else - Signal.EFAULT) s' /\
    sa_mask (procs s' p)
      = take i (sa_mask (procs s p))
        ++ apply_words how (drop i (sa_mask (procs s p))) ws /\
    same_but_mask p s s'.
Proof.
  induction n as [|n IH]; intros i p how user_set s Hhow Hlen; cbn zeta.
  - exists s. simpl. split; [done|]. split; [|apply same_but_mask_refl].
    rewrite apply_words_nil. by rewrite take_drop.
  - cbn [Signal.sigprocmask_loop user_words].
    rewrite bind_unfold. unfold copy_from_user at 1.
    destruct (read_bytes (user s) _ sizeof_ulong) as [bs|] eqn:Hread.
    2:{ exists s. split; [done|]. split; [|apply same_but_mask_refl].
        rewrite apply_words_nil. by rewrite take_drop. }
    set (w := le_combine bs).
    set (mask := sa_mask (procs s p)) in *.
    assert (Hi : (i < length mask)%nat) by lia.
    destruct (lookup_lt_is_Some_2 mask i Hi) as [m Hm].
    assert (Hnth : nth (Z.to_nat (Z.of_nat i)) mask 0 = m).
    { rewrite Nat2Z.id, nth_lookup, Hm. done. }
    assert (Hin : 0 <= Z.of_nat i < Z.of_nat (length mask)) by lia.
    set (s1 := set_procs (fun q => if decide (q = p)
                 then set_sa_mask (<[i := apply_how how m w]> mask) (procs s q)
                 else procs s q) s).
    assert (Hstep : forall k : M Z,
      (p0 ← load_proc p;
       if decide (how = Signal.SIG_BLOCK) then
         old ← array_get "sa_mask" (sa_mask p0) (Z.of_nat i);
         ws ← array_set "sa_mask" (sa_mask p0) (Z.of_nat i) (Z.lor old w);
         update_proc p (set_sa_mask ws);; k
       else if decide (how = Signal.SIG_UNBLOCK) then
         old ← array_get "sa_mask" (sa_mask p0) (Z.of_nat i);
         ws ← array_set "sa_mask" (sa_mask p0) (Z.of_nat i)
                        (Z.land old (to_ulong (Z.lnot w)));
         update_proc p (set_sa_mask ws);; k
       else if decide (how = Signal.SIG_SETMASK) then
         ws ← array_set "sa_mask" (sa_mask p0) (Z.of_nat i) w;
         update_proc p (set_sa_mask ws);; k
       else mret (- Signal.EINVAL)) s = k s1).
    { intros k. rewrite bind_unfold. unfold load_proc at 1. fold mask.
      unfold apply_how in s1.
      destruct (decide (how = Signal.SIG_BLOCK)) as [Hb|Hb].
      { rewrite (bind_Ret _ _ _ _ _ (array_get_in _ _ _ _ Hin)), Hnth.
        rewrite (bind_Ret _ _ _ _ _ (array_set_in _ _ _ _ _ Hin)), Nat2Z.id.
        reflexivity. }
      destruct (decide (how = Signal.SIG_UNBLOCK)) as [Hu|Hu].
      { rewrite (bind_Ret _ _ _ _ _ (array_get_in _ _ _ _ Hin)), Hnth.
        rewrite (bind_Ret _ _ _ _ _ (array_set_in _ _ _ _ _ Hin)), Nat2Z.id.
        reflexivity. }
      destruct (decide (how = Signal.SIG_SETMASK)) as [Hs|Hs].
      { rewrite (bind_Ret _ _ _ _ _ (array_set_in _ _ _ _ _ Hin)), Nat2Z.id.
        reflexivity. }
      exfalso. destruct Hhow as [?|[?|?]]; done. }
    rewrite Hstep. clear Hstep.
    replace (Z.of_nat i + 1) with (Z.of_nat (S i)) by lia.
    assert (Hmask1 : sa_mask (procs s1 p) = <[i := apply_how how m w]> mask).
    { unfold s1. cbn [procs set_procs]. by rewrite decide_True. }
    destruct (IH (S i) p how user_set s1 Hhow) as (s' & Hrun & Hres & Hsame).
    { rewrite Hmask1, length_insert. lia. }
    exists s'. split; [|split].
    + rewrite Hrun. cbn zeta. change (user s1) with (user s).
      replace (user_set + Z.of_nat (S i) * Z.of_nat sizeof_ulong)
        with (user_set + Z.of_nat i * Z.of_nat sizeof_ulong + Z.of_nat sizeof_ulong)
        by lia.
      cbn [length]. repeat case_decide; try done; lia.
    + rewrite Hres, Hmask1. change (user s1) with (user s).
      replace (user_set + Z.of_nat (S i) * Z.of_nat sizeof_ulong)
        with (user_set + Z.of_nat i * Z.of_nat sizeof_ulong + Z.of_nat sizeof_ulong)
        by lia.
      rewrite (drop_S mask m i Hm). cbn [apply_words].
      rewrite drop_insert_lt by lia.
      rewrite (take_S_r _ i (apply_how how m w))
        by (apply list_lookup_insert_eq; lia).
      rewrite take_insert_ge by lia. by rewrite <- app_assoc.
    + destruct Hsame as (H1 & H2 & H3 & H4 & H5 & H6 & H7).
      unfold same_but_mask. repeat split; try done.
      * intros q Hq. rewrite H6 by done. unfold s1. cbn [procs set_procs].
        by rewrite decide_False.
      * rewrite H7. unfold s1. cbn [procs set_procs]. rewrite decide_True by done.
        by destruct (procs s p).
Qed.

Lemma get_curr_proc_Some (c : Z) (t : task) (s : kstate) :
  curr s = Some c -> tasks s !! c = Some t ->
  Signal.get_curr_proc s = Ret (pi t) s.
Proof.
  intros Hc Ht. unfold Signal.get_curr_proc.
  rewrite bind_unfold. unfold get_curr_task at 1. rewrite Hc.
  rewrite (bind_Ret _ _ _ _ _ (load_task_Some _ _ _ Ht)). reflexivity.
Qed.

(** The copy-out block returns [-EFAULT] or goes on, and writes to user
    memory only. *)
Lemma sigprocmask_copy_out_spec (p : nat) (user_oldset sigsetsize : Z) (s : kstate) :
  exists r m,
    Signal.sigprocmask_copy_out p user_oldset sigsetsize s = Ret r (set_user m s) /\
    (r = None \/ r = Some (- Signal.EFAULT)).
Proof.
  unfold Signal.sigprocmask_copy_out.
  rewrite bind_unfold. unfold load_proc at 1.
  rewrite bind_unfold. unfold copy_to_user at 1.
  destruct (write_bytes (user s) user_oldset _) as [ok m].
  destruct ok; cbn [negb].
  2:{ exists (Some (- Signal.EFAULT)), m. split; [done|by right]. }
  destruct (decide (sigsetsize > Z.of_nat Signal.sizeof_sa_mask)).
  2:{ exists None, m. split; [done|by left]. }
  rewrite bind_unfold. unfold get at 1.
  rewrite bind_unfold. unfold copy_to_user at 1.
  cbn [user set_user].
  destruct (write_bytes m _ _) as [ok' m'].
  destruct ok'; cbn [negb].
  - exists None, m'. split; [done|by left].
  - exists (Some (- Signal.EFAULT)), m'. split; [done|by right].
Qed.

(** C10. With a null new-set pointer, [sys_rt_sigprocmask] does not look at
    the mode: for any value of [how] it returns, with the process store as it
    was; it returns 0 when there is no old set to copy out or the copy-out
    succeeds, and [-EFAULT] when the copy-out faults. And whatever the
    arguments, a call that returns [-EINVAL] was given a new set. *)
Theorem sigprocmask_null_set (how user_oldset sigsetsize : Z) (s : kstate)
    (c : Z) (t : task) :
  curr s = Some c -> tasks s !! c = Some t ->
  (exists rc s',
     Signal.sys_rt_sigprocmask how 0 user_oldset sigsetsize s = Ret rc s' /\
     procs s' = procs s /\
     (user_oldset = 0 -> rc = 0 /\ s' = s) /\
     (user_oldset ≠ 0 ->
      exists r,
        Signal.sigprocmask_copy_out (pi t) user_oldset sigsetsize s = Ret r s' /\
        ((r = None /\ rc = 0) \/
         (r = Some (- Signal.EFAULT) /\ rc = - Signal.EFAULT)))) /\
  (forall user_set s0 s',
     Signal.sys_rt_sigprocmask how user_set user_oldset sigsetsize s0
       = Ret (- Signal.EINVAL) s' ->
     user_set ≠ 0).
Proof.
  intros Hc Ht. split.
  - unfold Signal.sys_rt_sigprocmask.
    rewrite (bind_Ret _ _ _ _ _ (get_curr_proc_Some _ _ _ Hc Ht)).
    destruct (decide (user_oldset ≠ 0)) as [Ho|Ho].
    + destruct (sigprocmask_copy_out_spec (pi t) user_oldset sigsetsize s)
        as (r & m & Hrun & Hr).
      rewrite (bind_Ret _ _ _ _ _ Hrun).
      destruct Hr as [->| ->].
      * rewrite decide_False by (intros Hne; by apply Hne).
        exists 0, (set_user m s). split; [done|]. split; [done|].
        split; [done|]. intros _. exists None. split; [done|by left].
      * exists (- Signal.EFAULT), (set_user m s). split; [done|]. split; [done|].
        split; [done|]. intros _. exists (Some (- Signal.EFAULT)).
        split; [done|by right].
    + rewrite bind_unfold. unfold mret at 1, M_ret at 1, ret at 1.
      rewrite decide_False by (intros Hne; by apply Hne).
      exists 0, s. split; [done|]. split; [done|]. split; [done|]. done.
  - intros user_set s0 s' Hrun ->.
    unfold Signal.sys_rt_sigprocmask in Hrun.
    rewrite bind_unfold in Hrun.
    destruct (Signal.get_curr_proc s0) as [p s1| |]; [|done|done].
    rewrite bind_unfold in Hrun.
    destruct (decide (user_oldset ≠ 0)) as [Ho|Ho].
    + destruct (sigprocmask_copy_out_spec p user_oldset sigsetsize s1)
        as (r & m & Hrun' & Hr).
      rewrite Hrun' in Hrun. destruct Hr as [->| ->].
      * rewrite decide_False in Hrun by (intros Hne; by apply Hne). done.
      * done.
    + unfold mret at 1, M_ret at 1, ret at 1 in Hrun.
      rewrite decide_False in Hrun by (intros Hne; by apply Hne). done.
Qed.

(** C1, as the code has it. A call with a valid mode and a new set, whose
    copy-out of the old set (if any) succeeded, and in which the copy of some
    word of the new set faults, returns [-EFAULT]; the words of the blocked
    mask before the faulting word have been updated by the mode, the faulting
    word and those after it are as they were, and so is the whole mask when
    the first word faults. Nothing else of the process store or the tasks
    changes. *)
Theorem sigprocmask_fault_applies_prefix
    (how user_set user_oldset sigsetsize : Z) (s s1 : kstate) (c : Z) (t : task) :
  curr s = Some c -> tasks s !! c = Some t ->
  length (sa_mask (procs s (pi t))) = K_SIGACTION_MASK_WORDS ->
  valid_how how ->
  user_set ≠ 0 ->
  (user_oldset = 0 /\ s1 = s) \/
  (user_oldset ≠ 0 /\
   Signal.sigprocmask_copy_out (pi t) user_oldset sigsetsize s = Ret None s1) ->
  (length (user_words (user s1) user_set K_SIGACTION_MASK_WORDS)
   < K_SIGACTION_MASK_WORDS)%nat ->
  exists s',
    Signal.sys_rt_sigprocmask how user_set user_oldset sigsetsize s
      = Ret (- Signal.EFAULT) s' /\
    sa_mask (procs s' (pi t))
      = apply_words how (sa_mask (procs s (pi t)))
          (user_words (user s1) user_set K_SIGACTION_MASK_WORDS) /\
    (user_words (user s1) user_set K_SIGACTION_MASK_WORDS = [] ->
     sa_mask (procs s' (pi t)) = sa_mask (procs s (pi t))) /\
    tasks s' = tasks s /\
    (forall q, q ≠ pi t -> procs s' q = procs s q).
Proof.
  intros Hc Ht Hlen Hhow Hset Hout Hfault.
  assert (Hprocs : procs s1 = procs s /\ tasks s1 = tasks s).
  { destruct Hout as [[_ ->]|[_ Hrun]]; [done|].
    destruct (sigprocmask_copy_out_spec (pi t) user_oldset sigsetsize s)
      as (r & m & Hrun' & _).
    rewrite Hrun' in Hrun. by injection Hrun as _ <-. }
  destruct Hprocs as [Hprocs Htasks].
  destruct (sigprocmask_loop_spec K_SIGACTION_MASK_WORDS 0 (pi t) how user_set s1 Hhow)
    as (s' & Hrun & Hmask & Hsame).
  { rewrite Hprocs, Hlen. reflexivity. }
  cbn zeta in Hrun. rewrite Z.mul_0_l, Z.add_0_r in *.
  rewrite decide_False in Hrun by lia.
  rewrite take_0, drop_0, app_nil_l, Hprocs in Hmask.
  exists s'. split; [|split; [exact Hmask|split]].
  - unfold Signal.sys_rt_sigprocmask.
    rewrite (bind_Ret _ _ _ _ _ (get_curr_proc_Some _ _ _ Hc Ht)).
    destruct Hout as [[-> ->]|[Ho Hcopy]].
    + rewrite (decide_False (P := 0 ≠ 0)) by (intros Hne; by apply Hne).
      rewrite bind_unfold. unfold mret at 1, M_ret at 1, ret at 1.
      rewrite decide_True by done. exact Hrun.
    + rewrite (decide_True (P := user_oldset ≠ 0)) by done.
      rewrite (bind_Ret _ _ _ _ _ Hcopy).
      rewrite decide_True by done. exact Hrun.
  - intros Hnil. rewrite Hmask, Hnil. apply apply_words_nil.
  - destruct Hsame as (H1 & _ & _ & _ & _ & H6 & _). split.
    + by rewrite H1.
    + intros q Hq. rewrite H6 by done. by rewrite Hprocs.
Qed.

Lemma sigaction_int_unsupported (signum user_act : Z) (s : kstate) (bs : list Z) :
  read_bytes (user s) user_act Signal.sizeof_k_sigaction = Some bs ->
  unsupported_flags (Signal.sa_flags (Signal.k_sigaction_of_bytes bs)) ->
  Signal.sigaction_int signum user_act s = Ret (- Signal.EINVAL) s.
Proof.
  intros Hread Hflags. unfold Signal.sigaction_int.
  rewrite bind_unfold. unfold copy_from_user at 1. rewrite Hread.
  cbv zeta. unfold unsupported_flags in Hflags.
  repeat (destruct (decide (Z.land _ _ ≠ 0)); [done|]).
  exfalso. tauto.
Qed.

(** C7. A call of [sys_rt_sigaction] whose new action can be read from
    user memory and carries one of the four unsupported flags returns
    [-EINVAL] with the kernel state, and so the disposition of the signal,
    as it was; so does [sigaction_int]. *)
Theorem sigaction_unsupported_flags
    (signum user_act user_oldact sigsetsize : Z) (s : kstate)
    (c : Z) (t : task) (bs : list Z) :
  curr s = Some c -> tasks s !! c = Some t ->
  _NSIG - 1 <= Z.of_nat (length (sa_handlers (procs s (pi t)))) ->
  user_act ≠ 0 ->
  read_bytes (user s) user_act Signal.sizeof_k_sigaction = Some bs ->
  unsupported_flags (Signal.sa_flags (Signal.k_sigaction_of_bytes bs)) ->
  Signal.sys_rt_sigaction signum user_act user_oldact sigsetsize s
    = Ret (- Signal.EINVAL) s /\
  Signal.sigaction_int signum user_act s = Ret (- Signal.EINVAL) s.
Proof.
  intros Hc Ht Hhlen Hact Hread Hflags.
  split; [|by apply (sigaction_int_unsupported signum user_act s bs)].
  unfold Signal.sys_rt_sigaction.
  destruct (IN_RANGE signum 1 _NSIG) eqn:Hr; cbn [negb]; [|done].
  destruct (decide (signum = Signal.SIGKILL ∨ signum = Signal.SIGSTOP)); [done|].
  destruct (decide (sigsetsize ≠ Z.of_nat Signal.sizeof_sa_mask)); [done|].
  rewrite bind_unfold. unfold disable_preemption at 1, modify at 1.
  set (s1 := set_disable_preempt (S (disable_preempt s)) s).
  assert (Hsig : Signal.sigaction_int signum user_act s1 = Ret (- Signal.EINVAL) s1)
    by (by apply (sigaction_int_unsupported signum user_act s1 bs)).
  assert (Hen : enable_preemption s1 = Ret tt s) by apply preemption_bracket.
  apply andb_true_iff in Hr as [Hr1 Hr2].
  apply Z.leb_le in Hr1. apply Z.ltb_lt in Hr2.
  assert (Hfin : forall oldact : Signal.k_sigaction,
    (rc ← (if decide (user_act ≠ 0) then Signal.sigaction_int signum user_act
           else mret 0);
     enable_preemption;;
     if decide (rc = 0 ∧ user_oldact ≠ 0) then
       ok ← copy_to_user user_oldact (Signal.bytes_of_k_sigaction oldact);
       if (ok : bool) then mret rc else mret (- Signal.EFAULT)
     else mret rc) s1 = Ret (- Signal.EINVAL) s).
  { intros oldact. rewrite decide_True by done.
    rewrite (bind_Ret _ _ _ _ _ Hsig). rewrite (bind_Ret _ _ _ _ _ Hen).
    rewrite decide_False; [done|]. intros [Hz _]. discriminate Hz. }
  rewrite bind_unfold.
  destruct (decide (user_oldact ≠ 0)).
  - rewrite (bind_Ret _ _ _ _ _ (get_curr_proc_Some c t s1 Hc Ht)).
    rewrite bind_unfold. unfold load_proc at 1.
    assert (Hidx : 0 <= signum - 1
                   < Z.of_nat (length (sa_handlers (procs s1 (pi t)))))
      by (change (procs s1) with (procs s); clear - Hr1 Hr2 Hhlen; lia).
    rewrite (bind_Ret _ _ _ _ _ (array_get_in _ _ _ _ Hidx)).
    unfold mret at 1, M_ret at 1, ret at 1. apply Hfin.
  - unfold mret at 1, M_ret at 1, ret at 1. apply Hfin.
Qed.
End Syscalls.

(** C1, as stated, fails on a 32-bit build (two mask words): with the first
    word of the new set readable and the second unmapped, [SIG_SETMASK]
    returns [-EFAULT] after the first word of the mask has been replaced. *)
Lemma sigprocmask_fault_not_atomic :
  ~ sigprocmask_fault_atomic (H := config32) Examples.state_user
      Signal.SIG_SETMASK 0x1000 8.
Proof.
  intros Hclaim.
  destruct (Hclaim 1%nat) as (s' & Hrun & Hmask).
  - reflexivity.
  - right. right. reflexivity.
  - discriminate.
  - vm_compute. lia.
  - vm_compute in Hrun. injection Hrun as <-.
    vm_compute in Hmask. discriminate Hmask.
Qed.

(** On the same call the theorem gives the mask [0xff; 0]: word 0 applied,
    word 1 as it was. *)
Lemma sigprocmask_fault_applies_prefix_witness :
  exists s',
    Signal.sys_rt_sigprocmask (H := config32) Signal.SIG_SETMASK 0x1000 0 8
      Examples.state_user = Ret (- Signal.EFAULT) s' /\
    sa_mask (procs s' 1%nat) = [255; 0].
Proof.
  destruct (sigprocmask_fault_applies_prefix (H := config32)
              Signal.SIG_SETMASK 0x1000 0 8
              Examples.state_user Examples.state_user 1
              (Examples.a_task 1 TASK_STATE_RUNNING WOBJ_NONE [0; 0]))
    as (s' & Hrun & Hmask & _).
  - reflexivity.
  - reflexivity.
  - reflexivity.
  - right. right. reflexivity.
  - discriminate.
  - left. split; reflexivity.
  - vm_compute. lia.
  - exists s'. split; [exact Hrun|].
    etransitivity; [exact Hmask|reflexivity].
Defined.

(** A call with a null new set and a mode that is none of the three: it
    returns 0 and the state is as it was. *)
Lemma sigprocmask_null_set_witness :
  exists rc s',
    Signal.sys_rt_sigprocmask (H := config32) 77 0 0 8 Examples.state_user
      = Ret rc s' /\ rc = 0 /\ s' = Examples.state_user.
Proof.
  destruct (proj1 (sigprocmask_null_set (H := config32) 77 0 8
                     Examples.state_user 1
                     (Examples.a_task 1 TASK_STATE_RUNNING WOBJ_NONE [0; 0])
                     eq_refl eq_refl))
    as (rc & s' & Hrun & _ & Hnull & _).
  exists rc, s'. split; [exact Hrun|]. apply Hnull. reflexivity.
Defined.

(** Installing a handler for SIGUSR1 with [SA_SIGINFO]: [-EINVAL], and the
    state is as it was. *)
Lemma sigaction_unsupported_flags_witness :
  Signal.sys_rt_sigaction (H := config32) Signal.SIGUSR1 0x2000 0 8
    Examples.state_user = Ret (- Signal.EINVAL) Examples.state_user /\
  Signal.sigaction_int (H := config32) Signal.SIGUSR1 0x2000
    Examples.state_user = Ret (- Signal.EINVAL) Examples.state_user.
Proof.
  apply (sigaction_unsupported_flags (H := config32) Signal.SIGUSR1 0x2000 0 8
           Examples.state_user 1
           (Examples.a_task 1 TASK_STATE_RUNNING WOBJ_NONE [0; 0])
           [0; 0; 0; 0; 4; 0; 0; 0; 0; 0; 0; 0; 0; 0; 0; 0; 0; 0; 0; 0]).
  - reflexivity.
  - reflexivity.
  - vm_compute. discriminate.
  - discriminate.
  - reflexivity.
  - right. right. left. vm_compute. discriminate.
Defined.

(** ** Invariants along a run *)

Section Always.
Context (J : kstate -> Prop) (P : stop_reason -> Prop).

Lemma always_bind {A B} (m : M A) (k : A -> M B) :
  always J P m -> (forall a, always J P (k a)) -> always J P (m ≫= k).
Proof.
  intros Hm Hk s Hs. rewrite bind_unfold. specialize (Hm s Hs).
  destruct (m s) as [a s'| |]; [|done|done]. by apply Hk.
Qed.

Lemma always_mret {A} (a : A) : always J P (mret a).
Proof. by intros s Hs. Qed.

Lemma always_ASSERT (c : bool) (e : string) :
  P (AssertFailed e) -> always J P (ASSERT c e).
Proof. intros He s Hs. by destruct c. Qed.

Lemma always_stop {A} (r : stop_reason) : P r -> always J P (stop r : M A).
Proof. by intros Hr s Hs. Qed.

Lemma always_noreturn {A} (c : noreturn_call) : always J P (noreturn c : M A).
Proof. by intros s Hs. Qed.

Lemma always_modify (f : kstate -> kstate) :
  (forall s, J s -> J (f s)) -> always J P (modify f).
Proof. intros Hf s Hs. by apply Hf. Qed.

Lemma always_read {A} (f : kstate -> A) : always J P (fun s => Ret (f s) s).
Proof. by intros s Hs. Qed.

Lemma always_load_task (ti : Z) : P NullDeref -> always J P (load_task ti).
Proof. intros Hn s Hs. unfold load_task. by destruct (tasks s !! ti). Qed.

Lemma always_update_task (ti : Z) (f : task -> task) :
  P NullDeref ->
  (forall s t, J s -> tasks s !! ti = Some t ->
     J (set_tasks (<[ti := f t]> (tasks s)) s)) ->
  always J P (update_task ti f).
Proof.
  intros Hn Hf s Hs. unfold update_task. rewrite bind_unfold.
  unfold load_task. destruct (tasks s !! ti) as [t|] eqn:Ht; [|done].
  by apply Hf.
Qed.

Lemma always_enable_preemption :
  P (AssertFailed "oldval > 0") ->
  (forall s n, J s -> J (set_disable_preempt n s)) ->
  always J P enable_preemption.
Proof.
  intros Ha Hf s Hs. unfold enable_preemption. rewrite bind_unfold.
  unfold get at 1. rewrite bind_unfold.
  destruct (bool_decide (disable_preempt s ≠ 0%nat)); [|done].
  by apply Hf.
Qed.

End Always.

Section SwitchProofs.
Context `{Switch.Collaborators}.

Lemma always_call_process_signals J P (ti : Z) (st : Switch.sig_state) :
  (forall s s', J s -> Switch.process_signals ti st s = Some s' -> J s') ->
  always J P (Switch.call_process_signals ti st).
Proof.
  intros Hps s Hs. unfold Switch.call_process_signals.
  destruct (Switch.process_signals ti st s) as [s'|] eqn:E; [|done].
  by apply (Hps s s').
Qed.

End SwitchProofs.

Ltac always_unfold :=
  unfold Switch.save_curr_fpu_ctx_if_enabled, Switch.is_fpu_enabled_for_task,
    Switch.get_curr_pdir, Switch.set_curr_pdir, Switch.restore_fpu_regs,
    Switch.disable_interrupts_forced, Switch.switch_to_task_pop_nested_interrupts,
    Switch.enable_preemption_nosched, Switch.task_info_reset_kernel_stack,
    Switch.adjust_nested_interrupts_for_task_in_kernel, Switch.set_curr_task,
    is_kernel_thread, is_preemption_enabled, get_curr_task, load_proc, get, emit.

Ltac always_step :=
  lazymatch goal with
  | |- always ?J ?P (mbind _ _) => apply (always_bind J P); [|intros ?]
  | |- always ?J ?P (mret _) => apply (always_mret J P)
  | |- always ?J ?P (ASSERT _ _) => apply (always_ASSERT J P)
  | |- always ?J ?P (stop _) => apply (always_stop J P)
  | |- always ?J ?P (noreturn _) => apply (always_noreturn J P)
  | |- always ?J ?P (load_task _) => apply (always_load_task J P)
  | |- always ?J ?P (update_task _ _) => apply (always_update_task J P)
  | |- always ?J ?P enable_preemption => apply (always_enable_preemption J P)
  | |- always ?J ?P (modify _) => apply (always_modify J P)
  | |- always ?J ?P (Switch.call_process_signals _ _) =>
      apply (always_call_process_signals J P)
  | |- always ?J ?P (fun s => Ret _ s) => apply (always_read J P)
  | |- always _ _ (if ?c then _ else _) => destruct c
  | |- always _ _ (match ?x with _ => _ end) => destruct x
  end.

(** ** The task switch and the fault bridge *)

Lemma same_task_states_update (s s' : kstate) (ti : Z) (t : task) (f : task -> task) :
  (forall t, state (f t) = state t) ->
  same_task_states s s' -> tasks s' !! ti = Some t ->
  same_task_states s (set_tasks (<[ti := f t]> (tasks s')) s').
Proof.
  intros Hf Hs Ht k. cbn [tasks set_tasks].
  destruct (decide (k = ti)) as [->|Hne].
  - rewrite lookup_insert_eq. rewrite <- Hs, Ht. simpl. by rewrite Hf.
  - rewrite lookup_insert_ne by done. apply Hs.
Qed.

Lemma task_change_state_idempotent_spec (ti : Z) (ns : task_state) (t : task) (s : kstate) :
  tasks s !! ti = Some t ->
  task_change_state_idempotent ti ns s
    = Ret tt (if decide (state t = ns) then s
              else set_tasks (<[ti := set_state ns t]> (tasks s)) s).
Proof.
  intros Ht. unfold task_change_state_idempotent.
  rewrite (bind_Ret _ _ _ _ _ (load_task_Some _ _ _ Ht)).
  destruct (decide (state t = ns)); [done|].
  unfold task_change_state. by rewrite (update_task_Some _ _ _ _ Ht).
Qed.

Section SwitchClaims.
Context `{Switch.Collaborators}.

Lemma switch_to_task_keeps_states (ti : Z) (s : kstate) (t : task) :
  tasks s !! ti = Some t -> state t = TASK_STATE_RUNNING ->
  (forall st s0 s1, Switch.process_signals ti st s0 = Some s1 ->
     same_task_states s0 s1) ->
  always (same_task_states s) (fun _ => True) (Switch.switch_to_task ti).
Proof.
  intros Ht Hrun Hps. unfold Switch.switch_to_task. always_unfold.
  repeat always_step; try done.
  all: try (intros s0 t0 Hs0 Ht0; by apply same_task_states_update).
  - (* task_change_state_idempotent *)
    intros s0 Hs0. pose proof (Hs0 ti) as Hti. rewrite Ht in Hti. simpl in Hti.
    destruct (tasks s0 !! ti) as [t0|] eqn:Ht0; [|done].
    injection Hti as Hti.
    rewrite (task_change_state_idempotent_spec ti _ t0 s0 Ht0).
    rewrite decide_True by congruence. done.
  - (* process_signals *)
    intros s0 s1 Hs0 Hcall k. rewrite (Hps _ _ _ Hcall k). apply Hs0.
Qed.

(** C8. [switch_to_task] on the current task: neither of the two
    assertions on a switch to a different task ([curr] not RUNNING, target
    RUNNABLE) is evaluated, so the call never stops at one of them; the state
    change it makes is [task_change_state_idempotent] to RUNNING, which does
    not write to a task that is RUNNING already; and when the current task is
    RUNNING, the state field of every task is, where control leaves the
    function, what it was on entry ([process_signals] being a collaborator,
    it is taken not to change state fields). *)
Theorem switch_to_task_self (ti : Z) (s : kstate) (t : task) :
  curr s = Some ti -> tasks s !! ti = Some t ->
  (forall e, Switch.switch_to_task ti s = Stop (AssertFailed e) ->
     e ≠ "curr->state != TASK_STATE_RUNNING" /\
     e ≠ "ti->state == TASK_STATE_RUNNABLE") /\
  (exists s1 t1,
     task_change_state_idempotent ti TASK_STATE_RUNNING s = Ret tt s1 /\
     tasks s1 !! ti = Some t1 /\ state t1 = TASK_STATE_RUNNING /\
     (state t = TASK_STATE_RUNNING -> s1 = s)) /\
  (state t = TASK_STATE_RUNNING ->
   (forall st s0 s1, Switch.process_signals ti st s0 = Some s1 ->
      same_task_states s0 s1) ->
   forall c s', Switch.switch_to_task ti s = NoReturn c s' ->
     same_task_states s s').
Proof.
  intros Hc Ht. split; [|split].
  - intros e Hrun. unfold Switch.switch_to_task in Hrun.
    rewrite (bind_Ret _ _ _ _ _ (load_task_Some _ _ _ Ht)) in Hrun.
    rewrite bind_unfold in Hrun. unfold get_curr_task at 1 in Hrun.
    rewrite Hc in Hrun.
    rewrite bind_unfold, ASSERT_true in Hrun by done.
    rewrite decide_False in Hrun by (intros Hne; by apply Hne).
    rewrite bind_unfold in Hrun. unfold mret at 1, M_ret at 1, ret at 1 in Hrun.
    match type of Hrun with
    | ?m s = _ =>
        assert (Hal : always (fun _ => True)
                        (fun r => r ≠ AssertFailed "curr->state != TASK_STATE_RUNNING"
                                  /\ r ≠ AssertFailed "ti->state == TASK_STATE_RUNNABLE")
                        m)
    end.
    { unfold task_change_state_idempotent, task_change_state. always_unfold.
      repeat always_step; try done; split; congruence. }
    specialize (Hal s I). rewrite Hrun in Hal. destruct Hal as [H1 H2].
    split; congruence.
  - rewrite (task_change_state_idempotent_spec ti _ t s Ht).
    destruct (decide (state t = TASK_STATE_RUNNING)) as [Hs|Hs].
    + exists s, t. done.
    + eexists; eexists. split; [reflexivity|]. cbn [tasks set_tasks].
      split; [apply lookup_insert_eq|]. split; [done|]. intros; by exfalso.
  - intros Hs Hps c s' Hrun.
    pose proof (switch_to_task_keeps_states ti s t Ht Hs Hps s) as Hal.
    rewrite Hrun in Hal. apply Hal. by intros k.
Qed.

Lemma no_user_task_true (s : kstate) :
  no_user_task_running s -> Switch.no_user_task s = Ret true s.
Proof.
  intros [Hc|(c & t & Hc & Ht & Hk)]; unfold Switch.no_user_task;
    rewrite bind_unfold; unfold get_curr_task at 1; rewrite Hc; [done|].
  rewrite (is_kernel_thread_Some _ _ _ Ht). by rewrite bool_decide_eq_true_2.
Qed.

Lemma no_user_task_false (s : kstate) (c : Z) (t : task) :
  curr s = Some c -> tasks s !! c = Some t -> pi t ≠ kernel_process_pi ->
  Switch.no_user_task s = Ret false s.
Proof.
  intros Hc Ht Hk. unfold Switch.no_user_task.
  rewrite bind_unfold. unfold get_curr_task at 1. rewrite Hc.
  rewrite (is_kernel_thread_Some _ _ _ Ht). by rewrite bool_decide_eq_false_2.
Qed.

Lemma handle_fatal_error_spec (r : regs_t) (signum : Z) (s : kstate) (c : Z) (t : task) :
  curr s = Some c -> tasks s !! c = Some t ->
  Switch.handle_fatal_error r signum s
    = (Switch.send_signal c signum
         (Z.lor Switch.SIG_FL_PROCESS Switch.SIG_FL_FAULT) ≫= fun _ => mret tt) s.
Proof.
  intros Hc Ht. unfold Switch.handle_fatal_error, Switch.get_curr_tid.
  rewrite bind_unfold. rewrite bind_unfold. unfold get_curr_task at 1. rewrite Hc.
  rewrite (bind_Ret _ _ _ _ _ (load_task_Some _ _ _ Ht)).
  unfold mret at 1, M_ret at 1, ret at 1. by rewrite bind_unfold.
Qed.

(** C9. Each of the three fault entry points panics with the fault name
    when there is no current task or the current task is a kernel-only
    thread; otherwise it calls [send_signal] on the thread id of the current
    task with SIGSEGV, SIGILL and SIGBUS respectively and the flags
    [SIG_FL_PROCESS | SIG_FL_FAULT], and does nothing else. *)
Theorem fault_handlers (r : regs_t) (fault_name : string) (s : kstate) :
  (no_user_task_running s ->
     Switch.handle_generic_fault_int r fault_name s
       = Stop (PanicCalled "FAULT. Error: %s\n" [ArgStr fault_name]) /\
     Switch.handle_inst_illegal_fault_int r fault_name s
       = Stop (PanicCalled "FAULT. Error: %s\n" [ArgStr fault_name]) /\
     Switch.handle_bus_fault_int r fault_name s
       = Stop (PanicCalled "FAULT. Error: %s\n" [ArgStr fault_name])) /\
  (forall c t,
     curr s = Some c -> tasks s !! c = Some t -> pi t ≠ kernel_process_pi ->
     let deliver signum :=
       (Switch.send_signal c signum
          (Z.lor Switch.SIG_FL_PROCESS Switch.SIG_FL_FAULT) ≫= fun _ => mret tt) s in
     Switch.handle_generic_fault_int r fault_name s = deliver Signal.SIGSEGV /\
     Switch.handle_inst_illegal_fault_int r fault_name s = deliver Signal.SIGILL /\
     Switch.handle_bus_fault_int r fault_name s = deliver Signal.SIGBUS).
Proof.
  split.
  - intros Hno. pose proof (no_user_task_true s Hno) as Hb.
    unfold Switch.handle_generic_fault_int, Switch.handle_inst_illegal_fault_int,
      Switch.handle_bus_fault_int.
    rewrite !(bind_Ret _ _ _ _ _ Hb). done.
  - intros c t Hc Ht Hk. cbv zeta.
    pose proof (no_user_task_false s c t Hc Ht Hk) as Hb.
    unfold Switch.handle_generic_fault_int, Switch.handle_inst_illegal_fault_int,
      Switch.handle_bus_fault_int.
    rewrite !(bind_Ret _ _ _ _ _ Hb).
    repeat split; rewrite bind_unfold; unfold mret at 1, M_ret at 1, ret at 1;
      apply (handle_fatal_error_spec r _ s c t Hc Ht).
Qed.
End SwitchClaims.

(** Init, the current task and RUNNING, switches to itself: control goes to
    its saved registers, and every task is in the state it was in. *)
Lemma switch_to_task_self_witness :
  exists s',
    Switch.switch_to_task (H := Examples.switch_quiet) 1 (Examples.state32 [0; 0])
      = NoReturn (context_switch Examples.regs0) s' /\
    same_task_states (Examples.state32 [0; 0]) s' /\
    task_change_state_idempotent 1 TASK_STATE_RUNNING (Examples.state32 [0; 0])
      = Ret tt (Examples.state32 [0; 0]).
Proof.
  destruct (switch_to_task_self (H := Examples.switch_quiet) 1
              (Examples.state32 [0; 0])
              (Examples.a_task 1 TASK_STATE_RUNNING WOBJ_NONE [0; 0])
              eq_refl eq_refl)
    as (_ & (s1 & t1 & Hchange & _ & _ & Hsame) & Hstates).
  eexists. split; [vm_compute; reflexivity|]. split.
  - apply (Hstates eq_refl) with (c := context_switch Examples.regs0).
    + intros st s0 s1' [= <-] k. reflexivity.
    + vm_compute. reflexivity.
  - rewrite Hchange. f_equal. apply Hsame. reflexivity.
Defined.

(** A fault in the kernel thread panics; a misaligned access of init, with
    the preemption gate open, ends in the termination of its process by
    SIGBUS. *)
Lemma fault_handlers_witness :
  Switch.handle_generic_fault_int (H := Examples.switch_quiet) Examples.regs0
    "access fault" Examples.state_kthread
    = Stop (PanicCalled "FAULT. Error: %s\n" [ArgStr "access fault"]) /\
  exists s',
    Switch.handle_bus_fault_int (H := Examples.switch_quiet) Examples.regs0
      "misaligned access" Examples.state_preemptible
      = NoReturn (terminate_process 0 Signal.SIGBUS) s'.
Proof.
  split.
  - apply (proj1 (fault_handlers (H := Examples.switch_quiet) Examples.regs0
                    "access fault" Examples.state_kthread)).
    right. exists 10001, (Examples.a_task 0 TASK_STATE_RUNNABLE WOBJ_NONE [0; 0]).
    split; [reflexivity|]. split; reflexivity.
  - destruct (proj2 (fault_handlers (H := Examples.switch_quiet) Examples.regs0
                       "misaligned access" Examples.state_preemptible)
                1 (Examples.a_task 1 TASK_STATE_RUNNING WOBJ_NONE [0; 0])
                eq_refl eq_refl)
      as (_ & _ & Hbus).
    + vm_compute. discriminate.
    + rewrite Hbus. eexists. vm_compute. reflexivity.
Defined.

(** ** Remarks on the pending-signal set *)

Section PendingBounds.
Context `{BuildConfig}.

(** Whatever the signal number, the three operations on the pending set
    never index the bitmask of a task outside its [K_SIGACTION_MASK_WORDS]
    words. *)
Lemma pending_sig_never_out_of_bounds (ti signum : Z) (s : kstate) (t : task)
    (name : string) (i : Z) :
  config_wf ->
  tasks s !! ti = Some t ->
  length (pending_signums t) = K_SIGACTION_MASK_WORDS ->
  Signal.add_pending_sig ti signum s ≠ Stop (OutOfBounds name i) /\
  Signal.del_pending_sig ti signum s ≠ Stop (OutOfBounds name i) /\
  Signal.is_pending_sig ti signum s ≠ Stop (OutOfBounds name i).
Proof.
  intros [Hcfg _] Ht Hlen.
  assert (HN : 0 < NBITS) by (destruct Hcfg; lia).
  unfold Signal.add_pending_sig, Signal.del_pending_sig, Signal.is_pending_sig.
  destruct (bool_decide (signum > 0)) eqn:Hpos.
  2:{ rewrite !bind_unfold. unfold ASSERT. done. }
  rewrite !bind_unfold, !ASSERT_true by done.
  apply bool_decide_eq_true_1 in Hpos.
  destruct (decide (Z.quot (signum - 1) NBITS >= Z.of_nat K_SIGACTION_MASK_WORDS))
    as [Hge|Hlt]; [done|].
  assert (Hq0 : 0 <= Z.quot (signum - 1) NBITS)
    by (apply Z.quot_pos; clear - Hpos HN; lia).
  assert (Hin : 0 <= Z.quot (signum - 1) NBITS
                < Z.of_nat (length (pending_signums t)))
    by (rewrite Hlen; clear - Hq0 Hlt; lia).
  rewrite !(bind_Ret _ _ _ _ _ (load_task_Some _ _ _ Ht)).
  rewrite !(bind_Ret _ _ _ _ _ (array_get_in _ _ _ _ Hin)).
  rewrite !bind_unfold. unfold int_shl.
  destruct ((0 <=? Z.rem (signum - 1) NBITS) && (Z.rem (signum - 1) NBITS <? 32));
    [|done].
  cbv [mret M_ret ret]. cbn beta iota.
  rewrite !bind_unfold, !(array_set_in _ _ _ _ _ Hin).
  rewrite !(update_task_Some _ _ _ _ Ht). done.
Qed.

End PendingBounds.

(** On a 64-bit build the bit index of a signal above 32 is not a shift
    count of [int]: [1 << index] has no value there. Such signals have no
    entry in the table of default actions. *)
Remark add_pending_sig_shift_64 :
  Signal.add_pending_sig (H := config64) 7 40 (Examples.state32 [0])
    = Stop (UndefinedShift 39) /\
  Signal.signal_default_actions (H := config64) (H0 := Examples.quiet) 40 = None.
Proof. split; reflexivity. Qed.

(** * More of the code

    Properties of the functions beside those of the specification's claims:
    the helpers of [utils.h], the rest of the pending set, of the default
    actions and of the two signal syscalls, and the paths of
    [switch_to_task] to another task. *)

(** ** The helpers of [utils.h] *)

(** A boolean test that holds on the first [n] naturals holds on every
    integer of that range. *)
Lemma forallb_range (P : Z -> bool) (n : nat) :
  forallb P (map Z.of_nat (seq 0 n)) = true ->
  forall k, 0 <= k < Z.of_nat n -> P k = true.
Proof.
  intros Hall k Hk. rewrite forallb_forall in Hall. apply Hall.
  apply in_map_iff. exists (Z.to_nat k). split; [lia|].
  apply in_seq. lia.
Qed.

Lemma first_zero_bit_loop_spec (bits : Z) (n : nat) : forall i num,
  0 <= i -> i + Z.of_nat n = bits ->
  let r := UtilsMore.first_zero_bit_loop bits n i num in
  i <= r <= bits /\
  (forall j, i <= j < r -> Z.testbit num j = true) /\
  (r < bits -> Z.testbit num r = false).
Proof.
  induction n as [|n IH]; intros i num Hi Hb; cbn zeta.
  - simpl. split; [lia|]. split; [intros; lia|lia].
  - simpl.
    assert (Hsh : Z.shiftl 1 i mod 2 ^ bits = 2 ^ i).
    { rewrite Z.shiftl_1_l. apply Z.mod_small. split.
      - apply Z.pow_nonneg; lia.
      - apply Z.pow_lt_mono_r; lia. }
    rewrite Hsh. rewrite land_pow2_testbit by lia.
    destruct (Z.testbit num i) eqn:Hbit.
    + rewrite decide_False.
      2:{ assert (0 < 2 ^ i) by (apply Z.pow_pos_nonneg; lia). lia. }
      specialize (IH (i + 1) num ltac:(lia) ltac:(lia)). cbn zeta in IH.
      destruct IH as (Hr & Hlow & Hset).
      split; [lia|]. split; [|auto].
      intros j Hj. destruct (decide (j = i)) as [->|]; [done|]. apply Hlow. lia.
    + rewrite decide_True by done.
      split; [lia|]. split; [intros; lia|auto].
Qed.

(** A value below [2 ^ bits] other than [2 ^ bits - 1] has a clear bit
    below [bits]. *)
Lemma not_all_ones_has_zero_bit (bits num : Z) :
  0 <= bits -> 0 <= num < 2 ^ bits -> num ≠ 2 ^ bits - 1 ->
  exists j, 0 <= j < bits /\ Z.testbit num j = false.
Proof.
  intros Hb Hr Hne.
  destruct (nonzero_has_bit bits (2 ^ bits - 1 - num)) as (j & Hj & Hbit);
    [lia|lia|].
  exists j. split; [done|].
  assert (Hm : 2 ^ bits - 1 - num = Z.lnot num mod 2 ^ bits).
  { apply (Z.mod_unique _ _ (-1)); [lia|]. unfold Z.lnot. lia. }
  rewrite Hm, Z.mod_pow2_bits_low, Z.lnot_spec in Hbit by lia.
  by destruct (Z.testbit num j).
Qed.

(** X1. [get_first_set_bit_index] and [get_first_set_bit_index64] halt at
    their assertion on 0; on any other value the 64-bit scan returns the
    index of the least set bit, and so does the 32-bit scan on a value of
    [u32]. *)
Theorem get_first_set_bit_index_spec (num : Z) (s : kstate) :
  0 <= num < 2 ^ 64 ->
  (num = 0 ->
     get_first_set_bit_index num s = Stop (AssertFailed "num != 0") /\
     get_first_set_bit_index64 num s = Stop (AssertFailed "num != 0")) /\
  (num ≠ 0 ->
     exists i, get_first_set_bit_index64 num s = Ret i s /\
       0 <= i < 64 /\ Z.testbit num i = true /\
       (forall j, 0 <= j < i -> Z.testbit num j = false) /\
       (num < 2 ^ 32 -> get_first_set_bit_index num s = Ret i s /\ i < 32)).
Proof.
  intros Hr. unfold get_first_set_bit_index, get_first_set_bit_index64. split.
  - intros ->. split; reflexivity.
  - intros Hne.
    rewrite !bind_unfold, !ASSERT_true by (by apply bool_decide_eq_true_2).
    eexists. split; [reflexivity|].
    destruct (first_set_bit_loop_found 64 num ltac:(lia) Hr Hne)
      as (Hi & Hbit & Hlow).
    split; [exact Hi|]. split; [exact Hbit|]. split; [exact Hlow|].
    intros H32.
    destruct (first_set_bit_loop_found 32 num ltac:(lia) ltac:(lia) Hne)
      as (Hi' & Hbit' & Hlow').
    cbn beta iota. unfold mret, M_ret, ret.
    change (Z.to_nat 64) with 64%nat in *. change (Z.to_nat 32) with 32%nat in *.
    set (a := first_set_bit_loop 64 64 0 num) in *.
    set (b := first_set_bit_loop 32 32 0 num) in *.
    clearbody a b.
    assert (a = b).
    { destruct (Z.lt_trichotomy a b) as [Hlt|[Heq|Hgt]]; [|exact Heq|].
      - rewrite Hlow' in Hbit by lia. discriminate Hbit.
      - rewrite Hlow in Hbit' by lia. discriminate Hbit'. }
    subst b. split; [reflexivity|lia].
Qed.

(** On 40 = 0b101000 both scans return 3. *)
Lemma get_first_set_bit_index_spec_witness :
  exists i, get_first_set_bit_index64 40 (Examples.state32 [0; 0])
              = Ret i (Examples.state32 [0; 0]) /\
    0 <= i < 64 /\ Z.testbit 40 i = true /\
    (forall j, 0 <= j < i -> Z.testbit 40 j = false) /\
    (40 < 2 ^ 32 ->
     get_first_set_bit_index 40 (Examples.state32 [0; 0])
       = Ret i (Examples.state32 [0; 0]) /\ i < 32).
Proof.
  apply (get_first_set_bit_index_spec 40 (Examples.state32 [0; 0])); lia.
Defined.

(** X2. [get_first_zero_bit_index] halts at its assertion on the [u32] with
    all bits set; on any other [u32] it returns the index of the least clear
    bit. *)
Theorem get_first_zero_bit_index_spec (num : Z) (s : kstate) :
  0 <= num < 2 ^ 32 ->
  (num = 2 ^ 32 - 1 ->
     UtilsMore.get_first_zero_bit_index num s = Stop (AssertFailed "num != ~0U")) /\
  (num ≠ 2 ^ 32 - 1 ->
     exists i, UtilsMore.get_first_zero_bit_index num s = Ret i s /\
       0 <= i < 32 /\ Z.testbit num i = false /\
       forall j, 0 <= j < i -> Z.testbit num j = true).
Proof.
  intros Hr. unfold UtilsMore.get_first_zero_bit_index.
  change (to_u32 (Z.lnot 0)) with (2 ^ 32 - 1). split.
  - intros ->. rewrite bind_unfold, ASSERT_false; [done|].
    by apply bool_decide_eq_false_2; intros Hne; apply Hne.
  - intros Hne. rewrite bind_unfold, ASSERT_true by (by apply bool_decide_eq_true_2).
    eexists. split; [reflexivity|].
    destruct (first_zero_bit_loop_spec 32 32 0 num ltac:(lia) ltac:(lia))
      as (Hrange & Hlow & Hclear).
    destruct (not_all_ones_has_zero_bit 32 num ltac:(lia) Hr Hne) as (j & Hj & Hbit).
    assert (UtilsMore.first_zero_bit_loop 32 32 0 num < 32).
    { destruct (Z.lt_ge_cases (UtilsMore.first_zero_bit_loop 32 32 0 num) 32); [done|].
      rewrite Hlow in Hbit by lia. done. }
    split; [lia|]. split; auto.
Qed.

(** On 7 = 0b111 the scan returns 3. *)
Lemma get_first_zero_bit_index_spec_witness :
  exists i, UtilsMore.get_first_zero_bit_index 7 (Examples.state32 [0; 0])
              = Ret i (Examples.state32 [0; 0]) /\
    0 <= i < 32 /\ Z.testbit 7 i = false /\
    forall j, 0 <= j < i -> Z.testbit 7 j = true.
Proof.
  apply (get_first_zero_bit_index_spec 7 (Examples.state32 [0; 0])); lia.
Defined.

(** X3. [get_first_zero_bit_index64] compares its [u64] argument with
    [~0U]: it halts at the assertion on [0xffffffff], whose bit 32 is clear;
    it lets the value with all 64 bits set through and returns 64 for it; on
    any other [u64] it returns the index of the least clear bit. *)
Theorem get_first_zero_bit_index64_spec (num : Z) (s : kstate) :
  0 <= num < 2 ^ 64 ->
  (num = 2 ^ 32 - 1 ->
     UtilsMore.get_first_zero_bit_index64 num s = Stop (AssertFailed "num != ~0U")) /\
  (num = 2 ^ 64 - 1 -> UtilsMore.get_first_zero_bit_index64 num s = Ret 64 s) /\
  (num ≠ 2 ^ 32 - 1 -> num ≠ 2 ^ 64 - 1 ->
     exists i, UtilsMore.get_first_zero_bit_index64 num s = Ret i s /\
       0 <= i < 64 /\ Z.testbit num i = false /\
       forall j, 0 <= j < i -> Z.testbit num j = true).
Proof.
  intros Hr. unfold UtilsMore.get_first_zero_bit_index64.
  change (to_u32 (Z.lnot 0)) with (2 ^ 32 - 1). split; [|split].
  - intros ->. rewrite bind_unfold, ASSERT_false; [done|].
    by apply bool_decide_eq_false_2; intros Hne; apply Hne.
  - intros ->. reflexivity.
  - intros Hne Hne'.
    rewrite bind_unfold, ASSERT_true by (by apply bool_decide_eq_true_2).
    eexists. split; [reflexivity|].
    destruct (first_zero_bit_loop_spec 64 64 0 num ltac:(lia) ltac:(lia))
      as (Hrange & Hlow & Hclear).
    destruct (not_all_ones_has_zero_bit 64 num ltac:(lia) Hr Hne') as (j & Hj & Hbit).
    assert (UtilsMore.first_zero_bit_loop 64 64 0 num < 64).
    { destruct (Z.lt_ge_cases (UtilsMore.first_zero_bit_loop 64 64 0 num) 64); [done|].
      rewrite Hlow in Hbit by lia. done. }
    split; [lia|]. split; auto.
Qed.

(** On [2 ^ 33 - 1] the scan returns 33 (a clear bit exists above bit 31);
    the halting value and the all-ones value are as the theorem says. *)
Lemma get_first_zero_bit_index64_spec_witness :
  UtilsMore.get_first_zero_bit_index64 (2 ^ 32 - 1) (Examples.state32 [0; 0])
    = Stop (AssertFailed "num != ~0U") /\
  UtilsMore.get_first_zero_bit_index64 (2 ^ 64 - 1) (Examples.state32 [0; 0])
    = Ret 64 (Examples.state32 [0; 0]) /\
  exists i, UtilsMore.get_first_zero_bit_index64 (2 ^ 33 - 1)
              (Examples.state32 [0; 0]) = Ret i (Examples.state32 [0; 0]) /\
    0 <= i < 64 /\ Z.testbit (2 ^ 33 - 1) i = false /\
    forall j, 0 <= j < i -> Z.testbit (2 ^ 33 - 1) j = true.
Proof.
  split; [|split].
  - apply (get_first_zero_bit_index64_spec (2 ^ 32 - 1) (Examples.state32 [0; 0]));
      [lia|reflexivity].
  - apply (get_first_zero_bit_index64_spec (2 ^ 64 - 1) (Examples.state32 [0; 0]));
      [lia|reflexivity].
  - apply (get_first_zero_bit_index64_spec (2 ^ 33 - 1) (Examples.state32 [0; 0]));
      lia.
Defined.

(** X4. [log2_for_power_of_2] on a power of two [2 ^ k] that fits [uptr]
    returns [k] up to 32; on a 64-bit build it returns 32 for every exponent
    from 32 on (the masks of the low bits of the result are 32 bits wide). *)
Theorem log2_for_power_of_2_spec `{BuildConfig} (k : Z) :
  (NBITS = 32 \/ NBITS = 64) -> 0 <= k < NBITS ->
  UtilsMore.log2_for_power_of_2 (2 ^ k) = Z.min k 32.
Proof.
  destruct H as [nb kw ns]. cbn [NBITS]. intros [-> | ->] Hk.
  - assert (Hall : forallb
      (fun k => UtilsMore.log2_for_power_of_2 (H := Build_BuildConfig 32 kw ns) (2 ^ k)
                =? Z.min k 32)
      (map Z.of_nat (seq 0 32)) = true) by (vm_compute; reflexivity).
    apply Z.eqb_eq. apply (forallb_range _ 32 Hall k). lia.
  - assert (Hall : forallb
      (fun k => UtilsMore.log2_for_power_of_2 (H := Build_BuildConfig 64 kw ns) (2 ^ k)
                =? Z.min k 32)
      (map Z.of_nat (seq 0 64)) = true) by (vm_compute; reflexivity).
    apply Z.eqb_eq. apply (forallb_range _ 64 Hall k). lia.
Qed.

Lemma log2_for_power_of_2_spec_witness :
  UtilsMore.log2_for_power_of_2 (H := config64) (2 ^ 40) = Z.min 40 32.
Proof.
  apply (log2_for_power_of_2_spec (H := config64) 40).
  - right. reflexivity.
  - simpl. lia.
Defined.

Lemma spread_1 (x : Z) : spread x x 1.
Proof.
  intros i Hi. split.
  - intros Hb. exists i. split; [lia|done].
  - intros (j & Hj & Hb). by replace i with j by lia.
Qed.

Lemma spread_step (x y n : Z) :
  0 < n -> spread x y n -> spread x (Z.lor y (Z.shiftr y n)) (2 * n).
Proof.
  intros Hn Hs i Hi. rewrite Z.lor_spec, Z.shiftr_spec by lia.
  rewrite orb_true_iff, (Hs i Hi), (Hs (i + n)) by lia. split.
  - intros [(j & Hj & Hb)|(j & Hj & Hb)]; exists j; (split; [lia|done]).
  - intros (j & Hj & Hb). destruct (Z.lt_ge_cases j (i + n)).
    + left. exists j. split; [lia|done].
    + right. exists j. split; [lia|done].
Qed.

Lemma spread_all (x y n : Z) :
  0 < x < 2 ^ n -> spread x y n -> y = Z.ones (Z.log2 x + 1).
Proof.
  intros Hx Hs.
  assert (Hn : 0 <= n).
  { destruct (Z.lt_ge_cases n 0); [|done]. rewrite Z.pow_neg_r in Hx; lia. }
  pose proof (Z.log2_nonneg x) as Hl0.
  assert (Hl : Z.log2 x < n) by (apply Z.log2_lt_pow2; lia).
  apply Z.bits_inj'. intros i Hi.
  rewrite Z.testbit_ones_nonneg by lia.
  destruct (Z.ltb_spec i (Z.log2 x + 1)) as [Hlt|Hge].
  - apply (Hs i Hi). exists (Z.log2 x). split; [lia|]. apply Z.bit_log2. lia.
  - destruct (Z.testbit y i) eqn:Hb; [|done].
    apply (Hs i Hi) in Hb as (j & Hj & Hb).
    rewrite Z.bits_above_log2 in Hb by lia. done.
Qed.

Section RoundUp.
Context `{BuildConfig}.

(** The cascade of shifts of [roundup_next_power_of_2] sets every bit below
    the highest set bit. *)
Lemma roundup_next_power_of_2_value (v : Z) :
  NBITS = 32 \/ NBITS = 64 ->
  0 < to_ulong (v - 1) ->
  UtilsMore.roundup_next_power_of_2 v
    = to_ulong (2 ^ (Z.log2 (to_ulong (v - 1)) + 1)).
Proof.
  intros Hn Hx. unfold UtilsMore.roundup_next_power_of_2. cbv zeta.
  set (x := to_ulong (v - 1)) in *.
  assert (Hxr : 0 < x < 2 ^ NBITS).
  { split; [done|]. unfold x, to_ulong. apply Z.mod_pos_bound.
    apply Z.pow_pos_nonneg; destruct Hn; lia. }
  pose proof (spread_1 x) as S1.
  pose proof (spread_step x _ 1 eq_refl S1) as S2.
  pose proof (spread_step x _ 2 eq_refl S2) as S4.
  pose proof (spread_step x _ 4 eq_refl S4) as S8.
  pose proof (spread_step x _ 8 eq_refl S8) as S16.
  pose proof (spread_step x _ 16 eq_refl S16) as S32.
  pose proof (spread_step x _ 32 eq_refl S32) as S64.
  unfold UtilsMore.BITS64. f_equal.
  destruct Hn as [Hn|Hn]; rewrite Hn in *.
  - rewrite bool_decide_eq_false_2 by lia.
    rewrite (spread_all x _ 32 Hxr S32). rewrite Z.ones_equiv. lia.
  - rewrite bool_decide_eq_true_2 by done.
    rewrite (spread_all x _ 64 Hxr S64). rewrite Z.ones_equiv. lia.
Qed.

(** X5. [roundup_next_power_of_2]: for [v] from 1 to half the range of
    [uptr], the least power of two that is at least [v]; 0 for 0 and for
    the values above half the range. *)
Theorem roundup_next_power_of_2_spec (v : Z) :
  NBITS = 32 \/ NBITS = 64 ->
  (1 <= v <= 2 ^ (NBITS - 1) ->
     exists k, 0 <= k < NBITS /\
       UtilsMore.roundup_next_power_of_2 v = 2 ^ k /\
       v <= 2 ^ k /\ (forall k', 0 <= k' -> v <= 2 ^ k' -> k <= k')) /\
  (v = 0 \/ 2 ^ (NBITS - 1) < v < 2 ^ NBITS ->
     UtilsMore.roundup_next_power_of_2 v = 0).
Proof.
  intros Hn.
  assert (HN : 32 <= NBITS) by (destruct Hn; lia).
  assert (Hpow : 2 ^ NBITS = 2 * 2 ^ (NBITS - 1)).
  { rewrite <- Z.pow_succ_r by lia. f_equal. lia. }
  assert (Hpos : 0 < 2 ^ (NBITS - 1)) by (apply Z.pow_pos_nonneg; lia).
  split.
  - intros Hv. destruct (decide (v = 1)) as [->|Hv1].
    + exists 0. split; [lia|]. split.
      * unfold UtilsMore.roundup_next_power_of_2, UtilsMore.BITS64, to_ulong.
        destruct Hn as [-> | ->]; reflexivity.
      * split; [done|]. intros; lia.
    + assert (Hx : to_ulong (v - 1) = v - 1).
      { unfold to_ulong. apply Z.mod_small. lia. }
      pose proof (Z.log2_spec (v - 1) ltac:(lia)) as [Hlo Hhi].
      pose proof (Z.log2_nonneg (v - 1)) as Hl0.
      assert (Hl : Z.log2 (v - 1) < NBITS - 1).
      { apply Z.log2_lt_pow2; lia. }
      exists (Z.log2 (v - 1) + 1). split; [lia|].
      rewrite roundup_next_power_of_2_value by (rewrite ?Hx; auto; lia).
      rewrite Hx. split.
      * unfold to_ulong. apply Z.mod_small. split; [apply Z.pow_nonneg; lia|].
        apply Z.pow_lt_mono_r; lia.
      * replace (Z.succ (Z.log2 (v - 1))) with (Z.log2 (v - 1) + 1) in Hhi by lia.
        split; [lia|]. intros k' Hk' Hle.
        destruct (Z.lt_ge_cases k' (Z.log2 (v - 1) + 1)); [|lia].
        assert (2 ^ k' <= 2 ^ Z.log2 (v - 1)) by (apply Z.pow_le_mono_r; lia).
        lia.
  - intros [->|Hv].
    + unfold UtilsMore.roundup_next_power_of_2, UtilsMore.BITS64, to_ulong.
      destruct Hn as [-> | ->]; reflexivity.
    + assert (Hx : to_ulong (v - 1) = v - 1).
      { unfold to_ulong. apply Z.mod_small. lia. }
      rewrite roundup_next_power_of_2_value by (rewrite ?Hx; auto; lia).
      rewrite Hx.
      assert (Hl : Z.log2 (v - 1) = NBITS - 1).
      { apply Z.log2_unique; [lia|].
        replace (Z.succ (NBITS - 1)) with NBITS by lia. lia. }
      rewrite Hl. replace (NBITS - 1 + 1) with NBITS by lia.
      unfold to_ulong. apply Z.mod_same. lia.
Qed.

(** [round_up_at] and [pow2_round_up_at] *)
Lemma round_up_arith (n u : Z) :
  0 < u -> rounded_up n u ((n + u - 1) / u * u).
Proof.
  intros Hu. unfold rounded_up.
  pose proof (Z.mul_div_le (n + u - 1) u Hu) as Hle.
  pose proof (Z.mul_succ_div_gt (n + u - 1) u Hu) as Hgt.
  revert Hle Hgt. generalize ((n + u - 1) / u) as q. intros q Hle Hgt.
  split; [apply Z.mod_mul; lia|]. lia.
Qed.

End RoundUp.

(** Masking with [-2^k] on [bits] bits clears the low [k] bits. *)
Lemma land_neg_pow2 (bits k x : Z) :
  0 <= k < bits -> 0 <= x < 2 ^ bits ->
  Z.land x ((- 2 ^ k) mod 2 ^ bits) = x / 2 ^ k * 2 ^ k.
Proof.
  intros Hk Hx.
  rewrite <- Z.shiftr_div_pow2, <- Z.shiftl_mul_pow2 by lia.
  apply Z.bits_inj'. intros i Hi. rewrite Z.land_spec.
  destruct (Z.lt_ge_cases i k) as [Hlt|Hge].
  - rewrite Z.shiftl_spec_low by lia.
    rewrite Z.mod_pow2_bits_low by lia.
    rewrite Z.bits_opp by lia. rewrite <- Z.ones_equiv.
    rewrite Z.testbit_ones_nonneg by lia.
    replace (i <? k) with true by (symmetry; apply Z.ltb_lt; lia).
    apply andb_false_r.
  - rewrite Z.shiftl_spec, Z.shiftr_spec by lia.
    replace (i - k + k) with i by lia.
    destruct (Z.lt_ge_cases i bits) as [Hlt|Hge'].
    + rewrite Z.mod_pow2_bits_low by lia.
      rewrite Z.bits_opp by lia. rewrite <- Z.ones_equiv.
      rewrite Z.testbit_ones_nonneg by lia.
      replace (i <? k) with false by (symmetry; apply Z.ltb_ge; lia).
      apply andb_true_r.
    + rewrite Z.mod_pow2_bits_high by lia. rewrite andb_false_r.
      symmetry. destruct (decide (x = 0)) as [->|Hnz]; [apply Z.bits_0|].
      apply Z.bits_above_log2; [lia|].
      assert (Z.log2 x < bits) by (apply Z.log2_lt_pow2; lia). lia.
Qed.

Section RoundUpAt.
Context `{BuildConfig}.

(** X6. [round_up_at] and [round_up_at64] have no value for the unit 0;
    for a positive unit, when [n + unit - 1] does not wrap, they return the
    least multiple of the unit that is at least [n]. *)
Theorem round_up_at_spec (n unit : Z) :
  (unit = 0 ->
     UtilsMore.round_up_at n unit = None /\
     UtilsMore.round_up_at64 n unit = None) /\
  (0 <= n -> 0 < unit -> n + unit - 1 < 2 ^ NBITS ->
     exists r, UtilsMore.round_up_at n unit = Some r /\ rounded_up n unit r) /\
  (0 <= n -> 0 < unit -> n + unit - 1 < 2 ^ 64 ->
     exists r, UtilsMore.round_up_at64 n unit = Some r /\ rounded_up n unit r).
Proof.
  unfold UtilsMore.round_up_at, UtilsMore.round_up_at64. split; [|split].
  - intros ->. by rewrite !decide_True.
  - intros Hn Hu Hov. rewrite decide_False by lia.
    eexists. split; [reflexivity|].
    unfold to_ulong. rewrite (Z.mod_small (n + unit - 1)) by lia.
    pose proof (round_up_arith n unit Hu) as Hr.
    rewrite Z.mod_small; [done|]. destruct Hr as [_ Hr]. lia.
  - intros Hn Hu Hov. rewrite decide_False by lia.
    eexists. split; [reflexivity|].
    unfold to_u64. rewrite (Z.mod_small (n + unit - 1)) by lia.
    pose proof (round_up_arith n unit Hu) as Hr.
    rewrite Z.mod_small; [done|]. destruct Hr as [_ Hr]. lia.
Qed.

(** X7. [pow2_round_up_at] and [pow2_round_up_at64] on a unit [2 ^ k]
    return the least multiple of the unit that is at least [n], when
    [n + 2 ^ k - 1] does not wrap. *)
Theorem pow2_round_up_at_spec (n k : Z) :
  0 <= n -> 0 <= k ->
  (k < NBITS -> n + 2 ^ k - 1 < 2 ^ NBITS ->
     rounded_up n (2 ^ k) (UtilsMore.pow2_round_up_at n (2 ^ k))) /\
  (k < 64 -> n + 2 ^ k - 1 < 2 ^ 64 ->
     rounded_up n (2 ^ k) (UtilsMore.pow2_round_up_at64 n (2 ^ k))).
Proof.
  intros Hn Hk.
  assert (Hu : 0 < 2 ^ k) by (apply Z.pow_pos_nonneg; lia).
  split; intros Hk' Hov.
  - unfold UtilsMore.pow2_round_up_at, to_ulong.
    rewrite (Z.mod_small (n + 2 ^ k - 1)) by lia.
    rewrite land_neg_pow2 by lia.
    by apply round_up_arith.
  - unfold UtilsMore.pow2_round_up_at64, to_u64.
    rewrite (Z.mod_small (n + 2 ^ k - 1)) by lia.
    rewrite land_neg_pow2 by lia.
    by apply round_up_arith.
Qed.

End RoundUpAt.

(** 100 rounded up: to the next power of two (128); at the unit 24 (120);
    at the unit [2 ^ 4] (112). *)
Lemma roundup_next_power_of_2_spec_witness :
  exists k, 0 <= k < 32 /\
    UtilsMore.roundup_next_power_of_2 (H := config32) 100 = 2 ^ k /\
    100 <= 2 ^ k /\ (forall k', 0 <= k' -> 100 <= 2 ^ k' -> k <= k').
Proof.
  apply (roundup_next_power_of_2_spec (H := config32) 100).
  - left. reflexivity.
  - simpl. lia.
Defined.

Lemma round_up_at_spec_witness :
  (exists r, UtilsMore.round_up_at (H := config32) 100 24 = Some r /\
             rounded_up 100 24 r) /\
  UtilsMore.round_up_at64 100 0 = None.
Proof.
  split.
  - apply (round_up_at_spec (H := config32) 100 24); simpl; lia.
  - apply (round_up_at_spec (H := config32) 100 0). reflexivity.
Defined.

Lemma pow2_round_up_at_spec_witness :
  rounded_up 100 (2 ^ 4) (UtilsMore.pow2_round_up_at (H := config32) 100 (2 ^ 4)) /\
  rounded_up 100 (2 ^ 4) (UtilsMore.pow2_round_up_at64 100 (2 ^ 4)).
Proof.
  destruct (pow2_round_up_at_spec (H := config32) 100 4) as [H1 H2]; [lia|lia|].
  split; [apply H1|apply H2]; simpl; lia.
Defined.

(** ** The pending set *)

Section PendingOps.
Context `{BuildConfig}.

Lemma int_bit_testbit (index i : Z) :
  NBITS = 32 \/ NBITS = 64 ->
  0 <= index < NBITS -> index < 31 \/ NBITS = 32 ->
  0 <= i < NBITS ->
  Z.testbit (to_int (Z.shiftl 1 index)) i = (index =? i).
Proof.
  intros Hn Hidx Hex Hi. rewrite Z.shiftl_1_l.
  destruct (Z.lt_ge_cases i 32) as [Hlt|Hge].
  - rewrite to_int_testbit by lia. apply Z.pow2_bits_eqb. lia.
  - assert (index < 31) by lia.
    assert (Hsmall : to_int (2 ^ index) = 2 ^ index).
    { unfold to_int.
      assert (0 < 2 ^ index) by (apply Z.pow_pos_nonneg; lia).
      assert (2 ^ index < 2 ^ 31) by (apply Z.pow_lt_mono_r; lia).
      rewrite Z.mod_small; lia. }
    rewrite Hsmall. apply Z.pow2_bits_eqb. lia.
Qed.

Lemma sig_pending_insert (ws : list Z) (slot : nat) (v sig : Z) :
  0 < NBITS -> (slot < length ws)%nat -> 1 <= sig ->
  sig_pending (<[slot := v]> ws) sig =
    if (sig - 1) / NBITS =? Z.of_nat slot
    then Z.testbit v ((sig - 1) mod NBITS)
    else sig_pending ws sig.
Proof.
  intros HN Hslot Hsig. unfold sig_pending.
  assert (Hq0 : 0 <= (sig - 1) / NBITS) by (apply Z.div_pos; lia).
  revert Hq0. generalize ((sig - 1) / NBITS) as q, ((sig - 1) mod NBITS) as b.
  intros q b Hq0. rewrite !nth_lookup.
  destruct (Z.eqb_spec q (Z.of_nat slot)) as [->|Hne].
  - by rewrite Nat2Z.id, list_lookup_insert_eq.
  - rewrite list_lookup_insert_ne by lia. done.
Qed.

(** Signal numbers are told apart by their slot and bit index. *)
Lemma slot_index_inj (sig sig' : Z) :
  0 < NBITS ->
  (sig' - 1) / NBITS = (sig - 1) / NBITS ->
  (sig' - 1) mod NBITS = (sig - 1) mod NBITS -> sig' = sig.
Proof.
  intros HN Hq Hm.
  assert (Hnz : NBITS ≠ 0) by (clear - HN; lia).
  pose proof (Z.div_mod (sig - 1) NBITS Hnz) as H1.
  pose proof (Z.div_mod (sig' - 1) NBITS Hnz) as H2.
  rewrite Hq, Hm in H2. rewrite <- H1 in H2. clear - H2. lia.
Qed.

(** The three operations on a signal that the bitmask holds and whose bit
    index is a shift count of [int]. *)
Lemma pending_ops_run (ti signum : Z) (s : kstate) (t : task) :
  config_wf ->
  tasks s !! ti = Some t ->
  length (pending_signums t) = K_SIGACTION_MASK_WORDS ->
  0 < signum ->
  (signum - 1) / NBITS < Z.of_nat K_SIGACTION_MASK_WORDS ->
  (signum - 1) mod NBITS < 32 ->
  let slot := Z.to_nat ((signum - 1) / NBITS) in
  let w := nth slot (pending_signums t) 0 in
  let bit := to_int (Z.shiftl 1 ((signum - 1) mod NBITS)) in
  Signal.add_pending_sig ti signum s
    = Ret tt (set_tasks
                (<[ti := set_pending_signums
                           (<[slot := Z.lor w (to_ulong bit)]> (pending_signums t)) t]>
                   (tasks s)) s) /\
  Signal.del_pending_sig ti signum s
    = Ret tt (set_tasks
                (<[ti := set_pending_signums
                           (<[slot := Z.land w (to_ulong (Z.lnot bit))]>
                              (pending_signums t)) t]>
                   (tasks s)) s) /\
  Signal.is_pending_sig ti signum s
    = Ret (bool_decide (Z.land w (to_ulong bit) ≠ 0)) s.
Proof.
  intros [Hcfg _] Ht Hlen Hpos Hslot Hidx. cbv zeta.
  assert (HN : 0 < NBITS) by (destruct Hcfg; lia).
  pose proof (Z.mod_pos_bound (signum - 1) NBITS HN) as Hmb.
  assert (Hq0 : 0 <= (signum - 1) / NBITS) by (apply Z.div_pos; lia).
  unfold Signal.add_pending_sig, Signal.del_pending_sig, Signal.is_pending_sig.
  rewrite Z.quot_div_nonneg, Z.rem_mod_nonneg by lia.
  revert Hslot Hidx Hmb Hq0.
  generalize ((signum - 1) / NBITS) as slot, ((signum - 1) mod NBITS) as index.
  intros slot index Hslot Hidx Hmb Hq0.
  assert (Hin : 0 <= slot < Z.of_nat (length (pending_signums t)))
    by (rewrite Hlen; clear - Hslot Hq0; lia).
  rewrite !bind_unfold, !ASSERT_true
    by (apply bool_decide_eq_true_2; clear - Hpos; lia).
  rewrite !decide_False by (clear - Hslot; lia).
  rewrite !(bind_Ret _ _ _ _ _ (load_task_Some _ _ _ Ht)).
  rewrite !(bind_Ret _ _ _ _ _ (array_get_in _ _ _ _ Hin)).
  unfold int_shl.
  replace ((0 <=? index) && (index <? 32)) with true
    by (symmetry; apply andb_true_iff; split; [apply Z.leb_le|apply Z.ltb_lt];
        clear - Hmb Hidx; lia).
  rewrite !bind_unfold. cbv [mret M_ret ret]. cbn beta iota.
  rewrite !bind_unfold, !(array_set_in _ _ _ _ _ Hin).
  rewrite !(update_task_Some _ _ _ _ Ht). done.
Qed.

Lemma to_ulong_testbit (x i : Z) :
  0 <= i < NBITS -> Z.testbit (to_ulong x) i = Z.testbit x i.
Proof. intros Hi. unfold to_ulong. apply Z.mod_pow2_bits_low. lia. Qed.

(** The test of [is_pending_sig] on a word, at an exact bit. *)
Lemma pending_bit_test (w index : Z) :
  NBITS = 32 \/ NBITS = 64 ->
  0 <= index < NBITS -> index < 31 \/ NBITS = 32 ->
  bool_decide (Z.land w (to_ulong (to_int (Z.shiftl 1 index))) ≠ 0)
    = Z.testbit w index.
Proof.
  intros Hn Hidx Hex.
  assert (Hbit : to_ulong (to_int (Z.shiftl 1 index)) = 2 ^ index).
  { apply Z.bits_inj'. intros i Hi. unfold to_ulong.
    destruct (Z.lt_ge_cases i NBITS).
    - rewrite Z.mod_pow2_bits_low by lia.
      rewrite int_bit_testbit by (auto; lia). by rewrite Z.pow2_bits_eqb by lia.
    - rewrite Z.mod_pow2_bits_high by lia. rewrite Z.pow2_bits_eqb by lia.
      symmetry. apply Z.eqb_neq. lia. }
  rewrite Hbit, land_pow2_testbit by lia.
  destruct (Z.testbit w index).
  - apply bool_decide_eq_true_2.
    assert (0 < 2 ^ index) by (apply Z.pow_pos_nonneg; lia). lia.
  - by apply bool_decide_eq_false_2; intros Hne; apply Hne.
Qed.

(** [add_pending_sig] at an exact bit adds the signal to the pending set
    and nothing else. *)
Lemma add_pending_sig_bits (ti signum : Z) (s : kstate) (t : task) :
  config_wf ->
  tasks s !! ti = Some t ->
  length (pending_signums t) = K_SIGACTION_MASK_WORDS ->
  0 < signum ->
  (signum - 1) / NBITS < Z.of_nat K_SIGACTION_MASK_WORDS ->
  exact_bit signum ->
  exists ws',
    Signal.add_pending_sig ti signum s
      = Ret tt (set_tasks (<[ti := set_pending_signums ws' t]> (tasks s)) s) /\
    length ws' = K_SIGACTION_MASK_WORDS /\
    forall sig, 1 <= sig ->
      sig_pending ws' sig = (sig =? signum) || sig_pending (pending_signums t) sig.
Proof.
  intros Hcfg Ht Hlen Hpos Hslot Hex.
  pose proof Hcfg as (Hn & _).
  assert (HN : 0 < NBITS) by (destruct Hn; lia).
  pose proof (Z.mod_pos_bound (signum - 1) NBITS HN) as Hmb.
  assert (Hidx : (signum - 1) mod NBITS < 32) by (destruct Hex, Hn; lia).
  assert (Hq0 : 0 <= (signum - 1) / NBITS) by (apply Z.div_pos; lia).
  destruct (pending_ops_run ti signum s t Hcfg Ht Hlen Hpos Hslot Hidx)
    as (-> & _ & _).
  eexists. split; [reflexivity|]. split; [by rewrite length_insert|].
  intros sig Hsig.
  rewrite sig_pending_insert by (auto; rewrite Hlen; clear - Hslot Hq0; lia).
  rewrite Z2Nat.id by exact Hq0.
  pose proof (Z.mod_pos_bound (sig - 1) NBITS HN) as Hmb'.
  destruct (Z.eqb_spec ((sig - 1) / NBITS) ((signum - 1) / NBITS)) as [Eq|Nq].
  - rewrite Z.lor_spec, to_ulong_testbit, int_bit_testbit by auto.
    unfold sig_pending. rewrite Eq.
    replace (sig =? signum) with ((signum - 1) mod NBITS =? (sig - 1) mod NBITS).
    { apply orb_comm. }
    destruct (Z.eqb_spec ((signum - 1) mod NBITS) ((sig - 1) mod NBITS)) as [Em|Nm].
    + symmetry. apply Z.eqb_eq. by apply slot_index_inj.
    + symmetry. apply Z.eqb_neq. by intros ->.
  - replace (sig =? signum) with false; [done|].
    symmetry. apply Z.eqb_neq. by intros ->.
Qed.

(** [del_pending_sig] at an exact bit takes the signal out of the pending
    set and nothing else. *)
Lemma del_pending_sig_bits (ti signum : Z) (s : kstate) (t : task) :
  config_wf ->
  tasks s !! ti = Some t ->
  length (pending_signums t) = K_SIGACTION_MASK_WORDS ->
  0 < signum ->
  (signum - 1) / NBITS < Z.of_nat K_SIGACTION_MASK_WORDS ->
  exact_bit signum ->
  exists ws',
    Signal.del_pending_sig ti signum s
      = Ret tt (set_tasks (<[ti := set_pending_signums ws' t]> (tasks s)) s) /\
    length ws' = K_SIGACTION_MASK_WORDS /\
    forall sig, 1 <= sig ->
      sig_pending ws' sig
        = negb (sig =? signum) && sig_pending (pending_signums t) sig.
Proof.
  intros Hcfg Ht Hlen Hpos Hslot Hex.
  pose proof Hcfg as (Hn & _).
  assert (HN : 0 < NBITS) by (destruct Hn; lia).
  pose proof (Z.mod_pos_bound (signum - 1) NBITS HN) as Hmb.
  assert (Hidx : (signum - 1) mod NBITS < 32) by (destruct Hex, Hn; lia).
  assert (Hq0 : 0 <= (signum - 1) / NBITS) by (apply Z.div_pos; lia).
  destruct (pending_ops_run ti signum s t Hcfg Ht Hlen Hpos Hslot Hidx)
    as (_ & -> & _).
  eexists. split; [reflexivity|]. split; [by rewrite length_insert|].
  intros sig Hsig.
  rewrite sig_pending_insert by (auto; rewrite Hlen; clear - Hslot Hq0; lia).
  rewrite Z2Nat.id by exact Hq0.
  pose proof (Z.mod_pos_bound (sig - 1) NBITS HN) as Hmb'.
  destruct (Z.eqb_spec ((sig - 1) / NBITS) ((signum - 1) / NBITS)) as [Eq|Nq].
  - rewrite Z.land_spec, to_ulong_testbit, Z.lnot_spec, int_bit_testbit
      by (auto; lia).
    unfold sig_pending. rewrite Eq.
    replace (sig =? signum) with ((signum - 1) mod NBITS =? (sig - 1) mod NBITS).
    { apply andb_comm. }
    destruct (Z.eqb_spec ((signum - 1) mod NBITS) ((sig - 1) mod NBITS)) as [Em|Nm].
    + symmetry. apply Z.eqb_eq. by apply slot_index_inj.
    + symmetry. apply Z.eqb_neq. by intros ->.
  - replace (sig =? signum) with false; [done|].
    symmetry. apply Z.eqb_neq. by intros ->.
Qed.

(** Bit 31 of [int] is the sign bit: converted to a 64-bit [ulong] the mask
    [1 << 31] has bits 31 to 63 set. *)
Lemma int_bit31_testbit (i : Z) :
  0 <= i -> Z.testbit (to_int (Z.shiftl 1 31)) i = (31 <=? i).
Proof.
  intros Hi. replace (to_int (Z.shiftl 1 31)) with (- 2 ^ 31)
    by (vm_compute; reflexivity).
  replace (- 2 ^ 31) with (- Z.succ (Z.ones 31)).
  2:{ rewrite Z.ones_equiv. lia. }
  rewrite Z.bits_opp, Z.pred_succ by lia.
  destruct (Z.leb_spec 31 i).
  - rewrite Z.ones_spec_high by lia. done.
  - rewrite Z.ones_spec_low by lia. done.
Qed.

End PendingOps.

Section PendingOpsMore.
Context `{BuildConfig}.

(** X8. [is_pending_sig] on a signal that the bitmask holds, at an exact
    bit, returns whether the signal is in the pending set, and leaves the
    kernel state as it was. *)
Theorem is_pending_sig_spec (ti signum : Z) (s : kstate) (t : task) :
  config_wf ->
  tasks s !! ti = Some t ->
  length (pending_signums t) = K_SIGACTION_MASK_WORDS ->
  0 < signum ->
  (signum - 1) / NBITS < Z.of_nat K_SIGACTION_MASK_WORDS ->
  exact_bit signum ->
  Signal.is_pending_sig ti signum s = Ret (sig_pending (pending_signums t) signum) s.
Proof.
  intros Hcfg Ht Hlen Hpos Hslot Hex.
  pose proof Hcfg as (Hn & _).
  assert (HN : 0 < NBITS) by (destruct Hn; lia).
  pose proof (Z.mod_pos_bound (signum - 1) NBITS HN) as Hmb.
  assert (Hidx : (signum - 1) mod NBITS < 32) by (destruct Hex, Hn; lia).
  destruct (pending_ops_run ti signum s t Hcfg Ht Hlen Hpos Hslot Hidx)
    as (_ & _ & ->).
  f_equal. unfold sig_pending. by apply pending_bit_test.
Qed.

(** X9. [add_pending_sig] on a signal that the bitmask holds, at an exact
    bit: the call returns, only the pending bitmask of the task changes,
    the pending set gains the signal and is otherwise as it was, and
    [is_pending_sig] then returns true for the signal. *)
Theorem add_pending_sig_exact (ti signum : Z) (s : kstate) (t : task) :
  config_wf ->
  tasks s !! ti = Some t ->
  length (pending_signums t) = K_SIGACTION_MASK_WORDS ->
  0 < signum ->
  (signum - 1) / NBITS < Z.of_nat K_SIGACTION_MASK_WORDS ->
  exact_bit signum ->
  exists ws',
    let s' := set_tasks (<[ti := set_pending_signums ws' t]> (tasks s)) s in
    Signal.add_pending_sig ti signum s = Ret tt s' /\
    (forall sig, 1 <= sig ->
       sig_pending ws' sig = (sig =? signum) || sig_pending (pending_signums t) sig) /\
    Signal.is_pending_sig ti signum s' = Ret true s'.
Proof.
  intros Hcfg Ht Hlen Hpos Hslot Hex.
  destruct (add_pending_sig_bits ti signum s t Hcfg Ht Hlen Hpos Hslot Hex)
    as (ws' & Hrun & Hwl & Hbits).
  exists ws'. cbv zeta. split; [exact Hrun|]. split; [exact Hbits|].
  set (t' := set_pending_signums ws' t).
  set (s' := set_tasks (<[ti:=t']> (tasks s)) s).
  assert (Ht' : tasks s' !! ti = Some t') by apply lookup_insert_eq.
  pose proof Hcfg as (Hn & _).
  assert (HN : 0 < NBITS) by (destruct Hn; lia).
  pose proof (Z.mod_pos_bound (signum - 1) NBITS HN) as Hmb.
  assert (Hidx : (signum - 1) mod NBITS < 32) by (destruct Hex, Hn; lia).
  destruct (pending_ops_run ti signum s' t' Hcfg Ht' Hwl Hpos Hslot Hidx)
    as (_ & _ & ->).
  f_equal. rewrite pending_bit_test by done.
  change (sig_pending ws' signum = true).
  rewrite Hbits by lia. by rewrite Z.eqb_refl.
Qed.

(** X10. [del_pending_sig] on a signal that the bitmask holds, at an exact
    bit: the call returns, only the pending bitmask of the task changes,
    the pending set loses the signal and is otherwise as it was, and
    [is_pending_sig] then returns false for the signal. *)
Theorem del_pending_sig_exact (ti signum : Z) (s : kstate) (t : task) :
  config_wf ->
  tasks s !! ti = Some t ->
  length (pending_signums t) = K_SIGACTION_MASK_WORDS ->
  0 < signum ->
  (signum - 1) / NBITS < Z.of_nat K_SIGACTION_MASK_WORDS ->
  exact_bit signum ->
  exists ws',
    let s' := set_tasks (<[ti := set_pending_signums ws' t]> (tasks s)) s in
    Signal.del_pending_sig ti signum s = Ret tt s' /\
    (forall sig, 1 <= sig ->
       sig_pending ws' sig
         = negb (sig =? signum) && sig_pending (pending_signums t) sig) /\
    Signal.is_pending_sig ti signum s' = Ret false s'.
Proof.
  intros Hcfg Ht Hlen Hpos Hslot Hex.
  destruct (del_pending_sig_bits ti signum s t Hcfg Ht Hlen Hpos Hslot Hex)
    as (ws' & Hrun & Hwl & Hbits).
  exists ws'. cbv zeta. split; [exact Hrun|]. split; [exact Hbits|].
  set (t' := set_pending_signums ws' t).
  set (s' := set_tasks (<[ti:=t']> (tasks s)) s).
  assert (Ht' : tasks s' !! ti = Some t') by apply lookup_insert_eq.
  pose proof Hcfg as (Hn & _).
  assert (HN : 0 < NBITS) by (destruct Hn; lia).
  pose proof (Z.mod_pos_bound (signum - 1) NBITS HN) as Hmb.
  assert (Hidx : (signum - 1) mod NBITS < 32) by (destruct Hex, Hn; lia).
  destruct (pending_ops_run ti signum s' t' Hcfg Ht' Hwl Hpos Hslot Hidx)
    as (_ & _ & ->).
  f_equal. rewrite pending_bit_test by done.
  change (sig_pending ws' signum = false).
  rewrite Hbits by lia. by rewrite Z.eqb_refl.
Qed.

(** X11. On a 64-bit build, a signal whose bit index is 31 (signal 32 of
    each word): [1 << 31] is the sign bit of [int] (taken as [INT_MIN], as
    the embedding does), and its conversion to [ulong] has bits 31 to 63
    set. [add_pending_sig] on it makes that signal and the 32 after it
    pending, and [del_pending_sig] clears all of them. *)
Theorem pending_sig_sign_bit_64 (ti signum : Z) (s : kstate) (t : task) :
  config_wf -> NBITS = 64 ->
  tasks s !! ti = Some t ->
  length (pending_signums t) = K_SIGACTION_MASK_WORDS ->
  0 < signum ->
  (signum - 1) / NBITS < Z.of_nat K_SIGACTION_MASK_WORDS ->
  (signum - 1) mod NBITS = 31 ->
  exists wa wd,
    Signal.add_pending_sig ti signum s
      = Ret tt (set_tasks (<[ti := set_pending_signums wa t]> (tasks s)) s) /\
    Signal.del_pending_sig ti signum s
      = Ret tt (set_tasks (<[ti := set_pending_signums wd t]> (tasks s)) s) /\
    forall sig, signum <= sig <= signum + 32 ->
      sig_pending wa sig = true /\ sig_pending wd sig = false.
Proof.
  intros Hcfg H64 Ht Hlen Hpos Hslot Hi31.
  assert (HN : 0 < NBITS) by (clear - H64; lia).
  assert (Hidx : (signum - 1) mod NBITS < 32) by (rewrite Hi31; lia).
  assert (Hq0 : 0 <= (signum - 1) / NBITS) by (apply Z.div_pos; lia).
  destruct (pending_ops_run ti signum s t Hcfg Ht Hlen Hpos Hslot Hidx)
    as (-> & -> & _).
  do 2 eexists. split; [reflexivity|]. split; [reflexivity|].
  intros sig Hsig.
  assert (Hnz : NBITS ≠ 0) by (clear - HN; lia).
  pose proof (Z.div_mod (signum - 1) NBITS Hnz) as Hdm.
  rewrite Hi31 in Hdm |- *.
  assert (Hsq : (sig - 1) / NBITS = (signum - 1) / NBITS
                /\ (sig - 1) mod NBITS = sig - signum + 31).
  { revert Hdm. generalize ((signum - 1) / NBITS) as q. intros q Hdm.
    assert (E : sig - 1 = (sig - signum + 31) + q * NBITS)
      by (clear - Hdm; lia).
    rewrite E, Z.div_add, Z.mod_add, Z.div_small, Z.mod_small
      by (clear - Hsig H64; lia). done. }
  destruct Hsq as [Hsq Hsm].
  rewrite !sig_pending_insert by (auto; try rewrite Hlen; clear - Hslot Hq0 Hsig Hpos; lia).
  rewrite Z2Nat.id by exact Hq0.
  rewrite Hsq, Z.eqb_refl, Hsm.
  rewrite Z.lor_spec, Z.land_spec, !to_ulong_testbit, Z.lnot_spec,
    !int_bit31_testbit by (clear - Hsig H64; lia).
  replace (31 <=? sig - signum + 31) with true
    by (symmetry; apply Z.leb_le; clear - Hsig; lia).
  split; [apply orb_true_r | apply andb_false_r].
Qed.

End PendingOpsMore.

(** Signal 35 on a 32-bit build, with 33 pending: 35 is not pending, adding
    it makes it pending, and deleting 33 leaves nothing of it. *)
Lemma is_pending_sig_spec_witness :
  Signal.is_pending_sig (H := config32) 7 35 (Examples.state32 [0; 1])
    = Ret (sig_pending (H := config32) [0; 1] 35) (Examples.state32 [0; 1]).
Proof.
  apply (is_pending_sig_spec (H := config32) 7 35 (Examples.state32 [0; 1])
           (Examples.a_task 2 TASK_STATE_SLEEPING WOBJ_KCOND [0; 1])).
  - split; [left; reflexivity|split; simpl; lia].
  - reflexivity.
  - reflexivity.
  - lia.
  - vm_compute. reflexivity.
  - right. reflexivity.
Defined.

Lemma add_pending_sig_exact_witness :
  exists ws',
    let s' := set_tasks
                (<[7 := set_pending_signums ws'
                          (Examples.a_task 2 TASK_STATE_SLEEPING WOBJ_KCOND [0; 1])]>
                   (tasks (Examples.state32 [0; 1]))) (Examples.state32 [0; 1]) in
    Signal.add_pending_sig (H := config32) 7 35 (Examples.state32 [0; 1])
      = Ret tt s' /\
    (forall sig, 1 <= sig ->
       sig_pending (H := config32) ws' sig
         = (sig =? 35) || sig_pending (H := config32) [0; 1] sig) /\
    Signal.is_pending_sig (H := config32) 7 35 s' = Ret true s'.
Proof.
  apply (add_pending_sig_exact (H := config32) 7 35 (Examples.state32 [0; 1])
           (Examples.a_task 2 TASK_STATE_SLEEPING WOBJ_KCOND [0; 1])).
  - split; [left; reflexivity|split; simpl; lia].
  - reflexivity.
  - reflexivity.
  - lia.
  - vm_compute. reflexivity.
  - right. reflexivity.
Defined.

Lemma del_pending_sig_exact_witness :
  exists ws',
    let s' := set_tasks
                (<[7 := set_pending_signums ws'
                          (Examples.a_task 2 TASK_STATE_SLEEPING WOBJ_KCOND [0; 1])]>
                   (tasks (Examples.state32 [0; 1]))) (Examples.state32 [0; 1]) in
    Signal.del_pending_sig (H := config32) 7 33 (Examples.state32 [0; 1])
      = Ret tt s' /\
    (forall sig, 1 <= sig ->
       sig_pending (H := config32) ws' sig
         = negb (sig =? 33) && sig_pending (H := config32) [0; 1] sig) /\
    Signal.is_pending_sig (H := config32) 7 33 s' = Ret false s'.
Proof.
  apply (del_pending_sig_exact (H := config32) 7 33 (Examples.state32 [0; 1])
           (Examples.a_task 2 TASK_STATE_SLEEPING WOBJ_KCOND [0; 1])).
  - split; [left; reflexivity|split; simpl; lia].
  - reflexivity.
  - reflexivity.
  - lia.
  - vm_compute. reflexivity.
  - right. reflexivity.
Defined.

(** Signal 32 on a 64-bit build. *)
Lemma pending_sig_sign_bit_64_witness :
  exists wa wd,
    Signal.add_pending_sig (H := config64) 7 32 (MoreExamples.state64 [0])
      = Ret tt (set_tasks
                  (<[7 := set_pending_signums wa
                            (Examples.a_task 2 TASK_STATE_SLEEPING WOBJ_KCOND [0])]>
                     (tasks (MoreExamples.state64 [0]))) (MoreExamples.state64 [0])) /\
    Signal.del_pending_sig (H := config64) 7 32 (MoreExamples.state64 [0])
      = Ret tt (set_tasks
                  (<[7 := set_pending_signums wd
                            (Examples.a_task 2 TASK_STATE_SLEEPING WOBJ_KCOND [0])]>
                     (tasks (MoreExamples.state64 [0]))) (MoreExamples.state64 [0])) /\
    forall sig, 32 <= sig <= 32 + 32 ->
      sig_pending (H := config64) wa sig = true /\
      sig_pending (H := config64) wd sig = false.
Proof.
  apply (pending_sig_sign_bit_64 (H := config64) 7 32 (MoreExamples.state64 [0])
           (Examples.a_task 2 TASK_STATE_SLEEPING WOBJ_KCOND [0])).
  - split; [right; reflexivity|split; simpl; lia].
  - reflexivity.
  - reflexivity.
  - reflexivity.
  - lia.
  - vm_compute. reflexivity.
  - reflexivity.
Defined.

(** ** Delivery at the return to user mode *)

Section ProcessSignals.
Context `{BuildConfig} `{Signal.Collaborators}.

Lemma lowest_pending_unique (ws : list Z) (r r' : Z) :
  lowest_pending ws r -> lowest_pending ws r' -> r = r'.
Proof.
  intros (H1 & H2 & H3) (H1' & H2' & H3').
  pose proof (H3 r' H1' H2'). pose proof (H3' r H1 H2). lia.
Qed.

(** X12. [process_signals] halts at its assertion when preemption is
    enabled. With preemption disabled: when nothing is pending in the
    current task it returns false with the kernel state as it was; when a
    signal is pending it logs the delivery of the lowest-numbered one,
    releases the preemption gate once and ends in [terminate_process] with
    that signal, without returning and without clearing the pending bit. *)
Theorem process_signals_spec (s : kstate) (c : Z) (t : task) :
  config_wf ->
  Z.of_nat K_SIGACTION_MASK_WORDS * NBITS < 2 ^ 31 ->
  curr s = Some c -> tasks s !! c = Some t ->
  length (pending_signums t) = K_SIGACTION_MASK_WORDS ->
  Forall ulong_range (pending_signums t) ->
  (disable_preempt s = 0%nat ->
     Signal.process_signals s = Stop (AssertFailed "!is_preemption_enabled()")) /\
  (disable_preempt s ≠ 0%nat ->
     ((forall sig, 1 <= sig -> sig_pending (pending_signums t) sig = false) ->
        Signal.process_signals s = Ret false s) /\
     (forall sig, lowest_pending (pending_signums t) sig ->
        Signal.process_signals s
          = NoReturn (terminate_process 0 sig)
              (set_disable_preempt (Nat.pred (disable_preempt s))
                 (set_log (TraceSignalDelivered c sig :: log s) s)))).
Proof.
  intros Hcfg Hsmall Hc Ht Hlen Hws.
  assert (HN : 0 < NBITS) by (destruct Hcfg as [[?|?] _]; lia).
  destruct (get_first_pending_sig_loop_spec K_SIGACTION_MASK_WORDS 0 c s t
              (Z.of_nat (length (pending_signums t))) Hcfg Ht eq_refl
              ltac:(lia) ltac:(rewrite Hlen; lia) ltac:(rewrite Hlen; exact Hsmall)
              Hws ltac:(intros; lia)) as (r & Hrun & Hr).
  assert (Heq : disable_preempt s ≠ 0%nat ->
            Signal.process_signals s
            = if decide (r > 0)
              then NoReturn (terminate_process 0 r)
                     (set_disable_preempt (Nat.pred (disable_preempt s))
                        (set_log (TraceSignalDelivered c r :: log s) s))
              else Ret false s).
  { intros Hpre. unfold Signal.process_signals.
    rewrite bind_unfold. unfold is_preemption_enabled at 1.
    rewrite bool_decide_eq_false_2 by done.
    rewrite bind_unfold, ASSERT_true by done.
    rewrite bind_unfold. unfold get_curr_task at 1. rewrite Hc.
    unfold Signal.get_first_pending_sig.
    rewrite (bind_Ret _ _ _ _ _ Hrun).
    destruct (decide (r > 0)); [|done].
    rewrite bind_unfold. unfold emit, modify at 1.
    rewrite bind_unfold. unfold enable_preemption.
    rewrite bind_unfold. unfold get at 1.
    rewrite bind_unfold, ASSERT_true by (by apply bool_decide_eq_true_2).
    done. }
  split.
  { intros Hz. unfold Signal.process_signals.
    rewrite bind_unfold. unfold is_preemption_enabled at 1. rewrite Hz.
    change (bool_decide (0%nat = 0%nat)) with true. cbn [negb].
    rewrite bind_unfold, ASSERT_false by done. done. }
  intros Hpre. rewrite (Heq Hpre). split.
  - intros Hnone. destruct Hr as [[-> _]|(Hr1 & Hr2 & _)].
    + rewrite decide_False by lia. done.
    + rewrite Hnone in Hr2 by done. done.
  - intros sig Hsig. destruct Hr as [[-> Hz]|Hr].
    + destruct Hsig as (Hs1 & Hs2 & _). unfold sig_pending in Hs2.
      rewrite Hz in Hs2 by (apply Z.div_pos; lia).
      by rewrite Z.testbit_0_l in Hs2.
    + rewrite (lowest_pending_unique _ _ _ Hr Hsig).
      destruct Hsig as (Hs1 & _).
      rewrite decide_True by lia. done.
Qed.

End ProcessSignals.

(** Signals 33 and 35 are pending in task 7, the current one: 33 is
    delivered. *)
Lemma process_signals_spec_witness :
  Signal.process_signals (H := config32)
    (set_curr (Some 7) (Examples.state32 [0; 5]))
  = NoReturn (terminate_process 0 33)
      (set_disable_preempt 0
         (set_log [TraceSignalDelivered 7 33]
            (set_curr (Some 7) (Examples.state32 [0; 5])))).
Proof.
  destruct (process_signals_spec (H := config32)
              (set_curr (Some 7) (Examples.state32 [0; 5])) 7
              (Examples.a_task 2 TASK_STATE_SLEEPING WOBJ_KCOND [0; 5]))
    as [_ Hrun].
  - split; [left; reflexivity|split; simpl; lia].
  - vm_compute. reflexivity.
  - reflexivity.
  - reflexivity.
  - reflexivity.
  - repeat constructor; unfold ulong_range; simpl; lia.
  - apply Hrun; [discriminate|].
    split; [lia|]. split; [reflexivity|].
    intros r' Hr' Hp.
    destruct (Z.lt_ge_cases r' 33) as [Hlt|]; [exfalso|done].
    assert (Hall : forallb
              (fun r => negb (sig_pending (H := config32) [0; 5] r))
              (map Z.of_nat (seq 0 33)) = true) by (vm_compute; reflexivity).
    pose proof (forallb_range _ 33 Hall r' ltac:(lia)) as Hn.
    cbv beta in Hn. change (pending_signums _) with [0; 5] in Hp.
    rewrite Hp in Hn. discriminate Hn.
Defined.

(** ** The default actions *)

Lemma in_range_bounds (x a b : Z) : IN_RANGE x a b = true -> a <= x < b.
Proof.
  unfold IN_RANGE. intros [H1 H2]%andb_true_iff.
  apply Z.leb_le in H1. apply Z.ltb_lt in H2. lia.
Qed.

Section Actions.
Context `{BuildConfig} `{Signal.Collaborators}.

(** The terminate action on the current task. *)
Lemma action_terminate_current (ti signum : Z) (s : kstate) (t : task) :
  tasks s !! ti = Some t ->
  pi t ≠ kernel_process_pi ->
  curr s = Some ti ->
  Signal.action_terminate ti signum s =
    match disable_preempt s with
    | O => Stop (AssertFailed "!is_preemption_enabled()")
    | S O => NoReturn (terminate_process 0 signum) (set_disable_preempt 0 s)
    | S (S _) => Stop (AssertFailed "is_preemption_enabled()")
    end.
Proof.
  intros Ht Hk Hc. unfold Signal.action_terminate.
  rewrite bind_unfold. unfold is_preemption_enabled at 1.
  destruct (disable_preempt s) as [|[|n]] eqn:Hd.
  - change (bool_decide (0%nat = 0%nat)) with true. cbn [negb].
    by rewrite bind_unfold, ASSERT_false.
  - change (bool_decide (1%nat = 0%nat)) with false. cbn [negb].
    rewrite bind_unfold, ASSERT_true by done.
    rewrite (bind_Ret _ _ _ _ _ (is_kernel_thread_Some _ _ _ Ht)).
    rewrite bool_decide_eq_false_2 by done. cbn [negb].
    rewrite bind_unfold, ASSERT_true by done.
    rewrite bind_unfold. unfold get_curr_task at 1. rewrite Hc.
    rewrite decide_True by done.
    rewrite bind_unfold. unfold enable_preemption.
    rewrite bind_unfold. unfold get at 1. rewrite Hd.
    rewrite bind_unfold, ASSERT_true by done.
    unfold put. cbn [Nat.pred].
    rewrite bind_unfold. unfold is_preemption_enabled at 1.
    cbn [disable_preempt set_disable_preempt].
    change (bool_decide (0%nat = 0%nat)) with true.
    by rewrite bind_unfold, ASSERT_true.
  - rewrite bool_decide_eq_false_2 by done. cbn [negb].
    rewrite bind_unfold, ASSERT_true by done.
    rewrite (bind_Ret _ _ _ _ _ (is_kernel_thread_Some _ _ _ Ht)).
    rewrite bool_decide_eq_false_2 by done. cbn [negb].
    rewrite bind_unfold, ASSERT_true by done.
    rewrite bind_unfold. unfold get_curr_task at 1. rewrite Hc.
    rewrite decide_True by done.
    rewrite bind_unfold. unfold enable_preemption.
    rewrite bind_unfold. unfold get at 1. rewrite Hd.
    rewrite bind_unfold, ASSERT_true by done.
    unfold put. cbn [Nat.pred].
    rewrite bind_unfold. unfold is_preemption_enabled at 1.
    cbn [disable_preempt set_disable_preempt].
    rewrite bool_decide_eq_false_2 by done.
    by rewrite bind_unfold, ASSERT_false.
Qed.

(** [send_signal2] on a task it accepts, with a signal to deliver. *)
Lemma send_signal2_body_deliver (pid tid signum : Z) (wp : bool) (s : kstate)
    (t : task) :
  ~ no_such_task s pid tid wp ->
  tasks s !! tid = Some t ->
  signum ≠ 0 -> state t ≠ TASK_STATE_ZOMBIE ->
  Signal.send_signal2_body pid tid signum wp s
    = (Signal.do_send_signal tid signum ≫= λ _, mret 0) s.
Proof.
  intros Hn Ht Hs Hz. unfold no_such_task in Hn. rewrite Ht in Hn.
  unfold Signal.send_signal2_body.
  rewrite bind_unfold. unfold get_task at 1. rewrite Ht.
  rewrite (bind_Ret _ _ _ _ _ (is_kernel_thread_Some _ _ _ Ht)).
  rewrite bool_decide_eq_false_2 by (intros E; apply Hn; by left).
  rewrite (bind_Ret _ _ _ _ _ (load_task_Some _ _ _ Ht)).
  rewrite bind_unfold. unfold load_proc at 1.
  destruct wp; cbn [andb].
  - rewrite bool_decide_eq_false_2
      by (intros E; apply E; destruct (decide (Kernel.pid (procs s (pi t)) = tid));
          [done|exfalso; apply Hn; right; left; done]).
    rewrite decide_False
      by (intros E; apply E; destruct (decide (Kernel.pid (procs s (pi t)) = pid));
          [done|exfalso; apply Hn; right; right; done]).
    rewrite decide_False by done. rewrite decide_False by done. done.
  - rewrite decide_False
      by (intros E; apply E; destruct (decide (Kernel.pid (procs s (pi t)) = pid));
          [done|exfalso; apply Hn; right; right; done]).
    rewrite decide_False by done. rewrite decide_False by done. done.
Qed.

(** X13. A signal whose default action is to terminate (one that the table
    gives to the terminate action, or one without a table entry), sent with
    [send_signal2] to the current task, with the default disposition: when
    the preemption gate is open at the call, the call does not return: it
    ends in [terminate_process] with the signal, with the kernel state as it
    was at the call (the gate open again, no pending bit written); when the
    gate is already closed, the kernel halts at the assertion of
    [action_terminate] that preemption is enabled. *)
Theorem terminate_signal_to_current_task (pid tid signum : Z) (wp : bool)
    (s : kstate) (t : task) :
  ~ no_such_task s pid tid wp ->
  tasks s !! tid = Some t ->
  curr s = Some tid ->
  state t ≠ TASK_STATE_ZOMBIE ->
  IN_RANGE signum 1 _NSIG = true ->
  signum - 1 < Z.of_nat (length (sa_handlers (procs s (pi t)))) ->
  disposition s t signum = Signal.SIG_DFL ->
  Signal.signal_default_actions signum = Some Signal.action_terminate
    \/ Signal.signal_default_actions signum = None ->
  Signal.send_signal2 pid tid signum wp s =
    if decide (disable_preempt s = 0%nat)
    then NoReturn (terminate_process 0 signum) s
    else Stop (AssertFailed "is_preemption_enabled()").
Proof.
  intros Hn Ht Hc Hz Hr Hhlen Hdfl Htab.
  pose proof (in_range_bounds _ _ _ Hr) as Hb.
  set (s1 := set_disable_preempt (S (disable_preempt s)) s).
  assert (Ht1 : tasks s1 !! tid = Some t) by exact Ht.
  assert (Hn1 : ~ no_such_task s1 pid tid wp) by exact Hn.
  assert (Hk : pi t ≠ kernel_process_pi).
  { intros E. apply Hn. unfold no_such_task. rewrite Ht. by left. }
  unfold Signal.send_signal2.
  rewrite bind_unfold. unfold disable_preemption, modify at 1. fold s1.
  rewrite bind_unfold.
  assert (Hs0 : signum ≠ 0) by (clear - Hb; lia).
  rewrite (send_signal2_body_deliver pid tid signum wp s1 t Hn1 Ht1 Hs0 Hz).
  rewrite bind_unfold.
  assert (Hh : 0 <= signum - 1 < Z.of_nat (length (sa_handlers (procs s1 (pi t)))))
    by (split; [clear - Hb; lia|exact Hhlen]).
  rewrite (do_send_signal_dispatch tid signum s1 t Hr Ht1 Hh).
  change (disposition s1 t signum) with (disposition s t signum).
  rewrite Hdfl, decide_False by done.
  rewrite decide_False by (intros Hne; by apply Hne).
  assert (Hact : match Signal.signal_default_actions signum with
                 | Some f => f tid signum s1
                 | None => Signal.action_terminate tid signum s1
                 end = Signal.action_terminate tid signum s1)
    by (destruct Htab as [-> | ->]; done).
  rewrite Hact, (action_terminate_current tid signum s1 t Ht1 Hk Hc).
  unfold s1. cbn [disable_preempt set_disable_preempt].
  destruct (disable_preempt s) as [|n] eqn:Hd.
  - rewrite decide_True by done. destruct s. cbn in Hd. subst. done.
  - rewrite decide_False by done. done.
Qed.

(** X14. A signal that the table gives to the terminate action, dispatched
    with the default disposition to a vfork-stopped task that is not the
    current one: the call returns; the signal is added to the pending set
    of the task and nothing else changes: the task is not woken up and its
    stopped flag is not cleared. *)
Theorem terminate_signal_to_vfork_stopped (ti signum : Z) (s : kstate) (t : task) :
  config_wf ->
  Signal.signal_default_actions signum = Some Signal.action_terminate ->
  tasks s !! ti = Some t ->
  signum - 1 < Z.of_nat (length (sa_handlers (procs s (pi t)))) ->
  disposition s t signum = Signal.SIG_DFL ->
  disable_preempt s ≠ 0%nat ->
  pi t ≠ kernel_process_pi ->
  curr s ≠ Some ti ->
  vfork_stopped t = true ->
  length (pending_signums t) = K_SIGACTION_MASK_WORDS ->
  exists ws,
    Signal.do_send_signal ti signum s
      = Ret tt (set_tasks (<[ti := set_pending_signums ws t]> (tasks s)) s) /\
    forall sig, 1 <= sig ->
      sig_pending ws sig = (sig =? signum) || sig_pending (pending_signums t) sig.
Proof.
  intros Hcfg Htable Ht Hhlen Hdfl Hpre Hk Hcurr Hvf Hlen.
  pose proof (table_signal_range _ _ Htable) as Hrange.
  pose proof Hcfg as (Hn & Hnsig & HK).
  assert (Hq : (signum - 1) / NBITS = 0)
    by (apply Z.div_small; destruct Hn as [-> | ->]; clear - Hrange; lia).
  assert (Hm : (signum - 1) mod NBITS = signum - 1)
    by (apply Z.mod_small; destruct Hn as [-> | ->]; clear - Hrange; lia).
  assert (Hpos : 0 < signum) by (clear - Hrange; lia).
  assert (Hslot : (signum - 1) / NBITS < Z.of_nat K_SIGACTION_MASK_WORDS)
    by (rewrite Hq; clear - HK; lia).
  assert (Hex : exact_bit signum)
    by (unfold exact_bit; rewrite Hm; destruct Hn; [right; done|left; clear - Hrange; lia]).
  destruct (add_pending_sig_bits ti signum s t Hcfg Ht Hlen Hpos Hslot Hex)
    as (ws & Hadd & Hwl & Hbits).
  exists ws. split; [|exact Hbits].
  assert (Hr : IN_RANGE signum 1 _NSIG = true)
    by (apply andb_true_iff; split; [apply Z.leb_le|apply Z.ltb_lt];
        clear - Hrange Hnsig; lia).
  rewrite (do_send_signal_dispatch ti signum s t Hr Ht)
    by (clear - Hrange Hhlen; lia).
  rewrite Hdfl, decide_False by done.
  rewrite decide_False by (intros Hne; by apply Hne).
  rewrite Htable.
  unfold Signal.action_terminate.
  rewrite bind_unfold. unfold is_preemption_enabled at 1.
  rewrite bool_decide_eq_false_2 by done. cbn [negb].
  rewrite bind_unfold, ASSERT_true by done.
  rewrite (bind_Ret _ _ _ _ _ (is_kernel_thread_Some _ _ _ Ht)).
  rewrite bool_decide_eq_false_2 by done. cbn [negb].
  rewrite bind_unfold, ASSERT_true by done.
  rewrite bind_unfold. unfold get_curr_task at 1.
  rewrite decide_False by (intros E; apply Hcurr; by rewrite E).
  rewrite (bind_Ret _ _ _ _ _ Hadd).
  set (t1 := set_pending_signums ws t).
  set (s1 := set_tasks (<[ti:=t1]> (tasks s)) s).
  assert (Ht1 : tasks s1 !! ti = Some t1) by apply lookup_insert_eq.
  rewrite (bind_Ret _ _ _ _ _ (load_task_Some _ _ _ Ht1)).
  change (vfork_stopped t1) with (vfork_stopped t). rewrite Hvf. done.
Qed.

(** X15. SIGCONT with the default disposition: the kernel halts at the
    assertion when the target is a kernel thread; nothing happens when the
    target is vfork-stopped; otherwise the delivery is logged, the stopped
    flag is cleared, the wait status becomes [CONTINUED], and the tasks that
    wait on the target are woken up with [task_continued]. *)
Theorem continue_signal (ti : Z) (s : kstate) (t : task) :
  IN_RANGE Signal.SIGCONT 1 _NSIG = true ->
  tasks s !! ti = Some t ->
  Signal.SIGCONT - 1 < Z.of_nat (length (sa_handlers (procs s (pi t)))) ->
  disposition s t Signal.SIGCONT = Signal.SIG_DFL ->
  Signal.do_send_signal ti Signal.SIGCONT s =
    if decide (pi t = kernel_process_pi)
    then Stop (AssertFailed "!is_kernel_thread(ti)")
    else if vfork_stopped t then Ret tt s
    else Signal.wake_up_tasks_waiting_on ti task_continued
           (set_tasks
              (<[ti := set_wstatus Signal.CONTINUED (set_stopped false t)]> (tasks s))
              (set_log (TraceSignalDelivered ti Signal.SIGCONT :: log s) s)).
Proof.
  intros Hr Ht Hhlen Hdfl.
  rewrite (do_send_signal_dispatch ti _ s t Hr Ht)
    by (split; [by compute|exact Hhlen]).
  rewrite Hdfl, decide_False by done.
  rewrite decide_False by (intros Hne; by apply Hne).
  change (Signal.signal_default_actions Signal.SIGCONT)
    with (Some Signal.action_continue).
  unfold Signal.action_continue.
  rewrite (bind_Ret _ _ _ _ _ (is_kernel_thread_Some _ _ _ Ht)).
  destruct (decide (pi t = kernel_process_pi)) as [Hk|Hk].
  { rewrite bool_decide_eq_true_2 by done. cbn [negb].
    by rewrite bind_unfold, ASSERT_false. }
  rewrite bool_decide_eq_false_2 by done. cbn [negb].
  rewrite bind_unfold, ASSERT_true by done.
  rewrite (bind_Ret _ _ _ _ _ (load_task_Some _ _ _ Ht)).
  destruct (vfork_stopped t); [done|].
  rewrite bind_unfold. unfold emit, modify at 1.
  set (s1 := set_log _ s).
  assert (Ht1 : tasks s1 !! ti = Some t) by exact Ht.
  rewrite (bind_Ret _ _ _ _ _ (update_task_Some _ _ _ _ Ht1)).
  set (t2 := set_stopped _ t).
  set (s2 := set_tasks (<[ti:=t2]> (tasks s1)) s1).
  assert (Ht2 : tasks s2 !! ti = Some t2) by apply lookup_insert_eq.
  rewrite (bind_Ret _ _ _ _ _ (update_task_Some _ _ _ _ Ht2)).
  unfold s2. cbn [tasks set_tasks]. rewrite set_tasks_twice, insert_insert_eq. done.
Qed.

(** X16. SIGSTOP, SIGTSTP, SIGTTIN and SIGTTOU with the default
    disposition: the kernel halts at the assertion when the target is a
    kernel thread; otherwise the delivery is logged, the stopped flag is
    set, the wait status becomes [STOPCODE(signum)], the tasks that wait on
    the target are woken up with [task_stopped], and the current task
    yields when it is the target. The state field of the task is not
    written. *)
Theorem stop_signal (ti signum : Z) (s : kstate) (t : task) :
  signum = Signal.SIGSTOP \/ signum = Signal.SIGTSTP \/
  signum = Signal.SIGTTIN \/ signum = Signal.SIGTTOU ->
  IN_RANGE signum 1 _NSIG = true ->
  tasks s !! ti = Some t ->
  signum - 1 < Z.of_nat (length (sa_handlers (procs s (pi t)))) ->
  disposition s t signum = Signal.SIG_DFL ->
  Signal.do_send_signal ti signum s =
    if decide (pi t = kernel_process_pi)
    then Stop (AssertFailed "!is_kernel_thread(ti)")
    else (Signal.wake_up_tasks_waiting_on ti task_stopped;;
          c ← get_curr_task;
          if decide (Some ti = c) then Signal.kernel_yield_preempt_disabled
          else mret tt)
           (set_tasks
              (<[ti := set_wstatus (Signal.STOPCODE signum) (set_stopped true t)]>
                 (tasks s))
              (set_log (TraceSignalDelivered ti signum :: log s) s)).
Proof.
  intros Hsig Hr Ht Hhlen Hdfl.
  pose proof (in_range_bounds _ _ _ Hr) as Hb.
  rewrite (do_send_signal_dispatch ti _ s t Hr Ht)
    by (split; [clear - Hb; lia|exact Hhlen]).
  rewrite Hdfl, decide_False by done.
  rewrite decide_False by (intros Hne; by apply Hne).
  assert (Htab : Signal.signal_default_actions signum = Some Signal.action_stop)
    by (destruct Hsig as [-> | [-> | [-> | ->]]]; reflexivity).
  rewrite Htab.
  unfold Signal.action_stop.
  rewrite (bind_Ret _ _ _ _ _ (is_kernel_thread_Some _ _ _ Ht)).
  destruct (decide (pi t = kernel_process_pi)) as [Hk|Hk].
  { rewrite bool_decide_eq_true_2 by done. cbn [negb].
    by rewrite bind_unfold, ASSERT_false. }
  rewrite bool_decide_eq_false_2 by done. cbn [negb].
  rewrite bind_unfold, ASSERT_true by done.
  rewrite bind_unfold. unfold emit, modify at 1.
  set (s1 := set_log _ s).
  assert (Ht1 : tasks s1 !! ti = Some t) by exact Ht.
  rewrite (bind_Ret _ _ _ _ _ (update_task_Some _ _ _ _ Ht1)).
  set (t2 := set_stopped _ t).
  set (s2 := set_tasks (<[ti:=t2]> (tasks s1)) s1).
  assert (Ht2 : tasks s2 !! ti = Some t2) by apply lookup_insert_eq.
  rewrite (bind_Ret _ _ _ _ _ (update_task_Some _ _ _ _ Ht2)).
  unfold s2. cbn [tasks set_tasks]. rewrite set_tasks_twice, insert_insert_eq. done.
Qed.

(** X17. SIGCHLD and SIGURG with the default disposition: the call returns
    with the kernel state as it was, but for the warning that is logged when
    the target is init (thread id 1). *)
Theorem default_ignored_signals (ti signum : Z) (s : kstate) (t : task) :
  signum = Signal.SIGCHLD \/ signum = Signal.SIGURG ->
  IN_RANGE signum 1 _NSIG = true ->
  tasks s !! ti = Some t ->
  signum - 1 < Z.of_nat (length (sa_handlers (procs s (pi t)))) ->
  disposition s t signum = Signal.SIG_DFL ->
  Signal.do_send_signal ti signum s =
    Ret tt
      (if decide (ti = 1)
       then set_log
              (Printk "WARNING: ignoring signal %s[%d] sent to init (pid 1)\n"
                      [ArgSignalName signum; ArgInt signum] :: log s) s
       else s).
Proof.
  intros Hsig Hr Ht Hhlen Hdfl.
  pose proof (in_range_bounds _ _ _ Hr) as Hb.
  rewrite (do_send_signal_dispatch ti _ s t Hr Ht)
    by (split; [clear - Hb; lia|exact Hhlen]).
  rewrite Hdfl, decide_False by done.
  rewrite decide_False by (intros Hne; by apply Hne).
  assert (Htab : Signal.signal_default_actions signum = Some Signal.action_ignore)
    by (destruct Hsig as [-> | ->]; reflexivity).
  rewrite Htab. unfold Signal.action_ignore.
  rewrite (bind_Ret _ _ _ _ _ (load_task_Some _ _ _ Ht)).
  destruct (decide (ti = 1)); reflexivity.
Qed.

End Actions.

(** Init sends SIGTERM to itself with the gate open. *)
Lemma terminate_signal_to_current_task_witness :
  Signal.send_signal2 (H := config32) (H0 := Examples.quiet) 1 1 Signal.SIGTERM true
    Examples.state_preemptible
  = NoReturn (terminate_process 0 Signal.SIGTERM) Examples.state_preemptible.
Proof.
  apply (terminate_signal_to_current_task (H := config32) (H0 := Examples.quiet)
           1 1 Signal.SIGTERM true Examples.state_preemptible
           (Examples.a_task 1 TASK_STATE_RUNNING WOBJ_NONE [0; 0])).
  - intros [Hk|[[_ Hne]|Hne]]; [discriminate Hk|by apply Hne|by apply Hne].
  - reflexivity.
  - reflexivity.
  - discriminate.
  - reflexivity.
  - vm_compute. reflexivity.
  - reflexivity.
  - left. reflexivity.
Defined.

(** SIGTERM for the vfork-stopped task 7: it stays asleep, with the signal
    pending. *)
Lemma terminate_signal_to_vfork_stopped_witness :
  exists ws,
    Signal.do_send_signal (H := config32) (H0 := Examples.quiet) 7 Signal.SIGTERM
      MoreExamples.state_vfork
    = Ret tt (set_tasks
                (<[7 := set_pending_signums ws MoreExamples.vforked]>
                   (tasks MoreExamples.state_vfork)) MoreExamples.state_vfork) /\
    forall sig, 1 <= sig ->
      sig_pending (H := config32) ws sig
        = (sig =? Signal.SIGTERM) || sig_pending (H := config32) [0; 0] sig.
Proof.
  apply (terminate_signal_to_vfork_stopped (H := config32) (H0 := Examples.quiet)
           7 Signal.SIGTERM MoreExamples.state_vfork MoreExamples.vforked).
  - split; [left; reflexivity|split; simpl; lia].
  - reflexivity.
  - reflexivity.
  - vm_compute. reflexivity.
  - reflexivity.
  - vm_compute. discriminate.
  - vm_compute. discriminate.
  - vm_compute. discriminate.
  - reflexivity.
  - reflexivity.
Defined.

(** SIGCONT and SIGTSTP for task 7, SIGCHLD for init. *)
Lemma continue_signal_witness :
  Signal.do_send_signal (H := config32) (H0 := Examples.quiet) 7 Signal.SIGCONT
    (Examples.state32 [0; 0])
  = Ret tt
      (set_tasks
         (<[7 := set_wstatus Signal.CONTINUED
                   (set_stopped false
                      (Examples.a_task 2 TASK_STATE_SLEEPING WOBJ_KCOND [0; 0]))]>
            (tasks (Examples.state32 [0; 0])))
         (set_log [TraceSignalDelivered 7 Signal.SIGCONT] (Examples.state32 [0; 0]))).
Proof.
  apply (continue_signal (H := config32) (H0 := Examples.quiet) 7
           (Examples.state32 [0; 0])
           (Examples.a_task 2 TASK_STATE_SLEEPING WOBJ_KCOND [0; 0])).
  - reflexivity.
  - reflexivity.
  - vm_compute. reflexivity.
  - reflexivity.
Defined.

Lemma stop_signal_witness :
  Signal.do_send_signal (H := config32) (H0 := Examples.quiet) 7 Signal.SIGTSTP
    (Examples.state32 [0; 0])
  = Ret tt
      (set_tasks
         (<[7 := set_wstatus (Signal.STOPCODE Signal.SIGTSTP)
                   (set_stopped true
                      (Examples.a_task 2 TASK_STATE_SLEEPING WOBJ_KCOND [0; 0]))]>
            (tasks (Examples.state32 [0; 0])))
         (set_log [TraceSignalDelivered 7 Signal.SIGTSTP] (Examples.state32 [0; 0]))).
Proof.
  apply (stop_signal (H := config32) (H0 := Examples.quiet) 7 Signal.SIGTSTP
           (Examples.state32 [0; 0])
           (Examples.a_task 2 TASK_STATE_SLEEPING WOBJ_KCOND [0; 0])).
  - right. left. reflexivity.
  - reflexivity.
  - reflexivity.
  - vm_compute. reflexivity.
  - reflexivity.
Defined.

Lemma default_ignored_signals_witness :
  Signal.do_send_signal (H := config32) (H0 := Examples.quiet) 1 Signal.SIGCHLD
    (Examples.state32 [0; 0])
  = Ret tt
      (set_log
         [Printk "WARNING: ignoring signal %s[%d] sent to init (pid 1)\n"
                 [ArgSignalName Signal.SIGCHLD; ArgInt Signal.SIGCHLD]]
         (Examples.state32 [0; 0])).
Proof.
  apply (default_ignored_signals (H := config32) (H0 := Examples.quiet)
           1 Signal.SIGCHLD (Examples.state32 [0; 0])
           (Examples.a_task 1 TASK_STATE_RUNNING WOBJ_NONE [0; 0])).
  - left. reflexivity.
  - reflexivity.
  - reflexivity.
  - vm_compute. reflexivity.
  - reflexivity.
Defined.

(** ** [sys_rt_sigaction] *)

Lemma le_split_length (n : nat) (w : Z) : length (le_split n w) = n.
Proof. revert w. induction n as [|n IH]; intros w; simpl; [done|]. by rewrite IH. Qed.

Lemma le_combine_split (n : nat) (w : Z) :
  le_combine (le_split n w) = w mod 2 ^ (8 * Z.of_nat n).
Proof.
  revert w. induction n as [|n IH]; intros w.
  - simpl. by rewrite Z.mod_1_r.
  - cbn [le_split le_combine]. rewrite IH.
    apply Z.bits_inj'. intros i Hi.
    rewrite Z.lor_spec.
    change 255 with (Z.ones 8). rewrite <- Z.land_assoc, Z.land_diag.
    rewrite Z.land_ones by lia.
    destruct (Z.lt_ge_cases i 8).
    + rewrite Z.mod_pow2_bits_low by lia.
      rewrite Z.shiftl_spec_low by lia.
      rewrite Z.mod_pow2_bits_low by lia. apply orb_false_r.
    + rewrite Z.mod_pow2_bits_high by lia.
      rewrite Z.shiftl_spec by lia. cbn [orb].
      destruct (Z.lt_ge_cases i (8 * Z.of_nat (S n))).
      * rewrite !Z.mod_pow2_bits_low by lia.
        rewrite Z.shiftr_spec by lia. f_equal. lia.
      * rewrite !Z.mod_pow2_bits_high by lia. done.
Qed.

Lemma le_combine_range (bs : list Z) :
  0 <= le_combine bs < 2 ^ (8 * Z.of_nat (length bs)).
Proof.
  induction bs as [|b bs IH].
  - simpl. lia.
  - cbn [le_combine length].
    change 255 with (Z.ones 8). rewrite Z.land_ones by lia.
    pose proof (Z.mod_pos_bound b (2 ^ 8) ltac:(lia)) as Hb.
    rewrite Z.shiftl_mul_pow2 by lia.
    replace (8 * Z.of_nat (S (length bs))) with (8 * Z.of_nat (length bs) + 8) by lia.
    rewrite Z.pow_add_r by lia.
    revert IH Hb. generalize (le_combine bs) as x, (b mod 2 ^ 8) as y,
      (2 ^ (8 * Z.of_nat (length bs))) as p.
    intros x y p IH Hb.
    assert (Hdisj : Z.lor y (x * 2 ^ 8) = y + x * 2 ^ 8).
    { rewrite <- Z.lxor_lor.
      - rewrite <- Z.add_nocarry_lxor; [done|].
        apply Z.bits_inj'. intros i Hi. rewrite Z.land_spec, Z.bits_0.
        destruct (Z.lt_ge_cases i 8).
        + rewrite <- Z.shiftl_mul_pow2, Z.shiftl_spec_low by lia. apply andb_false_r.
        + rewrite (Z.bits_above_log2 y); [done|lia|].
          destruct (decide (y = 0)) as [->|]; [simpl; lia|].
          apply Z.lt_le_trans with 8; [|done]. apply Z.log2_lt_pow2; lia.
      - apply Z.bits_inj'. intros i Hi. rewrite Z.land_spec, Z.bits_0.
        destruct (Z.lt_ge_cases i 8).
        + rewrite <- Z.shiftl_mul_pow2, Z.shiftl_spec_low by lia. apply andb_false_r.
        + rewrite (Z.bits_above_log2 y); [done|lia|].
          destruct (decide (y = 0)) as [->|]; [simpl; lia|].
          apply Z.lt_le_trans with 8; [|done]. apply Z.log2_lt_pow2; lia. }
    rewrite Hdisj. nia.
Qed.

(** A copy to mapped user memory succeeds; the bytes can be read back, no
    address outside the destination changes, and what was mapped stays so. *)
Lemma write_bytes_mapped (bs : list Z) : forall m dst,
  mapped m dst (length bs) ->
  exists m',
    write_bytes m dst bs = (true, m') /\
    read_bytes m' dst (length bs) = Some bs /\
    (forall a, ~ dst <= a < dst + Z.of_nat (length bs) -> m' a = m a) /\
    (forall a, m a ≠ None -> m' a ≠ None).
Proof.
  induction bs as [|b bs IH]; intros m dst Hmap.
  - exists m. simpl. done.
  - cbn [write_bytes length].
    pose proof (Hmap 0 ltac:(simpl length; lia)) as H0.
    rewrite Z.add_0_r in H0.
    destruct (m dst) eqn:Hd; [clear H0|done].
    set (m1 := fun a => if decide (a = dst) then Some b else m a).
    destruct (IH m1 (dst + 1)) as (m' & Hw & Hrd & Hout & Hkeep).
    { intros i Hi. unfold m1.
      destruct (decide (dst + 1 + i = dst)); [done|].
      replace (dst + 1 + i) with (dst + (i + 1)) by lia.
      apply Hmap. simpl length. lia. }
    exists m'. split; [exact Hw|]. split; [|split].
    + cbn [read_bytes]. rewrite Hout by lia. unfold m1.
      rewrite decide_True by done. by rewrite Hrd.
    + intros a Ha. rewrite Hout by (simpl length in Ha; lia).
      unfold m1. rewrite decide_False; [done|]. simpl length in Ha. lia.
    + intros a Ha. apply Hkeep. unfold m1. by destruct (decide (a = dst)).
Qed.

Section Sigaction.
Context `{BuildConfig}.

Lemma sizeof_ulong_bits : config_wf -> 8 * Z.of_nat sizeof_ulong = NBITS.
Proof.
  intros [[Hn|Hn] _]; unfold sizeof_ulong; rewrite Hn; reflexivity.
Qed.

Lemma words_of_bytes_of_words (ws : list Z) :
  config_wf -> Forall ulong_range ws ->
  Signal.words_of_bytes (length ws) (bytes_of_words ws) = ws.
Proof.
  intros Hcfg Hws. induction Hws as [|w ws Hw Hws IH]; [done|].
  unfold bytes_of_words in *. cbn [length Signal.words_of_bytes map concat].
  rewrite take_app_length' by (symmetry; apply le_split_length).
  rewrite drop_app_length' by (symmetry; apply le_split_length).
  rewrite IH, le_combine_split, (sizeof_ulong_bits Hcfg).
  unfold ulong_range in Hw. by rewrite Z.mod_small.
Qed.

Lemma bytes_of_words_length (ws : list Z) :
  length (bytes_of_words ws) = (length ws * sizeof_ulong)%nat.
Proof.
  unfold bytes_of_words. induction ws as [|w ws IH]; [done|].
  cbn [map concat length]. by rewrite length_app, le_split_length, IH.
Qed.

(** The layout of [struct k_sigaction] loses nothing. *)
Lemma k_sigaction_roundtrip (a : Signal.k_sigaction) :
  config_wf ->
  ulong_range (Signal.handler a) -> ulong_range (Signal.sa_flags a) ->
  ulong_range (Signal.restorer a) ->
  Forall ulong_range (Signal.ksa_mask a) ->
  length (Signal.ksa_mask a) = K_SIGACTION_MASK_WORDS ->
  length (Signal.bytes_of_k_sigaction a) = Signal.sizeof_k_sigaction /\
  Signal.k_sigaction_of_bytes (Signal.bytes_of_k_sigaction a) = a.
Proof.
  intros Hcfg Hh Hf Hr Hm Hlen. split.
  - unfold Signal.bytes_of_k_sigaction, Signal.sizeof_k_sigaction,
      Signal.sizeof_sa_mask.
    rewrite bytes_of_words_length. cbn [length]. rewrite Hlen. lia.
  - unfold Signal.k_sigaction_of_bytes, Signal.bytes_of_k_sigaction.
    set (ws := Signal.handler a :: Signal.sa_flags a :: Signal.restorer a
               :: Signal.ksa_mask a).
    replace (3 + K_SIGACTION_MASK_WORDS)%nat with (length ws)
      by (unfold ws; cbn [length]; rewrite Hlen; lia).
    rewrite words_of_bytes_of_words
      by (try done; unfold ws; repeat (apply Forall_cons; split; [done|]); done).
    by destruct a.
Qed.

Lemma handler_of_bytes_range (bs : list Z) :
  config_wf -> ulong_range (Signal.handler (Signal.k_sigaction_of_bytes bs)).
Proof.
  intros Hcfg. unfold Signal.k_sigaction_of_bytes. cbn [Signal.handler].
  cbn [Nat.add Signal.words_of_bytes nth].
  pose proof (le_combine_range (take sizeof_ulong bs)) as Hr.
  unfold ulong_range. split; [lia|].
  eapply Z.lt_le_trans; [apply Hr|].
  apply Z.pow_le_mono_r; [lia|].
  rewrite <- (sizeof_ulong_bits Hcfg), length_take. lia.
Qed.

(** X18. [sys_rt_sigaction] returns [-EINVAL], with the kernel state as it
    was and without reading user memory, when the signal number is not in
    1.._NSIG-1, when the signal is SIGKILL or SIGSTOP, or when [sigsetsize]
    is not the size of the kernel's signal mask. *)
Theorem sys_rt_sigaction_invalid_args
    (signum user_act user_oldact sigsetsize : Z) (s : kstate) :
  ~ valid_sigaction_args signum sigsetsize ->
  Signal.sys_rt_sigaction signum user_act user_oldact sigsetsize s
    = Ret (- Signal.EINVAL) s.
Proof.
  intros Hinv. unfold Signal.sys_rt_sigaction.
  destruct (IN_RANGE signum 1 _NSIG) eqn:Hr; cbn [negb]; [|done].
  destruct (decide (signum = Signal.SIGKILL ∨ signum = Signal.SIGSTOP)); [done|].
  destruct (decide (sigsetsize ≠ Z.of_nat Signal.sizeof_sa_mask)) as [|Hs]; [done|].
  exfalso. apply Hinv. unfold valid_sigaction_args.
  repeat split; try tauto.
  by destruct (decide (sigsetsize = Z.of_nat Signal.sizeof_sa_mask)).
Qed.

(** [sigaction_int] with an action that can be read and has none of the
    unsupported flags. *)
Lemma sigaction_int_installs (signum user_act : Z) (s : kstate) (c : Z) (t : task)
    (bs : list Z) :
  curr s = Some c -> tasks s !! c = Some t ->
  0 <= signum - 1 < Z.of_nat (length (sa_handlers (procs s (pi t)))) ->
  read_bytes (user s) user_act Signal.sizeof_k_sigaction = Some bs ->
  ~ unsupported_flags (Signal.sa_flags (Signal.k_sigaction_of_bytes bs)) ->
  Signal.sigaction_int signum user_act s
    = Ret 0
        (set_procs
           (fun q => if decide (q = pi t)
                     then set_sa_handlers
                            (<[Z.to_nat (signum - 1)
                               := Signal.handler (Signal.k_sigaction_of_bytes bs)]>
                               (sa_handlers (procs s (pi t))))
                            (procs s q)
                     else procs s q) s).
Proof.
  intros Hc Ht Hidx Hread Hflags. unfold Signal.sigaction_int.
  rewrite bind_unfold. unfold copy_from_user at 1. rewrite Hread.
  cbv zeta. unfold unsupported_flags in Hflags.
  repeat (destruct (decide (Z.land _ _ ≠ 0)); [exfalso; tauto|]).
  rewrite (bind_Ret _ _ _ _ _ (get_curr_proc_Some c t s Hc Ht)).
  rewrite bind_unfold. unfold load_proc at 1.
  rewrite (bind_Ret _ _ _ _ _ (array_set_in _ _ _ _ _ Hidx)).
  reflexivity.
Qed.

(** [sys_rt_sigaction] with arguments it accepts. *)
Lemma sys_rt_sigaction_run
    (signum user_act user_oldact sigsetsize : Z) (s : kstate) (c : Z) (t : task) :
  valid_sigaction_args signum sigsetsize ->
  curr s = Some c -> tasks s !! c = Some t ->
  _NSIG - 1 <= Z.of_nat (length (sa_handlers (procs s (pi t)))) ->
  (user_act = 0 ->
     Signal.sys_rt_sigaction signum user_act user_oldact sigsetsize s
       = sigaction_report s t signum user_oldact s) /\
  (user_act ≠ 0 ->
     read_bytes (user s) user_act Signal.sizeof_k_sigaction = None ->
     Signal.sys_rt_sigaction signum user_act user_oldact sigsetsize s
       = Ret (- Signal.EFAULT) s) /\
  (forall bs, user_act ≠ 0 ->
     read_bytes (user s) user_act Signal.sizeof_k_sigaction = Some bs ->
     ~ unsupported_flags (Signal.sa_flags (Signal.k_sigaction_of_bytes bs)) ->
     exists s1,
       handler_installed (pi t) signum
         (Signal.handler (Signal.k_sigaction_of_bytes bs)) s s1 /\
       Signal.sys_rt_sigaction signum user_act user_oldact sigsetsize s
         = sigaction_report s t signum user_oldact s1).
Proof.
  intros (Hr & Hkill & Hstop & Hsz) Hc Ht Hhlen. unfold sigaction_report.
  pose proof (in_range_bounds _ _ _ Hr) as Hb.
  set (s1 := set_disable_preempt (S (disable_preempt s)) s).
  assert (Hidx : 0 <= signum - 1
                 < Z.of_nat (length (sa_handlers (procs s1 (pi t)))))
    by (change (procs s1) with (procs s); clear - Hb Hhlen; lia).
  assert (Hold : (if decide (user_oldact ≠ 0) then
                    pi ← Signal.get_curr_proc;
                    p ← load_proc pi;
                    h ← array_get "sa_handlers" (sa_handlers p) (signum - 1);
                    mret (Signal.mk_k_sigaction h 0 0
                            (take K_SIGACTION_MASK_WORDS (sa_mask p)))
                  else mret (Signal.mk_k_sigaction 0 0 0 [])) s1
                 = Ret (if decide (user_oldact ≠ 0) then old_action s t signum
                        else Signal.mk_k_sigaction 0 0 0 []) s1).
  { destruct (decide (user_oldact ≠ 0)); [|done].
    rewrite (bind_Ret _ _ _ _ _ (get_curr_proc_Some c t s1 Hc Ht)).
    rewrite bind_unfold. unfold load_proc at 1.
    rewrite (bind_Ret _ _ _ _ _ (array_get_in _ _ _ _ Hidx)). done. }
  assert (Hhead :
    Signal.sys_rt_sigaction signum user_act user_oldact sigsetsize s
    = (rc ← (if decide (user_act ≠ 0) then Signal.sigaction_int signum user_act
             else mret 0);
       enable_preemption;;
       if decide (rc = 0 ∧ user_oldact ≠ 0) then
         ok ← copy_to_user user_oldact
                (Signal.bytes_of_k_sigaction
                   (if decide (user_oldact ≠ 0) then old_action s t signum
                    else Signal.mk_k_sigaction 0 0 0 []));
         if (ok : bool) then mret rc else mret (- Signal.EFAULT)
       else mret rc) s1).
  { unfold Signal.sys_rt_sigaction. rewrite Hr. cbn [negb].
    rewrite decide_False by tauto.
    rewrite decide_False by (intros E; by apply E).
    rewrite bind_unfold. unfold disable_preemption at 1, modify at 1. fold s1.
    rewrite (bind_Ret _ _ _ _ _ Hold). done. }
  rewrite Hhead. clear Hhead Hold.
  split; [|split].
  - intros ->. rewrite (decide_False (P := 0 ≠ 0)) by (intros E; by apply E).
    rewrite bind_unfold. unfold mret at 1, M_ret at 1, ret at 1.
    rewrite (bind_Ret _ _ _ _ _ (preemption_bracket s)).
    destruct (decide (user_oldact ≠ 0)) as [Ho|Ho].
    + rewrite decide_True by done.
      rewrite bind_unfold. unfold copy_to_user at 1.
      destruct (write_bytes _ _ _) as [ok m]. by destruct ok.
    + rewrite decide_False by tauto. done.
  - intros Hact Hread. rewrite (decide_True (P := user_act ≠ 0)) by done.
    assert (Hsig : Signal.sigaction_int signum user_act s1 = Ret (- Signal.EFAULT) s1).
    { unfold Signal.sigaction_int. rewrite bind_unfold.
      unfold copy_from_user at 1. change (user s1) with (user s).
      by rewrite Hread. }
    rewrite (bind_Ret _ _ _ _ _ Hsig).
    rewrite (bind_Ret _ _ _ _ _ (preemption_bracket s)).
    rewrite decide_False; [done|]. intros [Hz _]. discriminate Hz.
  - intros bs Hact Hread Hflags. rewrite (decide_True (P := user_act ≠ 0)) by done.
    pose proof (sigaction_int_installs signum user_act s1 c t bs Hc Ht Hidx
                  Hread Hflags) as Hsig.
    rewrite (bind_Ret _ _ _ _ _ Hsig).
    set (pr := fun q => if decide (q = pi t) then _ else _) in *.
    exists (set_procs pr s).
    split.
    { unfold handler_installed. cbn [procs set_procs].
      split; [done|]. split.
      - intros q Hq. unfold pr. by rewrite decide_False.
      - unfold pr. by rewrite decide_True. }
    assert (Hen : enable_preemption (set_procs pr s1) = Ret tt (set_procs pr s)).
    { unfold s1. clearbody pr. destruct s. reflexivity. }
    rewrite (bind_Ret _ _ _ _ _ Hen).
    destruct (decide (user_oldact ≠ 0)) as [Ho|Ho].
    + rewrite decide_True by done.
      rewrite bind_unfold. unfold copy_to_user at 1.
      cbn [user set_procs].
      destruct (write_bytes _ _ _) as [ok m]. by destruct ok.
    + rewrite decide_False by tauto. done.
Qed.

(** X19. [sys_rt_sigaction] with arguments it accepts and no new action:
    with no place for the old action it returns 0 with the kernel state as
    it was; with one, it copies out the handler of the signal, zero flags
    and restorer and the blocked mask of the process, and returns 0, or
    [-EFAULT] when the copy faults; nothing but user memory changes. *)
Theorem sys_rt_sigaction_query
    (signum user_oldact sigsetsize : Z) (s : kstate) (c : Z) (t : task) :
  valid_sigaction_args signum sigsetsize ->
  curr s = Some c -> tasks s !! c = Some t ->
  _NSIG - 1 <= Z.of_nat (length (sa_handlers (procs s (pi t)))) ->
  Signal.sys_rt_sigaction signum 0 user_oldact sigsetsize s
    = if decide (user_oldact ≠ 0) then
        let '(ok, m) := write_bytes (user s) user_oldact
                          (Signal.bytes_of_k_sigaction (old_action s t signum)) in
        Ret (if ok then 0 else - Signal.EFAULT) (set_user m s)
      else Ret 0 s.
Proof.
  intros Hargs Hc Ht Hhlen.
  by apply (sys_rt_sigaction_run signum 0 user_oldact sigsetsize s c t).
Qed.

(** X20. [sys_rt_sigaction] with arguments it accepts and a new action:
    when the action cannot be read the call returns [-EFAULT] with the
    kernel state as it was; when it can be read and has none of the
    unsupported flags, its handler becomes the handler of the signal in the
    process of the current task, nothing else of the kernel state changes
    but the user memory that receives the old action, and the old action
    that is reported is the one from before the call. The handler is
    installed before the old action is copied out: when that copy faults,
    the call returns [-EFAULT] with the new handler in place. *)
Theorem sys_rt_sigaction_install
    (signum user_act user_oldact sigsetsize : Z) (s : kstate) (c : Z) (t : task) :
  valid_sigaction_args signum sigsetsize ->
  curr s = Some c -> tasks s !! c = Some t ->
  _NSIG - 1 <= Z.of_nat (length (sa_handlers (procs s (pi t)))) ->
  user_act ≠ 0 ->
  (read_bytes (user s) user_act Signal.sizeof_k_sigaction = None ->
     Signal.sys_rt_sigaction signum user_act user_oldact sigsetsize s
       = Ret (- Signal.EFAULT) s) /\
  (forall bs,
     read_bytes (user s) user_act Signal.sizeof_k_sigaction = Some bs ->
     ~ unsupported_flags (Signal.sa_flags (Signal.k_sigaction_of_bytes bs)) ->
     exists s1,
       handler_installed (pi t) signum
         (Signal.handler (Signal.k_sigaction_of_bytes bs)) s s1 /\
       Signal.sys_rt_sigaction signum user_act user_oldact sigsetsize s
         = if decide (user_oldact ≠ 0) then
             let '(ok, m) := write_bytes (user s) user_oldact
                               (Signal.bytes_of_k_sigaction (old_action s t signum)) in
             Ret (if ok then 0 else - Signal.EFAULT) (set_user m s1)
           else Ret 0 s1).
Proof.
  intros Hargs Hc Ht Hhlen Hact.
  destruct (sys_rt_sigaction_run signum user_act user_oldact sigsetsize s c t
              Hargs Hc Ht Hhlen) as (_ & Hfault & Hinst).
  split; [by apply Hfault|]. intros bs Hread Hflags. by apply Hinst.
Qed.

(** X21. A handler installed with [sys_rt_sigaction] is the handler that a
    later query reports: after a call that installs the action read from
    [user_act], a call with no new action and a mapped [user_oldact] returns
    0, and the [struct k_sigaction] found at [user_oldact] has the handler
    that was installed, zero flags, a zero restorer and the blocked mask of
    the process. *)
Theorem sigaction_install_then_query
    (signum user_act user_oldact sigsetsize : Z) (s : kstate) (c : Z) (t : task)
    (bs : list Z) :
  config_wf ->
  valid_sigaction_args signum sigsetsize ->
  curr s = Some c -> tasks s !! c = Some t ->
  _NSIG - 1 <= Z.of_nat (length (sa_handlers (procs s (pi t)))) ->
  length (sa_mask (procs s (pi t))) = K_SIGACTION_MASK_WORDS ->
  Forall ulong_range (sa_mask (procs s (pi t))) ->
  user_act ≠ 0 -> user_oldact ≠ 0 ->
  read_bytes (user s) user_act Signal.sizeof_k_sigaction = Some bs ->
  ~ unsupported_flags (Signal.sa_flags (Signal.k_sigaction_of_bytes bs)) ->
  mapped (user s) user_oldact Signal.sizeof_k_sigaction ->
  exists s1 s2 bs',
    Signal.sys_rt_sigaction signum user_act 0 sigsetsize s = Ret 0 s1 /\
    Signal.sys_rt_sigaction signum 0 user_oldact sigsetsize s1 = Ret 0 s2 /\
    read_bytes (user s2) user_oldact Signal.sizeof_k_sigaction = Some bs' /\
    Signal.k_sigaction_of_bytes bs'
      = Signal.mk_k_sigaction (Signal.handler (Signal.k_sigaction_of_bytes bs)) 0 0
          (sa_mask (procs s (pi t))).
Proof.
  intros Hcfg Hargs Hc Ht Hhlen Hmlen Hmask Hact Hold Hread Hflags Hmap.
  pose proof Hargs as (Hr & _).
  pose proof (in_range_bounds _ _ _ Hr) as Hb.
  set (h := Signal.handler (Signal.k_sigaction_of_bytes bs)).
  destruct (sys_rt_sigaction_run signum user_act 0 sigsetsize s c t
              Hargs Hc Ht Hhlen) as (_ & _ & Hinst).
  destruct (Hinst bs Hact Hread Hflags) as (s1 & (Hs1 & Hother & Hp) & Hrun1).
  unfold sigaction_report in Hrun1.
  rewrite decide_False in Hrun1 by (intros E; by apply E).
  assert (Hc1 : curr s1 = Some c) by (rewrite Hs1; exact Hc).
  assert (Ht1 : tasks s1 !! c = Some t) by (rewrite Hs1; exact Ht).
  assert (Hu1 : user s1 = user s) by (rewrite Hs1; reflexivity).
  assert (Hhlen1 : _NSIG - 1 <= Z.of_nat (length (sa_handlers (procs s1 (pi t))))).
  { rewrite Hp. cbn [sa_handlers set_sa_handlers]. by rewrite length_insert. }
  destruct (sys_rt_sigaction_run signum 0 user_oldact sigsetsize s1 c t
              Hargs Hc1 Ht1 Hhlen1) as (Hquery & _ & _).
  specialize (Hquery eq_refl). unfold sigaction_report in Hquery.
  rewrite decide_True in Hquery by done.
  assert (Hold_eq : old_action s1 t signum
                    = Signal.mk_k_sigaction h 0 0 (sa_mask (procs s (pi t)))).
  { unfold old_action, disposition. rewrite Hp.
    cbn [sa_handlers set_sa_handlers].
    rewrite nth_lookup, list_lookup_insert_eq by (clear - Hb Hhlen; lia).
    cbn [default from_option id].
    replace (sa_mask (set_sa_handlers _ (procs s (pi t))))
      with (sa_mask (procs s (pi t))) by (by destruct (procs s (pi t))).
    rewrite firstn_all2 by (rewrite Hmlen; lia). done. }
  rewrite Hold_eq in Hquery.
  set (a := Signal.mk_k_sigaction h 0 0 (sa_mask (procs s (pi t)))) in *.
  assert (Hz : ulong_range 0).
  { unfold ulong_range. split; [lia|]. apply Z.pow_pos_nonneg; [lia|].
    destruct Hcfg as [[-> | ->] _]; lia. }
  destruct (k_sigaction_roundtrip a Hcfg (handler_of_bytes_range bs Hcfg)
              Hz Hz Hmask Hmlen) as (Hlen & Hrt).
  destruct (write_bytes_mapped (Signal.bytes_of_k_sigaction a) (user s1) user_oldact)
    as (m' & Hw & Hrd & _ & _).
  { rewrite Hlen, Hu1. exact Hmap. }
  rewrite Hw in Hquery. rewrite Hlen in Hrd.
  exists s1, (set_user m' s1), (Signal.bytes_of_k_sigaction a).
  split; [exact Hrun1|]. split; [exact Hquery|]. split; [exact Hrd|exact Hrt].
Qed.

End Sigaction.

(** SIGKILL cannot be given a handler. *)
Lemma sys_rt_sigaction_invalid_args_witness :
  Signal.sys_rt_sigaction (H := config32) Signal.SIGKILL 0x3000 0 8
    MoreExamples.state_user2 = Ret (- Signal.EINVAL) MoreExamples.state_user2.
Proof.
  apply (sys_rt_sigaction_invalid_args (H := config32) Signal.SIGKILL 0x3000 0 8
           MoreExamples.state_user2).
  intros (_ & Hk & _). by apply Hk.
Defined.

(** Init asks for the action of SIGUSR1, which is the default one: 20 zero
    bytes are written at 0x4000. *)
Lemma sys_rt_sigaction_query_witness :
  Signal.sys_rt_sigaction (H := config32) Signal.SIGUSR1 0 0x4000 8
    MoreExamples.state_user2
  = let '(ok, m) := write_bytes MoreExamples.user_memory2 0x4000 (repeat 0 20) in
    Ret (if ok then 0 else - Signal.EFAULT) (set_user m MoreExamples.state_user2).
Proof.
  apply (sys_rt_sigaction_query (H := config32) Signal.SIGUSR1 0x4000 8
           MoreExamples.state_user2 1
           (Examples.a_task 1 TASK_STATE_RUNNING WOBJ_NONE [0; 0])).
  - split; [reflexivity|]. split; [discriminate|]. split; [discriminate|reflexivity].
  - reflexivity.
  - reflexivity.
  - vm_compute. discriminate.
Defined.

(** Init installs the handler 0x400000 for SIGUSR1 from the action at
    0x3000. *)
Lemma sys_rt_sigaction_install_witness :
  exists s1,
    handler_installed 1 Signal.SIGUSR1 0x400000 MoreExamples.state_user2 s1 /\
    Signal.sys_rt_sigaction (H := config32) Signal.SIGUSR1 0x3000 0 8
      MoreExamples.state_user2 = Ret 0 s1.
Proof.
  destruct (sys_rt_sigaction_install (H := config32) Signal.SIGUSR1 0x3000 0 8
              MoreExamples.state_user2 1
              (Examples.a_task 1 TASK_STATE_RUNNING WOBJ_NONE [0; 0]))
    as [_ Hinst].
  - split; [reflexivity|]. split; [discriminate|]. split; [discriminate|reflexivity].
  - reflexivity.
  - reflexivity.
  - vm_compute. discriminate.
  - discriminate.
  - apply (Hinst [0; 0; 0x40; 0; 0; 0; 0; 0; 0; 0; 0; 0; 0; 0; 0; 0; 0; 0; 0; 0]).
    + reflexivity.
    + intros [Hf|[Hf|[Hf|Hf]]]; apply Hf; reflexivity.
Defined.

(** The handler installed from 0x3000 is read back at 0x4000. *)
Lemma sigaction_install_then_query_witness :
  exists s1 s2 bs',
    Signal.sys_rt_sigaction (H := config32) Signal.SIGUSR1 0x3000 0 8
      MoreExamples.state_user2 = Ret 0 s1 /\
    Signal.sys_rt_sigaction (H := config32) Signal.SIGUSR1 0 0x4000 8 s1
      = Ret 0 s2 /\
    read_bytes (user s2) 0x4000 20 = Some bs' /\
    Signal.k_sigaction_of_bytes (H := config32) bs'
      = Signal.mk_k_sigaction 0x400000 0 0 [0; 0].
Proof.
  apply (sigaction_install_then_query (H := config32) Signal.SIGUSR1 0x3000 0x4000 8
           MoreExamples.state_user2 1
           (Examples.a_task 1 TASK_STATE_RUNNING WOBJ_NONE [0; 0])
           [0; 0; 0x40; 0; 0; 0; 0; 0; 0; 0; 0; 0; 0; 0; 0; 0; 0; 0; 0; 0]).
  - split; [left; reflexivity|split; simpl; lia].
  - split; [reflexivity|]. split; [discriminate|]. split; [discriminate|reflexivity].
  - reflexivity.
  - reflexivity.
  - vm_compute. discriminate.
  - reflexivity.
  - repeat constructor; unfold ulong_range; simpl; lia.
  - discriminate.
  - discriminate.
  - reflexivity.
  - intros [Hf|[Hf|[Hf|Hf]]]; apply Hf; reflexivity.
  - intros i Hi. unfold MoreExamples.state_user2, MoreExamples.user_memory2.
    cbn [user set_user].
    rewrite decide_False by (change (Z.of_nat Signal.sizeof_k_sigaction) with 20 in Hi; lia).
    rewrite decide_True by (change (Z.of_nat Signal.sizeof_k_sigaction) with 20 in Hi; lia).
    discriminate.
Defined.

(** ** [sys_rt_sigprocmask] *)

Lemma read_bytes_ext (m m' : umem) (n : nat) : forall a,
  (forall i, 0 <= i < Z.of_nat n -> m' (a + i) = m (a + i)) ->
  read_bytes m' a n = read_bytes m a n.
Proof.
  induction n as [|n IH]; intros a Hext; [done|].
  cbn [read_bytes].
  pose proof (Hext 0 ltac:(lia)) as H0. rewrite Z.add_0_r in H0. rewrite H0.
  rewrite IH; [done|].
  intros i Hi. replace (a + 1 + i) with (a + (i + 1)) by lia. apply Hext. lia.
Qed.

Lemma read_bytes_app (m : umem) (n1 n2 : nat) : forall a l1 l2,
  read_bytes m a n1 = Some l1 ->
  read_bytes m (a + Z.of_nat n1) n2 = Some l2 ->
  read_bytes m a (n1 + n2) = Some (l1 ++ l2).
Proof.
  induction n1 as [|n1 IH]; intros a l1 l2 H1 H2.
  - injection H1 as <-. by rewrite Z.add_0_r in H2.
  - cbn [read_bytes Nat.add] in *.
    destruct (m a); [|done].
    destruct (read_bytes m (a + 1) n1) as [l|] eqn:E; [|done].
    injection H1 as <-.
    rewrite (IH (a + 1) l l2 E); [done|].
    rewrite <- H2. f_equal. lia.
Qed.

Lemma read_bytes_split (m : umem) (n1 n2 : nat) : forall a l,
  read_bytes m a (n1 + n2) = Some l ->
  read_bytes m a n1 = Some (take n1 l) /\
  read_bytes m (a + Z.of_nat n1) n2 = Some (drop n1 l).
Proof.
  induction n1 as [|n1 IH]; intros a l Hl.
  - rewrite Z.add_0_r. simpl. rewrite take_0. done.
  - cbn [read_bytes Nat.add] in *.
    destruct (m a); [|done].
    destruct (read_bytes m (a + 1) (n1 + n2)) as [l'|] eqn:E; [|done].
    injection Hl as <-.
    destruct (IH (a + 1) l' E) as [H1 H2].
    rewrite H1. split; [done|].
    cbn [drop]. rewrite <- H2. f_equal. lia.
Qed.

Lemma take_repeat {A} (x : A) (n k : nat) :
  (n <= k)%nat -> take n (repeat x k) = repeat x n.
Proof.
  revert k. induction n as [|n IH]; intros k Hk; [done|].
  destruct k; [lia|]. simpl. f_equal. apply IH. lia.
Qed.

Section Sigprocmask.
Context `{BuildConfig}.

Lemma apply_words_bits (how : Z) : forall (ms ws : list Z) (k : nat) (b : Z),
  length ms = length ws -> 0 <= b < NBITS ->
  Z.testbit (nth k (apply_words how ms ws) 0) b
    = mode_bit how (Z.testbit (nth k ms 0) b) (Z.testbit (nth k ws 0) b).
Proof.
  induction ms as [|m ms IH]; intros [|w ws] k b Hlen Hb; try done.
  - destruct k; simpl; rewrite Z.bits_0; unfold mode_bit;
      repeat (destruct (decide _)); done.
  - cbn [apply_words]. destruct k as [|k]; cbn [nth].
    + unfold apply_how, mode_bit.
      destruct (decide (how = Signal.SIG_BLOCK)); [apply Z.lor_spec|].
      destruct (decide (how = Signal.SIG_UNBLOCK)); [|done].
      rewrite Z.land_spec. f_equal. unfold to_ulong.
      rewrite Z.mod_pow2_bits_low by lia. apply Z.lnot_spec. lia.
    + apply IH; [by injection Hlen|done].
Qed.

Lemma user_words_of_bytes (m : umem) (ws : list Z) : forall a,
  config_wf -> Forall ulong_range ws ->
  read_bytes m a (length (bytes_of_words ws)) = Some (bytes_of_words ws) ->
  user_words m a (length ws) = ws.
Proof.
  intros a Hcfg Hws. revert a.
  induction Hws as [|w ws Hw Hws IH]; intros a Hread; [done|].
  cbn [length user_words].
  unfold bytes_of_words in Hread. cbn [map concat] in Hread.
  rewrite length_app, le_split_length in Hread.
  apply read_bytes_split in Hread as [H1 H2].
  rewrite take_app_length' in H1 by (symmetry; apply le_split_length).
  rewrite drop_app_length' in H2 by (symmetry; apply le_split_length).
  rewrite H1, le_combine_split, (sizeof_ulong_bits Hcfg).
  unfold ulong_range in Hw. rewrite Z.mod_small by done.
  f_equal. apply IH. exact H2.
Qed.

(** X22. A call of [sys_rt_sigprocmask] with a valid mode, no old set and
    a new set that can be read in full returns 0; SIG_BLOCK adds the
    signals of the new set to the blocked ones, SIG_UNBLOCK takes them out,
    SIG_SETMASK makes the new set the blocked one; nothing else changes. *)
Theorem sigprocmask_modes (how user_set sigsetsize : Z) (s : kstate)
    (c : Z) (t : task) :
  config_wf ->
  curr s = Some c -> tasks s !! c = Some t ->
  length (sa_mask (procs s (pi t))) = K_SIGACTION_MASK_WORDS ->
  valid_how how ->
  user_set ≠ 0 ->
  length (user_words (user s) user_set K_SIGACTION_MASK_WORDS)
    = K_SIGACTION_MASK_WORDS ->
  exists s',
    Signal.sys_rt_sigprocmask how user_set 0 sigsetsize s = Ret 0 s' /\
    same_but_mask (pi t) s s' /\
    forall sig, 1 <= sig ->
      sig_pending (sa_mask (procs s' (pi t))) sig
        = mode_bit how (sig_pending (sa_mask (procs s (pi t))) sig)
            (sig_pending (user_words (user s) user_set K_SIGACTION_MASK_WORDS) sig).
Proof.
  intros Hcfg Hc Ht Hlen Hhow Hset Hall.
  destruct (sigprocmask_loop_spec K_SIGACTION_MASK_WORDS 0 (pi t) how user_set s Hhow)
    as (s' & Hrun & Hmask & Hsame).
  { rewrite Hlen. reflexivity. }
  cbn zeta in Hrun. rewrite Z.mul_0_l, Z.add_0_r in *.
  rewrite decide_True in Hrun by done.
  rewrite take_0, drop_0, app_nil_l in Hmask.
  exists s'. split; [|split; [exact Hsame|]].
  - unfold Signal.sys_rt_sigprocmask.
    rewrite (bind_Ret _ _ _ _ _ (get_curr_proc_Some _ _ _ Hc Ht)).
    rewrite (decide_False (P := 0 ≠ 0)) by (intros Hne; by apply Hne).
    rewrite bind_unfold. unfold mret at 1, M_ret at 1, ret at 1.
    rewrite decide_True by done. exact Hrun.
  - intros sig Hsig. rewrite Hmask. unfold sig_pending.
    apply apply_words_bits; [by rewrite Hlen, Hall|].
    apply Z.mod_pos_bound. destruct Hcfg as [[-> | ->] _]; lia.
Qed.

(** X23. A call of [sys_rt_sigprocmask] with a new set and a mode that is
    none of the three returns [-EINVAL] or [-EFAULT], with the processes
    (so the blocked mask) and the tasks as they were. With a null old set
    the kernel state is as it was, and the result is [-EINVAL] when the
    first word of the new set can be read and [-EFAULT] when it cannot: the
    word is read before the mode is looked at. With an old set the copy-out
    block runs first and the state is as that block leaves it: when the
    block faults the call returns [-EFAULT], otherwise the result is decided
    as before, by the first word of the new set in the user memory that the
    copy-out has written. *)
Theorem sigprocmask_invalid_how (how user_set user_oldset sigsetsize : Z)
    (s : kstate) (c : Z) (t : task) :
  config_wf ->
  curr s = Some c -> tasks s !! c = Some t ->
  ~ valid_how how ->
  user_set ≠ 0 ->
  exists rc s',
    Signal.sys_rt_sigprocmask how user_set user_oldset sigsetsize s = Ret rc s' /\
    procs s' = procs s /\ tasks s' = tasks s /\
    (rc = - Signal.EINVAL \/ rc = - Signal.EFAULT) /\
    (user_oldset = 0 ->
     s' = s /\
     rc = match read_bytes (user s) user_set sizeof_ulong with
          | Some _ => - Signal.EINVAL
          | None => - Signal.EFAULT
          end) /\
    (user_oldset ≠ 0 ->
     exists r,
       Signal.sigprocmask_copy_out (pi t) user_oldset sigsetsize s = Ret r s' /\
       ((r = Some (- Signal.EFAULT) /\ rc = - Signal.EFAULT) \/
        (r = None /\
         rc = match read_bytes (user s') user_set sizeof_ulong with
              | Some _ => - Signal.EINVAL
              | None => - Signal.EFAULT
              end))).
Proof.
  intros (_ & _ & HK) Hc Ht Hhow Hset.
  assert (Hloop : forall s0,
    Signal.sigprocmask_loop K_SIGACTION_MASK_WORDS 0 (pi t) how user_set s0
      = Ret (match read_bytes (user s0) user_set sizeof_ulong with
             | Some _ => - Signal.EINVAL
             | None => - Signal.EFAULT
             end) s0).
  { intros s0. destruct K_SIGACTION_MASK_WORDS as [|n]; [lia|].
    cbn [Signal.sigprocmask_loop].
    rewrite bind_unfold. unfold copy_from_user at 1.
    rewrite Z.mul_0_l, Z.add_0_r.
    destruct (read_bytes (user s0) user_set sizeof_ulong); [|done].
    rewrite bind_unfold. unfold load_proc at 1.
    unfold valid_how in Hhow.
    rewrite decide_False by tauto. rewrite decide_False by tauto.
    rewrite decide_False by tauto. done. }
  unfold Signal.sys_rt_sigprocmask.
  rewrite (bind_Ret _ _ _ _ _ (get_curr_proc_Some _ _ _ Hc Ht)).
  destruct (decide (user_oldset ≠ 0)) as [Ho|Ho].
  - destruct (sigprocmask_copy_out_spec (pi t) user_oldset sigsetsize s)
      as (r & m & Hco & Hr).
    rewrite (bind_Ret _ _ _ _ _ Hco).
    destruct Hr as [-> | ->].
    + rewrite decide_True by done. rewrite Hloop.
      eexists; eexists; split; [reflexivity|].
      split; [done|]. split; [done|].
      split; [destruct (read_bytes _ _ _); [by left|by right]|].
      split; [intros E; by destruct Ho|].
      intros _. exists None. split; [exact Hco|]. right. done.
    + eexists; eexists; split; [reflexivity|].
      split; [done|]. split; [done|]. split; [by right|].
      split; [intros E; by destruct Ho|].
      intros _. exists (Some (- Signal.EFAULT)). split; [exact Hco|]. by left.
  - rewrite bind_unfold. unfold mret at 1, M_ret at 1, ret at 1.
    rewrite decide_True by done. rewrite Hloop.
    eexists; eexists; split; [reflexivity|].
    split; [done|]. split; [done|].
    split; [destruct (read_bytes _ _ _); [by left|by right]|].
    split; [done|]. intros Hne. by destruct Ho.
Qed.

(** The copy-out block of [sys_rt_sigprocmask] on mapped memory. *)
Lemma sigprocmask_copy_out_mapped (p : nat) (user_oldset sigsetsize : Z)
    (s : kstate) :
  Z.of_nat Signal.sizeof_sa_mask <= sigsetsize
    <= Z.of_nat Signal.sizeof_sa_mask + Z.of_nat Signal.PAGE_SIZE ->
  length (sa_mask (procs s p)) = K_SIGACTION_MASK_WORDS ->
  mapped (user s) user_oldset (Z.to_nat sigsetsize) ->
  exists m,
    Signal.sigprocmask_copy_out p user_oldset sigsetsize s
      = Ret None (set_user m s) /\
    read_bytes m user_oldset (Z.to_nat sigsetsize)
      = Some (bytes_of_words (sa_mask (procs s p))
              ++ repeat 0 (Z.to_nat sigsetsize - Signal.sizeof_sa_mask)) /\
    (forall a, ~ user_oldset <= a < user_oldset + sigsetsize -> m a = user s a).
Proof.
  intros Hsz Hlen Hmap.
  set (pr := procs s p) in *.
  set (n := Z.to_nat sigsetsize) in *.
  set (k := Signal.sizeof_sa_mask) in *.
  assert (Hbl : length (bytes_of_words (sa_mask pr)) = k)
    by (rewrite bytes_of_words_length, Hlen; reflexivity).
  assert (Hkn : (k <= n)%nat) by (unfold n; lia).
  set (tail := map (after_sa_mask pr) (seq 0 (n - k))).
  assert (Hfirst : Signal.sa_mask_bytes pr n = bytes_of_words (sa_mask pr) ++ tail).
  { unfold Signal.sa_mask_bytes. fold k tail. apply firstn_all2.
    rewrite length_app, Hbl. unfold tail. rewrite length_map, length_seq. lia. }
  assert (Hfl : length (bytes_of_words (sa_mask pr) ++ tail) = n).
  { rewrite length_app, Hbl. unfold tail. rewrite length_map, length_seq. lia. }
  destruct (write_bytes_mapped (bytes_of_words (sa_mask pr) ++ tail) (user s)
              user_oldset) as (m1 & Hw1 & Hrd1 & Hout1 & Hkeep1).
  { by rewrite Hfl. }
  rewrite Hfl in Hrd1, Hout1.
  replace n with (k + (n - k))%nat in Hrd1 by lia.
  apply read_bytes_split in Hrd1 as [Hrd1 _].
  rewrite <- Hbl in Hrd1 at 2. rewrite take_app_length in Hrd1.
  unfold Signal.sigprocmask_copy_out.
  rewrite bind_unfold. unfold load_proc at 1.
  rewrite bind_unfold. unfold copy_to_user at 1.
  fold pr n. rewrite Hfirst, Hw1. cbn [negb].
  fold k.
  destruct (decide (sigsetsize > Z.of_nat k)) as [Hgt|Hle].
  - rewrite bind_unfold. unfold get at 1.
    rewrite bind_unfold. unfold copy_to_user at 1.
    cbn [user set_user].
    set (diff := Z.to_nat (sigsetsize - Z.of_nat k)).
    assert (Hdiff : diff = (n - k)%nat) by (unfold diff, n; lia).
    assert (Hzp : Signal.zero_page (set_user m1 s) diff = repeat 0 diff).
    { unfold Signal.zero_page.
      replace (diff - Signal.PAGE_SIZE)%nat with 0%nat by (unfold diff; lia).
      cbn [seq map]. rewrite app_nil_r. apply take_repeat. unfold diff. lia. }
    rewrite Hzp.
    destruct (write_bytes_mapped (repeat 0 diff) m1 (user_oldset + Z.of_nat k))
      as (m2 & Hw2 & Hrd2 & Hout2 & _).
    { rewrite repeat_length. intros i Hi. apply Hkeep1.
      rewrite <- Z.add_assoc. apply Hmap. unfold n. lia. }
    rewrite repeat_length in Hrd2, Hout2.
    rewrite Hw2. cbn [negb].
    exists m2. split; [by destruct s|]. split.
    + rewrite <- Hdiff. replace n with (k + diff)%nat by lia.
      apply read_bytes_app; [|exact Hrd2].
      rewrite <- Hrd1. apply read_bytes_ext.
      intros i Hi. apply Hout2. lia.
    + intros a Ha. rewrite Hout2 by (unfold diff; lia).
      apply Hout1. unfold n. lia.
  - exists m1. split; [by destruct s|]. split.
    + replace (n - k)%nat with 0%nat by (unfold n; lia).
      cbn [repeat]. rewrite app_nil_r.
      replace n with k by (unfold n; lia). exact Hrd1.
    + intros a Ha. apply Hout1. unfold n. lia.
Qed.

(** A call with no new set is the copy-out block. *)
Lemma sigprocmask_query_head (how user_oldset sigsetsize : Z) (s : kstate)
    (c : Z) (t : task) :
  curr s = Some c -> tasks s !! c = Some t -> user_oldset ≠ 0 ->
  Signal.sys_rt_sigprocmask how 0 user_oldset sigsetsize s
    = (early ← Signal.sigprocmask_copy_out (pi t) user_oldset sigsetsize;
       match early with
       | Some rc => mret rc
       | None => mret 0
       end) s.
Proof.
  intros Hc Ht Ho. unfold Signal.sys_rt_sigprocmask.
  rewrite (bind_Ret _ _ _ _ _ (get_curr_proc_Some _ _ _ Hc Ht)).
  rewrite (decide_True (P := user_oldset ≠ 0)) by done.
  rewrite (decide_False (P := 0 ≠ 0)) by (intros Hne; by apply Hne). done.
Qed.

(** X24. A call of [sys_rt_sigprocmask] with no new set and an old set in
    mapped memory, for a [sigsetsize] from the size of the kernel's mask up
    to [PAGE_SIZE] more: it returns 0, whatever the mode; the bytes at
    [user_oldset] are the blocked mask followed by zeroes up to
    [sigsetsize]; no other byte of user memory and nothing else of the
    kernel state changes. *)
Theorem sigprocmask_old_set (how user_oldset sigsetsize : Z) (s : kstate)
    (c : Z) (t : task) :
  curr s = Some c -> tasks s !! c = Some t ->
  user_oldset ≠ 0 ->
  Z.of_nat Signal.sizeof_sa_mask <= sigsetsize
    <= Z.of_nat Signal.sizeof_sa_mask + Z.of_nat Signal.PAGE_SIZE ->
  length (sa_mask (procs s (pi t))) = K_SIGACTION_MASK_WORDS ->
  mapped (user s) user_oldset (Z.to_nat sigsetsize) ->
  exists m,
    Signal.sys_rt_sigprocmask how 0 user_oldset sigsetsize s
      = Ret 0 (set_user m s) /\
    read_bytes m user_oldset (Z.to_nat sigsetsize)
      = Some (bytes_of_words (sa_mask (procs s (pi t)))
              ++ repeat 0 (Z.to_nat sigsetsize - Signal.sizeof_sa_mask)) /\
    (forall a, ~ user_oldset <= a < user_oldset + sigsetsize -> m a = user s a).
Proof.
  intros Hc Ht Ho Hsz Hlen Hmap.
  destruct (sigprocmask_copy_out_mapped (pi t) user_oldset sigsetsize s
              Hsz Hlen Hmap) as (m & Hrun & Hrd & Hout).
  exists m. split; [|split; [exact Hrd|exact Hout]].
  rewrite (sigprocmask_query_head how user_oldset sigsetsize s c t Hc Ht Ho).
  by rewrite (bind_Ret _ _ _ _ _ Hrun).
Qed.

(** X25. Reading the blocked mask and setting it back: after a query with
    [sigsetsize] the size of the kernel's mask and mapped memory, the words
    at [user_oldset] are those of the blocked mask, and a SIG_SETMASK call
    with that address as the new set returns 0 and leaves the blocked mask
    as it was before the two calls. *)
Theorem sigprocmask_query_then_restore (how user_oldset : Z) (s : kstate)
    (c : Z) (t : task) :
  config_wf ->
  curr s = Some c -> tasks s !! c = Some t ->
  user_oldset ≠ 0 ->
  length (sa_mask (procs s (pi t))) = K_SIGACTION_MASK_WORDS ->
  Forall ulong_range (sa_mask (procs s (pi t))) ->
  mapped (user s) user_oldset Signal.sizeof_sa_mask ->
  exists s1 s2,
    Signal.sys_rt_sigprocmask how 0 user_oldset
      (Z.of_nat Signal.sizeof_sa_mask) s = Ret 0 s1 /\
    user_words (user s1) user_oldset K_SIGACTION_MASK_WORDS
      = sa_mask (procs s (pi t)) /\
    Signal.sys_rt_sigprocmask Signal.SIG_SETMASK user_oldset 0
      (Z.of_nat Signal.sizeof_sa_mask) s1 = Ret 0 s2 /\
    sa_mask (procs s2 (pi t)) = sa_mask (procs s (pi t)) /\
    same_but_mask (pi t) s1 s2.
Proof.
  intros Hcfg Hc Ht Ho Hlen Hws Hmap.
  assert (Hsz : Z.of_nat Signal.sizeof_sa_mask <= Z.of_nat Signal.sizeof_sa_mask
                  <= Z.of_nat Signal.sizeof_sa_mask + Z.of_nat Signal.PAGE_SIZE)
    by (clear; lia).
  destruct (sigprocmask_copy_out_mapped (pi t) user_oldset
              (Z.of_nat Signal.sizeof_sa_mask) s Hsz Hlen)
    as (m & Hcopy & Hrd & _).
  { by rewrite Nat2Z.id. }
  rewrite Nat2Z.id, Nat.sub_diag in Hrd. cbn [repeat] in Hrd.
  rewrite app_nil_r in Hrd.
  set (s1 := set_user m s) in *.
  assert (Hrun : Signal.sys_rt_sigprocmask how 0 user_oldset
                   (Z.of_nat Signal.sizeof_sa_mask) s = Ret 0 s1).
  { rewrite (sigprocmask_query_head how user_oldset _ s c t Hc Ht Ho).
    by rewrite (bind_Ret _ _ _ _ _ Hcopy). }
  assert (Hwords : user_words (user s1) user_oldset K_SIGACTION_MASK_WORDS
                   = sa_mask (procs s (pi t))).
  { rewrite <- Hlen at 1. apply user_words_of_bytes; [done..|].
    cbn [user s1 set_user]. rewrite bytes_of_words_length, Hlen. exact Hrd. }
  assert (Hhow : valid_how Signal.SIG_SETMASK) by (right; right; done).
  destruct (sigprocmask_loop_spec K_SIGACTION_MASK_WORDS 0 (pi t)
              Signal.SIG_SETMASK user_oldset s1 Hhow)
    as (s2 & Hloop & Hmask & Hsame).
  { cbn [procs s1 set_user]. rewrite Hlen. reflexivity. }
  cbn zeta in Hloop. rewrite Z.mul_0_l, Z.add_0_r in *.
  rewrite take_0, drop_0, app_nil_l, Hwords in Hmask.
  rewrite Hwords, decide_True in Hloop by exact Hlen.
  change (Z.of_nat 0) with 0 in Hloop.
  exists s1, s2. split; [exact Hrun|]. split; [exact Hwords|].
  split; [|split; [|exact Hsame]].
  - unfold Signal.sys_rt_sigprocmask.
    rewrite (bind_Ret _ _ _ _ _ (get_curr_proc_Some c t s1 Hc Ht)).
    rewrite (decide_False (P := 0 ≠ 0)) by (intros Hne; by apply Hne).
    rewrite bind_unfold. unfold mret at 1, M_ret at 1, ret at 1.
    rewrite decide_True by done. exact Hloop.
  - rewrite Hmask. cbn [procs s1 set_user].
    clear. induction (sa_mask (procs s (pi t))) as [|w ws IH]; [done|].
    cbn [apply_words]. rewrite IH. done.
Qed.

End Sigprocmask.

(** The current task is init, its blocked mask is empty, and the 8 bytes at
    0x4000 are 0xaa each: blocking that set blocks what it holds. *)
Lemma sigprocmask_modes_witness :
  exists s',
    Signal.sys_rt_sigprocmask (H := config32) Signal.SIG_BLOCK 0x4000 0 8
      MoreExamples.state_user2 = Ret 0 s' /\
    same_but_mask 1 MoreExamples.state_user2 s' /\
    forall sig, 1 <= sig ->
      sig_pending (H := config32) (sa_mask (procs s' 1)) sig
        = mode_bit Signal.SIG_BLOCK
            (sig_pending (H := config32) [0; 0] sig)
            (sig_pending (H := config32)
               (user_words (H := config32) MoreExamples.user_memory2 0x4000 2) sig).
Proof.
  apply (sigprocmask_modes (H := config32) Signal.SIG_BLOCK 0x4000 8
           MoreExamples.state_user2 1
           (Examples.a_task 1 TASK_STATE_RUNNING WOBJ_NONE [0; 0])).
  - split; [left; reflexivity|split; simpl; lia].
  - reflexivity.
  - reflexivity.
  - reflexivity.
  - left. reflexivity.
  - discriminate.
  - vm_compute. reflexivity.
Defined.

(** The mode 7 with a readable new set at 0x4000 and an old set at 0x4010:
    the call returns [-EINVAL] after the mask has been written to the old
    set. *)
Lemma sigprocmask_invalid_how_witness :
  exists s',
    Signal.sys_rt_sigprocmask (H := config32) 7 0x4000 0x4010 8
      MoreExamples.state_user2 = Ret (- Signal.EINVAL) s' /\
    procs s' = procs MoreExamples.state_user2 /\
    read_bytes (user MoreExamples.state_user2) 0x4010 8
      = Some [0xaa; 0xaa; 0xaa; 0xaa; 0xaa; 0xaa; 0xaa; 0xaa] /\
    read_bytes (user s') 0x4010 8 = Some [0; 0; 0; 0; 0; 0; 0; 0].
Proof.
  destruct (sigprocmask_invalid_how (H := config32) 7 0x4000 0x4010 8
              MoreExamples.state_user2 1
              (Examples.a_task 1 TASK_STATE_RUNNING WOBJ_NONE [0; 0]))
    as (rc & s' & Hrun & Hp & _ & _ & _ & Hold).
  - split; [left; reflexivity|split; simpl; lia].
  - reflexivity.
  - reflexivity.
  - intros [E|[E|E]]; discriminate E.
  - discriminate.
  - destruct Hold as (r & Hco & Hr); [discriminate|].
    assert (Hco' : exists m,
      Signal.sigprocmask_copy_out (H := config32) 1 0x4010 8
        MoreExamples.state_user2
        = Ret None (set_user m MoreExamples.state_user2) /\
      read_bytes m 0x4010 8 = Some [0; 0; 0; 0; 0; 0; 0; 0] /\
      read_bytes m 0x4000 (sizeof_ulong (H := config32)) ≠ None).
    { eexists. split; [reflexivity|]. split; [reflexivity|].
      vm_compute. discriminate. }
    destruct Hco' as (m & Hco' & Hm1 & Hm2).
    change (pi (Examples.a_task 1 TASK_STATE_RUNNING WOBJ_NONE [0; 0]))
      with 1%nat in Hco.
    rewrite Hco' in Hco. injection Hco as <- <-.
    exists (set_user m MoreExamples.state_user2).
    destruct Hr as [[Hr _]|[_ Hrc]]; [discriminate Hr|].
    cbn [user set_user] in Hrc.
    destruct (read_bytes m 16384 (sizeof_ulong (H := config32))) eqn:E;
      [|done].
    subst rc. split; [exact Hrun|]. split; [reflexivity|].
    split; [reflexivity|exact Hm1].
Defined.

(** An old set of 16 bytes on a 32-bit build: the 8 bytes of the mask and
    8 zero bytes. *)
Lemma sigprocmask_old_set_witness :
  exists m,
    Signal.sys_rt_sigprocmask (H := config32) Signal.SIG_BLOCK 0 0x4000 16
      MoreExamples.state_user2 = Ret 0 (set_user m MoreExamples.state_user2) /\
    read_bytes m 0x4000 16 = Some (repeat 0 16) /\
    (forall a, ~ 0x4000 <= a < 0x4000 + 16 -> m a = MoreExamples.user_memory2 a).
Proof.
  apply (sigprocmask_old_set (H := config32) Signal.SIG_BLOCK 0x4000 16
           MoreExamples.state_user2 1
           (Examples.a_task 1 TASK_STATE_RUNNING WOBJ_NONE [0; 0])).
  - reflexivity.
  - reflexivity.
  - discriminate.
  - split; vm_compute; discriminate.
  - reflexivity.
  - intros i Hi. unfold MoreExamples.state_user2, MoreExamples.user_memory2.
    cbn [user set_user].
    rewrite decide_False by (change (Z.of_nat (Z.to_nat 16)) with 16 in Hi; lia).
    rewrite decide_True by (change (Z.of_nat (Z.to_nat 16)) with 16 in Hi; lia).
    discriminate.
Defined.

(** Init blocks signals 1, 3 and 33: the mask is read at 0x4000 and set
    back from there. *)
Lemma sigprocmask_query_then_restore_witness :
  exists s1 s2,
    Signal.sys_rt_sigprocmask (H := config32) Signal.SIG_BLOCK 0 0x4000 8
      (set_procs (Examples.procs_default [5; 1]) MoreExamples.state_user2)
      = Ret 0 s1 /\
    user_words (H := config32) (user s1) 0x4000 2 = [5; 1] /\
    Signal.sys_rt_sigprocmask (H := config32) Signal.SIG_SETMASK 0x4000 0 8 s1
      = Ret 0 s2 /\
    sa_mask (procs s2 1) = [5; 1] /\
    same_but_mask 1 s1 s2.
Proof.
  apply (sigprocmask_query_then_restore (H := config32) Signal.SIG_BLOCK 0x4000
           (set_procs (Examples.procs_default [5; 1]) MoreExamples.state_user2) 1
           (Examples.a_task 1 TASK_STATE_RUNNING WOBJ_NONE [0; 0])).
  - split; [left; reflexivity|split; simpl; lia].
  - reflexivity.
  - reflexivity.
  - discriminate.
  - reflexivity.
  - repeat constructor; unfold ulong_range; simpl; lia.
  - intros i Hi. unfold MoreExamples.state_user2, MoreExamples.user_memory2.
    cbn [user set_user set_procs].
    rewrite decide_False by (change (Z.of_nat Signal.sizeof_sa_mask) with 8 in Hi; lia).
    rewrite decide_True by (change (Z.of_nat Signal.sizeof_sa_mask) with 8 in Hi; lia).
    discriminate.
Defined.

(** ** The task switch to another task *)

Lemma task_change_state_idempotent_run (ti : Z) (ns : task_state) (t : task)
    (s : kstate) :
  tasks s !! ti = Some t ->
  task_change_state_idempotent ti ns s
    = Ret tt (set_tasks (<[ti := set_state ns t]> (tasks s)) s).
Proof.
  intros Ht. rewrite (task_change_state_idempotent_spec ti ns t s Ht).
  destruct (decide (state t = ns)) as [<-|]; [|done].
  f_equal. replace (set_state (state t) t) with t by (by destruct t).
  rewrite insert_id by done. by destruct s.
Qed.

Section SwitchMoreProofs.
Context `{Switch.Collaborators}.

(** The two assertions on a switch to a different task hold, or the target
    is the current task. *)
Lemma switch_prechecks_pass (ti c : Z) (s : kstate) (t tc : task) :
  tasks s !! c = Some tc -> tasks s !! ti = Some t ->
  ti = c \/ (state tc ≠ TASK_STATE_RUNNING /\ state t = TASK_STATE_RUNNABLE) ->
  (if decide (ti ≠ c) then
     tc ← load_task c;
     ASSERT (bool_decide (state tc ≠ TASK_STATE_RUNNING))
            "curr->state != TASK_STATE_RUNNING";;
     t ← load_task ti;
     ASSERT (bool_decide (state t = TASK_STATE_RUNNABLE))
            "ti->state == TASK_STATE_RUNNABLE"
   else mret tt) s = Ret tt s.
Proof.
  intros Htc Ht Hok. destruct (decide (ti ≠ c)) as [Hne|_]; [|done].
  destruct Hok as [->|[Hrun Hrb]]; [done|].
  rewrite (bind_Ret _ _ _ _ _ (load_task_Some _ _ _ Htc)).
  rewrite bind_unfold, ASSERT_true by (by apply bool_decide_eq_true_2).
  rewrite (bind_Ret _ _ _ _ _ (load_task_Some _ _ _ Ht)).
  by rewrite ASSERT_true by (by apply bool_decide_eq_true_2).
Qed.

(** Saving the FPU context only logs. *)
Lemma save_fpu_phase (b : bool) (s0 : kstate) (c : Z) (tc0 : task) :
  curr s0 = Some c -> tasks s0 !! c = Some tc0 ->
  exists l,
    (if b then Switch.save_curr_fpu_ctx_if_enabled else mret tt) s0
      = Ret tt (set_log l s0).
Proof.
  intros Hc Htc. destruct b.
  - unfold Switch.save_curr_fpu_ctx_if_enabled.
    rewrite bind_unfold. unfold get_curr_task at 1. rewrite Hc.
    unfold Switch.is_fpu_enabled_for_task.
    rewrite bind_unfold.
    rewrite (bind_Ret _ _ _ _ _ (load_task_Some _ _ _ Htc)).
    unfold mret at 1, M_ret at 1, ret at 1.
    destruct (fpu_regs tc0 && _).
    + eexists. reflexivity.
    + exists (log s0). by destruct s0.
  - exists (log s0). by destruct s0.
Qed.

(** The block of [switch_to_task] for a user task, on a target for which
    [process_signals] is not called. *)
Lemma user_phase (ti : Z) (s0 : kstate) (t0 : task) :
  tasks s0 !! ti = Some t0 ->
  resumes_without_signals t0 ->
  exists l,
    (if negb (bool_decide (pi t0 = kernel_process_pi)) then
       t ← load_task ti;
       p ← load_proc (pi t);
       pd ← Switch.get_curr_pdir;
       (if decide (pd ≠ pdir p) then Switch.set_curr_pdir (pdir p) else mret tt);;
       (if negb (running_in_kernel t)
           && bool_decide (Z.land (sstatus (state_regs t)) Switch.SR_SPP = 0)
        then Switch.call_process_signals ti Switch.sig_in_usermode else mret tt);;
       en ← Switch.is_fpu_enabled_for_task ti;
       (if (en : bool) then Switch.restore_fpu_regs ti else mret tt)
     else mret tt) s0
    = Ret tt (set_log l
                (set_curr_pdir_field
                   (if decide (pi t0 = kernel_process_pi) then curr_pdir s0
                    else pdir (procs s0 (pi t0))) s0)).
Proof.
  intros Ht Hns.
  destruct (decide (pi t0 = kernel_process_pi)) as [Hk|Hk].
  { rewrite bool_decide_eq_true_2 by done. cbn [negb].
    exists (log s0). by destruct s0. }
  rewrite bool_decide_eq_false_2 by done. cbn [negb].
  rewrite (bind_Ret _ _ _ _ _ (load_task_Some _ _ _ Ht)).
  rewrite bind_unfold. unfold load_proc at 1.
  rewrite bind_unfold. unfold Switch.get_curr_pdir at 1.
  set (s1 := set_curr_pdir_field (pdir (procs s0 (pi t0))) s0).
  assert (Hpd : (if decide (curr_pdir s0 ≠ pdir (procs s0 (pi t0)))
                 then Switch.set_curr_pdir (pdir (procs s0 (pi t0)))
                 else mret tt) s0 = Ret tt s1).
  { destruct (decide (curr_pdir s0 ≠ pdir (procs s0 (pi t0)))) as [|He]; [done|].
    unfold s1. replace (pdir (procs s0 (pi t0))) with (curr_pdir s0).
    - by destruct s0.
    - by destruct (decide (curr_pdir s0 = pdir (procs s0 (pi t0)))). }
  rewrite (bind_Ret _ _ _ _ _ Hpd).
  assert (Hsig : negb (running_in_kernel t0)
                 && bool_decide (Z.land (sstatus (state_regs t0)) Switch.SR_SPP = 0)
                 = false).
  { destruct Hns as [?|[->|Hspp]]; [done|done|].
    rewrite bool_decide_eq_false_2 by done. apply andb_false_r. }
  rewrite Hsig. clear Hsig. rewrite bind_unfold. unfold mret at 1, M_ret at 1, ret at 1.
  assert (Ht1 : tasks s1 !! ti = Some t0) by exact Ht.
  unfold Switch.is_fpu_enabled_for_task.
  rewrite bind_unfold.
  rewrite (bind_Ret _ _ _ _ _ (load_task_Some _ _ _ Ht1)).
  unfold mret at 1, M_ret at 1, ret at 1.
  destruct (fpu_regs t0 && _).
  - eexists. reflexivity.
  - exists (log s1). by destruct s0.
Qed.

(** X26. The assertions of [switch_to_task], in the order in which they
    are evaluated. On a switch to a task other than the current one the
    kernel halts when the current task is still RUNNING, and otherwise when
    the target is not RUNNABLE. When those two hold, or the target is the
    current task, it halts when preemption is enabled, and otherwise when
    the safety checks fail. *)
Theorem switch_to_task_assertions (ti c : Z) (s : kstate) (t tc : task) :
  curr s = Some c -> tasks s !! c = Some tc -> tasks s !! ti = Some t ->
  (ti ≠ c -> state tc = TASK_STATE_RUNNING ->
     Switch.switch_to_task ti s
       = Stop (AssertFailed "curr->state != TASK_STATE_RUNNING")) /\
  (ti ≠ c -> state tc ≠ TASK_STATE_RUNNING -> state t ≠ TASK_STATE_RUNNABLE ->
     Switch.switch_to_task ti s
       = Stop (AssertFailed "ti->state == TASK_STATE_RUNNABLE")) /\
  (ti = c \/ (state tc ≠ TASK_STATE_RUNNING /\ state t = TASK_STATE_RUNNABLE) ->
     (disable_preempt s = 0%nat ->
        Switch.switch_to_task ti s
          = Stop (AssertFailed "!is_preemption_enabled()")) /\
     (disable_preempt s ≠ 0%nat ->
      Switch.switch_to_task_safety_checks c ti s = false ->
        Switch.switch_to_task ti s
          = Stop (AssertFailed "switch_to_task_safety_checks(curr, ti)"))).
Proof.
  intros Hc Htc Ht.
  assert (Hpre : ti = c \/ (state tc ≠ TASK_STATE_RUNNING /\ state t = TASK_STATE_RUNNABLE) ->
    (if decide (ti ≠ c) then
         tc ← load_task c;
         ASSERT (bool_decide (state tc ≠ TASK_STATE_RUNNING))
                "curr->state != TASK_STATE_RUNNING";;
         t ← load_task ti;
         ASSERT (bool_decide (state t = TASK_STATE_RUNNABLE))
                "ti->state == TASK_STATE_RUNNABLE"
       else mret tt) s = Ret tt s).
  { intros Hok. destruct (decide (ti ≠ c)) as [Hne|_]; [|done].
    destruct Hok as [->|[Hrun Hrb]]; [done|].
    rewrite (bind_Ret _ _ _ _ _ (load_task_Some _ _ _ Htc)).
    rewrite bind_unfold, ASSERT_true by (by apply bool_decide_eq_true_2).
    rewrite (bind_Ret _ _ _ _ _ (load_task_Some _ _ _ Ht)).
    by rewrite ASSERT_true by (by apply bool_decide_eq_true_2). }
  split; [|split; [|intros Hok; split]].
  all: intros.
  all: unfold Switch.switch_to_task.
  all: rewrite (bind_Ret _ _ _ _ _ (load_task_Some _ _ _ Ht)).
  all: rewrite bind_unfold; unfold get_curr_task at 1; rewrite Hc.
  all: rewrite bind_unfold, ASSERT_true by done; cbn beta iota.
  - destruct (decide (ti ≠ c)) as [_|]; [|done].
    rewrite bind_unfold.
    rewrite (bind_Ret _ _ _ _ _ (load_task_Some _ _ _ Htc)).
    rewrite bind_unfold, ASSERT_false; [done|].
    apply bool_decide_eq_false_2. by intros E.
  - destruct (decide (ti ≠ c)) as [_|]; [|done].
    rewrite bind_unfold.
    rewrite (bind_Ret _ _ _ _ _ (load_task_Some _ _ _ Htc)).
    rewrite bind_unfold, ASSERT_true by (by apply bool_decide_eq_true_2).
    rewrite (bind_Ret _ _ _ _ _ (load_task_Some _ _ _ Ht)).
    rewrite ASSERT_false; [done|]. by apply bool_decide_eq_false_2.
  - rewrite bind_unfold, (Hpre Hok). rewrite bind_unfold.
    unfold is_preemption_enabled at 1.
    match goal with Hz : disable_preempt s = 0%nat |- _ => rewrite Hz end.
    change (bool_decide (0%nat = 0%nat)) with true.
    cbn [negb]. by rewrite bind_unfold, ASSERT_false.
  - rewrite bind_unfold, (Hpre Hok). rewrite bind_unfold.
    unfold is_preemption_enabled at 1.
    rewrite bool_decide_eq_false_2 by done. cbn [negb].
    rewrite bind_unfold, ASSERT_true by done.
    rewrite bind_unfold. unfold get at 1.
    by rewrite bind_unfold, ASSERT_false.
Qed.

(** X27. A call of [switch_to_task] whose assertions hold, with the
    preemption gate closed exactly once, on a target for which
    [process_signals] is not called (a kernel thread, a task that was in the
    kernel, or one whose saved status has [SR_SPP]): the call ends in
    [context_switch] with the saved registers of the target; there the
    target is the current task, it is RUNNING with a zero timeslice and
    [timer_ready] cleared, no other task has changed, interrupts are
    disabled, the preemption gate is open, and the page directory is that
    of the target's process when the target is a user task. *)
Theorem switch_to_task_hands_over (ti c : Z) (s : kstate) (t tc : task) :
  curr s = Some c -> tasks s !! c = Some tc -> tasks s !! ti = Some t ->
  ti = c \/ (state tc ≠ TASK_STATE_RUNNING /\ state t = TASK_STATE_RUNNABLE) ->
  disable_preempt s = 1%nat ->
  Switch.switch_to_task_safety_checks c ti s = true ->
  resumes_without_signals t ->
  exists s',
    Switch.switch_to_task ti s = NoReturn (context_switch (state_regs t)) s' /\
    curr s' = Some ti /\
    interrupts_enabled s' = false /\
    disable_preempt s' = 0%nat /\
    tasks s' = <[ti := set_timer_ready false
                         (set_timeslice 0 (set_state TASK_STATE_RUNNING t))]>
                 (tasks s) /\
    curr_pdir s' = (if decide (pi t = kernel_process_pi) then curr_pdir s
                    else pdir (procs s (pi t))) /\
    procs s' = procs s /\ user s' = user s.
Proof.
  intros Hc Htc Ht Hok Hdp Hsafe Hns.
  unfold Switch.switch_to_task.
  rewrite (bind_Ret _ _ _ _ _ (load_task_Some _ _ _ Ht)).
  rewrite bind_unfold. unfold get_curr_task at 1. rewrite Hc.
  rewrite bind_unfold, ASSERT_true by done. cbn beta iota.
  rewrite bind_unfold, (switch_prechecks_pass ti c s t tc Htc Ht Hok).
  rewrite bind_unfold. unfold is_preemption_enabled at 1. rewrite Hdp.
  change (bool_decide (1%nat = 0%nat)) with false. cbn [negb].
  rewrite bind_unfold, ASSERT_true by done.
  rewrite bind_unfold. unfold get at 1.
  rewrite bind_unfold, ASSERT_true by exact Hsafe.
  rewrite (bind_Ret _ _ _ _ _ (task_change_state_idempotent_run _ _ _ _ Ht)).
  set (tA := set_state TASK_STATE_RUNNING t).
  set (sA := set_tasks (<[ti:=tA]> (tasks s)) s).
  assert (HtA : tasks sA !! ti = Some tA) by apply lookup_insert_eq.
  rewrite (bind_Ret _ _ _ _ _ (update_task_Some _ _ _ _ HtA)).
  set (tB := set_timeslice 0 tA).
  set (sB := set_tasks (<[ti:=tB]> (tasks sA)) sA).
  assert (HtB : tasks sB !! ti = Some tB) by apply lookup_insert_eq.
  assert (HcB : exists tcB, tasks sB !! c = Some tcB).
  { destruct (decide (c = ti)) as [->|Hne]; [by exists tB|].
    exists tc. unfold sB, sA. cbn [tasks set_tasks].
    by rewrite !lookup_insert_ne. }
  destruct HcB as [tcB HcB].
  rewrite (bind_Ret _ _ _ _ _ (is_kernel_thread_Some _ _ _ HcB)).
  rewrite (bind_Ret _ _ _ _ _ (load_task_Some _ _ _ HcB)).
  destruct (save_fpu_phase
              (negb (bool_decide (pi tcB = kernel_process_pi))
               && bool_decide (state tcB ≠ TASK_STATE_ZOMBIE)) sB c tcB Hc HcB)
    as (lC & HC).
  rewrite (bind_Ret _ _ _ _ _ HC).
  set (sC := set_log lC sB).
  assert (HtC : tasks sC !! ti = Some tB) by exact HtB.
  rewrite (bind_Ret _ _ _ _ _ (is_kernel_thread_Some _ _ _ HtC)).
  destruct (user_phase ti sC tB HtC Hns) as (lD & HD).
  rewrite (bind_Ret _ _ _ _ _ HD).
  match goal with |- context [set_log lD ?x] => set (sD := set_log lD x) end.
  rewrite bind_unfold. unfold Switch.disable_interrupts_forced, modify at 1.
  rewrite bind_unfold.
  unfold Switch.switch_to_task_pop_nested_interrupts, emit, modify at 1.
  rewrite bind_unfold. unfold Switch.enable_preemption_nosched, enable_preemption.
  rewrite bind_unfold. unfold get at 1.
  rewrite bind_unfold, ASSERT_true
    by (apply bool_decide_eq_true_2; cbn; rewrite Hdp; done).
  unfold put.
  rewrite bind_unfold. unfold is_preemption_enabled at 1.
  match goal with |- context [bool_decide (disable_preempt ?x = 0%nat)] =>
    set (sG := x) end.
  assert (HdG : disable_preempt sG = 0%nat) by (cbn; by rewrite Hdp).
  rewrite bool_decide_eq_true_2 by exact HdG.
  rewrite bind_unfold, ASSERT_true by done.
  assert (HtG : tasks sG !! ti = Some tB) by exact HtB.
  rewrite (bind_Ret _ _ _ _ _ (load_task_Some _ _ _ HtG)).
  rewrite bind_unfold.
  assert (HH : exists e,
    (if negb (running_in_kernel tB) then Switch.task_info_reset_kernel_stack ti
     else Switch.adjust_nested_interrupts_for_task_in_kernel ti) sG
    = Ret tt (set_log (e :: log sG) sG)).
  { clear. destruct (running_in_kernel tB); eexists; reflexivity. }
  destruct HH as (e & ->).
  rewrite bind_unfold. unfold Switch.set_curr_task, modify at 1.
  match goal with |- context [set_curr (Some ti) ?x] =>
    set (sI := set_curr (Some ti) x) end.
  assert (HtI : tasks sI !! ti = Some tB) by exact HtB.
  rewrite (bind_Ret _ _ _ _ _ (update_task_Some _ _ _ _ HtI)).
  set (tJ := set_timer_ready false tB).
  set (sJ := set_tasks (<[ti:=tJ]> (tasks sI)) sI).
  assert (HtJ : tasks sJ !! ti = Some tJ) by apply lookup_insert_eq.
  rewrite (bind_Ret _ _ _ _ _ (load_task_Some _ _ _ HtJ)).
  exists sJ. split; [reflexivity|].
  split; [reflexivity|]. split; [reflexivity|]. split; [exact HdG|].
  split.
  { change (tasks sJ) with (<[ti:=tJ]> (<[ti:=tB]> (<[ti:=tA]> (tasks s)))).
    by rewrite !insert_insert_eq. }
  split; [|split; reflexivity].
  reflexivity.
Qed.

End SwitchMoreProofs.


(** Init runs and task 7 sleeps: a switch to task 7 halts at the first
    assertion. *)
Lemma switch_to_task_assertions_witness :
  Switch.switch_to_task (H := Examples.switch_quiet) 7 (Examples.state32 [0; 0])
    = Stop (AssertFailed "curr->state != TASK_STATE_RUNNING").
Proof.
  apply (switch_to_task_assertions (H := Examples.switch_quiet) 7 1
           (Examples.state32 [0; 0])
           (Examples.a_task 2 TASK_STATE_SLEEPING WOBJ_KCOND [0; 0])
           (Examples.a_task 1 TASK_STATE_RUNNING WOBJ_NONE [0; 0])).
  - reflexivity.
  - reflexivity.
  - reflexivity.
  - discriminate.
  - reflexivity.
Defined.

(** The kernel thread 10001 hands over to task 7. *)
Lemma switch_to_task_hands_over_witness :
  exists s',
    Switch.switch_to_task (H := Examples.switch_quiet) 7 MoreExamples.state_switch
      = NoReturn (context_switch Examples.regs0) s' /\
    curr s' = Some 7 /\
    interrupts_enabled s' = false /\
    disable_preempt s' = 0%nat /\
    tasks s' = <[7 := set_timer_ready false
                        (set_timeslice 0
                           (set_state TASK_STATE_RUNNING
                              MoreExamples.task7_in_kernel))]>
                 (tasks MoreExamples.state_switch) /\
    curr_pdir s' = 0 /\
    procs s' = procs MoreExamples.state_switch /\
    user s' = user MoreExamples.state_switch.
Proof.
  apply (switch_to_task_hands_over (H := Examples.switch_quiet) 7 10001
           MoreExamples.state_switch MoreExamples.task7_in_kernel
           (Examples.a_task 0 TASK_STATE_RUNNABLE WOBJ_NONE [0; 0])).
  - reflexivity.
  - reflexivity.
  - reflexivity.
  - right. split; [discriminate|reflexivity].
  - reflexivity.
  - reflexivity.
  - right. left. reflexivity.
Defined.


(** ** The debug panel's terminal helpers *)

Lemma to_int_small (x : Z) : DebugPanel.int_range x -> to_int x = x.
Proof.
  unfold DebugPanel.int_range, to_int. intros Hx.
  rewrite Z.mod_small; lia.
Qed.

Section PanelProofs.
Context `{DebugPanel.Env}.
Import DebugPanel.

(** X29. [dp_write] with no overflow of [int]: the highest row seen
    becomes the maximum of what it was and of the row relative to the start
    of the screen, whether or not anything is drawn; nothing is written when
    the row is above the scroll offset of the panel or, once scrolled, below
    the last but one row of the panel; otherwise the cursor is moved to the
    scrolled row, which lies between the first row of the screen and the
    last but one row of the panel, and to the column, the third of the panel
    when 0 is given, and the text is written there. *)
Theorem dp_write_spec (row col : Z) (fmt : string) (args : list fmt_arg)
    (p : panel) :
  int_range (row - dp_screen_start_row p) ->
  int_range (row - row_off p) ->
  int_range (dp_end_row p - 2) ->
  let p' := dp_write row col fmt args p in
  let relrow := row - dp_screen_start_row p in
  row_max p' = Z.max (row_max p) relrow /\
  row_off p' = row_off p /\ rev_colors p' = rev_colors p /\ video p' = video p /\
  (relrow < row_off p \/ row - row_off p > dp_end_row p - 2 ->
     written p' = written p) /\
  (row_off p <= relrow -> row - row_off p <= dp_end_row p - 2 ->
     dp_screen_start_row p <= row - row_off p <= dp_end_row p - 2 /\
     written p'
       = written
           (dp_write_raw fmt args
              (dp_move_cursor (row - row_off p)
                 (if decide (col = 0) then to_int (dp_start_col p + 2) else col) p))).
Proof.
  intros H1 H2 H3. cbv zeta. unfold dp_write.
  rewrite (to_int_small (row - dp_screen_start_row p)) by done.
  destruct p as [vid rc ssr er sc ro rm w]. cbn in H1, H2, H3 |- *.
  set (relrow := row - ssr) in *.
  destruct (decide (relrow > rm)) as [Hmax|Hmax]; cbn.
  all: rewrite (to_int_small (row - ro)), (to_int_small (er - 2)) by done.
  all: destruct (decide (relrow < ro)) as [Hlt|Hge]; cbn.
  all: try (repeat split; try done; try lia; intros; exfalso; lia).
  all: destruct (decide (row - ro > er - 2)) as [Hgt|Hle]; cbn.
  all: try (repeat split; try done; try lia; intros; exfalso; lia).
  all: unfold dp_write_raw, dp_move_cursor, dp_write_raw, dp_write_internal; cbn.
  all: destruct vid; cbn.
  all: repeat split; try done; try (unfold relrow in *; lia).
  all: intros [?|?]; exfalso; lia.
Qed.

Lemma panel_extends_refl (p : panel) : panel_extends p p.
Proof. exists []. repeat split; try done. Qed.

Lemma panel_extends_trans (p q r : panel) :
  panel_extends p q -> panel_extends q r -> panel_extends p r.
Proof.
  intros (n1 & Hw1 & Hf1 & Hv1 & Ho1 & Hs1 & He1 & Hc1 & Hm1 & Hr1)
         (n2 & Hw2 & Hf2 & Hv2 & Ho2 & Hs2 & He2 & Hc2 & Hm2 & Hr2).
  exists (n2 ++ n1). rewrite Hv1 in Hf2, Hr2.
  split; [by rewrite Hw2, Hw1, app_assoc|]. split; [by apply Forall_app|].
  repeat split; try congruence; try lia.
  intros Hv. rewrite Hr2, Hr1 by done. done.
Qed.

Lemma dp_write_raw_extends (fmt : string) (args : list fmt_arg) (p : panel) :
  panel_extends p (dp_write_raw fmt args p).
Proof.
  unfold dp_write_raw, dp_write_internal, panel_extends.
  destruct (video p) eqn:Hv.
  - eexists [_]. cbn. rewrite Hv. repeat split; try done; try lia.
    constructor; [|constructor]. cbn. split; [done|].
    destruct (rev_colors p); cbn; auto.
  - eexists [_]. cbn. rewrite Hv. repeat split; try done; try lia.
    constructor; [|constructor]. by cbn.
Qed.

Lemma set_row_max_extends (v : Z) (p : panel) :
  row_max p <= v -> panel_extends p (set_row_max v p).
Proof. intros Hv. exists []. repeat split; try done. Qed.

Lemma set_rev_colors_extends (v : bool) (p : panel) :
  video p = true -> panel_extends p (set_rev_colors v p).
Proof.
  intros Hv. exists []. repeat split; try done; try (cbn; lia).
  rewrite Hv. discriminate.
Qed.

Lemma exec_extends (c : dp_call) (p : panel) : panel_extends p (exec c p).
Proof.
  destruct c; cbn [exec]; try apply dp_write_raw_extends.
  - unfold dp_reverse_colors. destruct (video p) eqn:Hv.
    + by apply set_rev_colors_extends.
    + apply dp_write_raw_extends.
  - unfold dp_reset_attrs. destruct (video p) eqn:Hv.
    + by apply set_rev_colors_extends.
    + apply dp_write_raw_extends.
  - unfold dp_write.
    set (relrow := to_int (row - dp_screen_start_row p)).
    set (p1 := if decide (relrow > row_max p) then set_row_max relrow p else p).
    assert (Hp1 : panel_extends p p1).
    { unfold p1. destruct (decide (relrow > row_max p)).
      - apply set_row_max_extends. lia.
      - apply panel_extends_refl. }
    destruct (decide (relrow < row_off p1)); [done|].
    destruct (decide (to_int (row - row_off p1) > to_int (dp_end_row p1 - 2)));
      [done|].
    eapply panel_extends_trans; [exact Hp1|].
    eapply panel_extends_trans; [apply dp_write_raw_extends|].
    apply dp_write_raw_extends.
Qed.

(** X30. Along any sequence of calls of the helpers ([dp_write_raw],
    [dp_reverse_colors], [dp_reset_attrs], the cursor and buffer helpers
    and [dp_write]): nothing written before is lost; on a video terminal
    every write is a [term_write] in the colour of the panel or in its
    reverse colour; on any other terminal every write goes through the
    terminal interface with the colour 0 and [rev_colors] never changes;
    the scroll offset and the geometry are not written, and the highest row
    seen never decreases. *)
Theorem panel_writes (cs : list dp_call) (p : panel) :
  panel_extends p (run cs p).
Proof.
  revert p. induction cs as [|c cs IH]; intros p; cbn [run].
  - apply panel_extends_refl.
  - eapply panel_extends_trans; [apply exec_extends|apply IH].
Qed.

End PanelProofs.

(** Row 10 of a panel scrolled by 3 rows is drawn at row 7; with the
    column 0 the text goes to column 4. *)
Lemma dp_write_spec_witness :
  DebugPanel.row_max
    (DebugPanel.dp_write (H := PanelExamples.panel_env) 10 0 "%d"
       [DebugPanel.FmtInt 5] PanelExamples.a_panel) = 9 /\
  DebugPanel.written
    (DebugPanel.dp_write (H := PanelExamples.panel_env) 10 0 "%d"
       [DebugPanel.FmtInt 5] PanelExamples.a_panel)
  = [DebugPanel.term_write
       (DebugPanel.mk_text "%d" [DebugPanel.FmtInt 5]) 7;
     DebugPanel.term_write
       (DebugPanel.mk_text (DebugPanel.ESC ++ "[%d;%dH")
          [DebugPanel.FmtInt 7; DebugPanel.FmtInt 4]) 7].
Proof.
  destruct (dp_write_spec (H := PanelExamples.panel_env) 10 0 "%d"
              [DebugPanel.FmtInt 5] PanelExamples.a_panel)
    as (Hm & _ & _ & _ & _ & Hvis).
  - unfold DebugPanel.int_range. simpl. lia.
  - unfold DebugPanel.int_range. simpl. lia.
  - unfold DebugPanel.int_range. simpl. lia.
  - split; [exact Hm|].
    destruct Hvis as [_ Hw]; [simpl; lia|simpl; lia|]. exact Hw.
Defined.
